(** * Coverage assessment and the iterative improvement loop

    A shallow embedding of the assessment, generation, judgment and loop code
    of [src/agents.py], [src/framework.py] and [src/models.py].

    Conventions of the embedding:
    - a Python [int] is a [Z], a Python [float] is an exact rational [Q]
      (no rounding, no NaN, no infinities); the properties stated of a
      quotient or of a mean use its order only, which rounding keeps, and
      those that a NaN would break exclude it by a hypothesis on the text;
    - a Python [str] is a [string] whose characters are code points below 256;
    - a Python [set] of names is a [gset string], a [dict] written in
      insertion order is an association list, the directory of written test
      files is a [gmap] from file name to content;
    - the language model behind [self.llm.invoke] is an external service: its
      state is threaded explicitly and every call either yields the text of
      the response or raises. *)

From Stdlib Require Import ZArith QArith Qminmax Lqa Ascii String.
From stdpp Require Import gmap strings list.

Local Open Scope Z_scope.

(** ** Python string primitives used by the agents *)

Module PyStr.

(** [str.isspace] on one character. *)
Definition isspace (c : ascii) : bool :=
  let n := N_of_ascii c in
  (((9 <=? n) && (n <=? 13)) || ((28 <=? n) && (n <=? 32))
   || (n =? 133) || (n =? 160))%N.

Definition lower_char (c : ascii) : ascii :=
  let n := N_of_ascii c in
  if (((65 <=? n) && (n <=? 90))
      || ((192 <=? n) && (n <=? 222) && negb (n =? 215)))%N
  then ascii_of_N (n + 32) else c.

(** [s.lower()] *)
Fixpoint lower (s : string) : string :=
  match s with
  | EmptyString => EmptyString
  | String c r => String (lower_char c) (lower r)
  end.

Fixpoint lstrip (s : string) : string :=
  match s with
  | EmptyString => EmptyString
  | String c r => if isspace c then lstrip r else s
  end.

Fixpoint rstrip (s : string) : string :=
  match s with
  | EmptyString => EmptyString
  | String c r =>
      match rstrip r with
      | EmptyString => if isspace c then EmptyString else String c EmptyString
      | r' => String c r'
      end
  end.

(** [s.strip()] *)
Definition strip (s : string) : string := rstrip (lstrip s).

(** [s.startswith(p)] *)
Definition startswith (p s : string) : bool := String.prefix p s.

(** [s.find(sub, start)]: the lowest index at or after [start] where [sub]
    occurs, and -1 when there is none. *)
Definition find (sub s : string) (start : nat) : Z :=
  match String.index start sub s with
  | Some i => Z.of_nat i
  | None => -1
  end.

(** [sub in s] *)
Definition contains (sub s : string) : bool :=
  match String.index 0 sub s with
  | Some _ => true
  | None => false
  end.

(** [s.count(sub)] for a non-empty [sub]: occurrences that do not overlap,
    scanned from the left. [skip] characters of the last match are still to
    be passed over. *)
Fixpoint count_from (sub s : string) (skip : nat) : Z :=
  match s with
  | EmptyString => 0
  | String _ r =>
      match skip with
      | S k => count_from sub r k
      | O =>
          if String.prefix sub s
          then 1 + count_from sub r (String.length sub - 1)
          else count_from sub r 0
      end
  end.

Definition count (sub s : string) : Z := count_from sub s 0.

(** [s.split(sep)] for a separator of one character. *)
Fixpoint split (sep : ascii) (s : string) : list string :=
  match s with
  | EmptyString => [EmptyString]
  | String c r =>
      if Ascii.eqb c sep then EmptyString :: split sep r
      else match split sep r with
           | h :: t => String c h :: t
           | [] => [String c EmptyString]
           end
  end.

(** [s.split()]: the maximal runs of characters that are not white space. *)
Fixpoint split_ws (s : string) : list string :=
  match s with
  | EmptyString => []
  | String c r =>
      if isspace c then split_ws r
      else match r with
           | EmptyString => [String c EmptyString]
           | String c' _ =>
               if isspace c' then String c EmptyString :: split_ws r
               else match split_ws r with
                    | h :: t => String c h :: t
                    | [] => [String c EmptyString]
                    end
           end
  end.

(** An index of a slice brought into [0, len]: a negative index counts from
    the end. *)
Definition clamp_index (len i : Z) : Z :=
  if i <? 0 then Z.max (i + len) 0 else Z.min i len.

(** [s[start:stop]] *)
Definition slice (s : string) (start stop : Z) : string :=
  let len := Z.of_nat (String.length s) in
  let a := clamp_index len start in
  let b := clamp_index len stop in
  String.substring (Z.to_nat a) (Z.to_nat (b - a)) s.

(** [sep.join(l)] *)
Fixpoint join (sep : string) (l : list string) : string :=
  match l with
  | [] => EmptyString
  | [x] => x
  | x :: r => x +:+ sep +:+ join sep r
  end.

(** The line feed, as a string of one character. *)
Definition nl : string := String "010" EmptyString.

(** The truth value of a string: non-empty. *)
Definition truthy (s : string) : bool :=
  match s with EmptyString => false | String _ _ => true end.

(** The parts of a relative path as [pathlib] keeps them: empty components
    and single dots are dropped. *)
Definition path_parts (s : string) : list string :=
  filter (λ c, c ≠ EmptyString ∧ c ≠ ".") (split "/" s).

(** [Path.name]: the last part. *)
Definition path_name (parts : list string) : string :=
  List.last parts EmptyString.

End PyStr.

(** ** Data model ([src/models.py]) *)

Inductive CodeType := MODULE | CLASS | FUNCTION | METHOD.

Inductive TestType := UNIT | INTEGRATION | FUNCTIONAL | MUTATION.

(** A [pathlib.Path] is kept as the list of its parts; two paths are equal
    when their parts are. *)
Abbreviation Path := (list string) (only parsing).

Module CodeUnit.
Record t := mk {
  name : string;
  type : CodeType;
  file_path : Path;
  line_start : Z;
  line_end : Z;
  complexity : Z;
  dependencies : gset string;
  docstring : option string;
  signature : option string
}.

(** The triple that [__hash__] and [__eq__] use. *)
Definition key (u : t) : string * Path * Z :=
  (name u, file_path u, line_start u).
End CodeUnit.

Module TestCase.
Record t := mk {
  name : string;
  type : TestType;
  file_path : Path;
  line_start : Z;
  line_end : Z;
  tested_units : gset string;
  assertions : Z;
  mocks : Z;
  complexity : Z;
  docstring : option string;
  source_code : option string
}.

(** The triple that [__hash__] and [__eq__] use. *)
Definition key (x : t) : string * Path * Z :=
  (name x, file_path x, line_start x).

(** [x == y] *)
Definition py_eq (x y : t) : bool := bool_decide (key x = key y).
End TestCase.

Module QualityMetrics.
Record t := mk {
  coverage_percentage : Q;
  mutation_score : Q;
  assertion_density : Q;
  test_clarity_score : Q;
  complexity_score : Q;
  mock_coverage : Q;
  total_tests : Z;
  total_assertions : Z;
  total_mocks : Z;
  uncovered_units : gset string;
  low_quality_tests : list string
}.
End QualityMetrics.

(** The dictionary returned by the judge; a key that is absent is [None]. *)
Module Judgment.
Record t := mk {
  overall_score : option Q;
  criterion_scores : option (list (string * Q));
  feedback : option (list string)
}.

(** [judgment.get("overall_score", 0)] *)
Definition get_overall_score (j : t) : Q := default 0%Q (overall_score j).
End Judgment.

(** Truth value of an optional string: [None] and the empty string are false. *)
Definition opt_truthy (s : option string) : bool :=
  match s with
  | Some x => PyStr.truthy x
  | None => false
  end.

(** [len(l)] *)
Definition len {A} (l : list A) : Z := Z.of_nat (length l).

(** [sum(f(x) for x in l)] over integers, added from the left starting at 0. *)
Definition sum_of {A} (f : A → Z) (l : list A) : Z :=
  foldl (λ acc x, acc + f x) 0 l.

(** Strict comparison of two floats. *)
Definition Qltb (a b : Q) : bool := negb (Qle_bool b a).

(** [max(a, b)] and [min(a, b)] of two numbers: the first argument is kept
    unless the second is strictly better. *)
Definition py_max (a b : Q) : Q := if Qltb a b then b else a.
Definition py_min (a b : Q) : Q := if Qltb b a then b else a.

(** ** The external text generation service *)

(** The three requests the agents send. The text of each request is a fixed
    template filled with exactly the values listed here. *)
Inductive Prompt :=
  | ClarityPrompt (test_name source_code : string)
  | GenerationPrompt (code_unit : CodeUnit.t)
                     (existing_test_names : list string)
  | JudgmentPrompt (test_case : TestCase.t) (code_unit : CodeUnit.t).

(** What a call of [llm.invoke] does: it returns a response with its text,
    or it raises. *)
Inductive Reply :=
  | Content (text : string)
  | Raises.

(** The mutable state of [TestingFramework] that the loop reads and writes.
    [test_dir] is the content of the tests directory, by file name. *)
Module TestingFramework.
Record t := mk {
  code_units : list CodeUnit.t;
  test_cases : list TestCase.t;
  generated_tests : list TestCase.t;
  test_dir : gmap string string
}.
End TestingFramework.

(** What one pass of the loop body printed before it ended. *)
Inductive Outcome :=
  | NoTargets       (* "No units need improvement" *)
  | NoImprovement   (* "No improvements made in this iteration" *)
  | Improved.       (* at least one test was accepted *)

(** ** Test doubles

    A scripted service and a reader of plain decimal numerals, used to run
    the agents on concrete inputs. *)

Module Stub.

(** The service answers with the replies of a script, one per call, and
    raises once the script is used up. *)
Definition scripted (script : list Reply) (_ : Prompt) : list Reply * Reply :=
  match script with
  | [] => ([], Raises)
  | r :: rest => (rest, r)
  end.

Definition digit (c : ascii) : option Z :=
  let n := N_of_ascii c in
  if ((48 <=? n) && (n <=? 57))%N then Some (Z.of_N (n - 48)) else None.

Fixpoint digits (s : string) (acc : Z) : option Z :=
  match s with
  | EmptyString => Some acc
  | String c r =>
      match digit c with
      | Some d => digits r (10 * acc + d)
      | None => None
      end
  end.

(** [float] on the numerals [ddd], [ddd.ddd], [ddd.] and [.ddd]; every other
    text is refused. *)
Definition decimal (s : string) : option Q :=
  match PyStr.split "." s with
  | [i] =>
      if PyStr.truthy i then inject_Z <$> digits i 0 else None
  | [i; f] =>
      if PyStr.truthy i || PyStr.truthy f then
        match digits i 0, digits f 0 with
        | Some a, Some b =>
            let scale := 10 ^ Z.of_nat (String.length f) in
            Some (Qred (inject_Z (a * scale + b) / inject_Z scale))
        | _, _ => None
        end
      else None
  | _ => None
  end.

(** A function [name] of a module [m.py]. *)
Definition unit_named (name : string) : CodeUnit.t :=
  {| CodeUnit.name := name;
     CodeUnit.type := FUNCTION;
     CodeUnit.file_path := ["src"; "m.py"];
     CodeUnit.line_start := 1;
     CodeUnit.line_end := 2;
     CodeUnit.complexity := 0;
     CodeUnit.dependencies := ∅;
     CodeUnit.docstring := None;
     CodeUnit.signature := None |}.

(** A discovered test with the given associations and body. *)
Definition test_named (name : string) (tested : gset string)
    (source : option string) : TestCase.t :=
  {| TestCase.name := name;
     TestCase.type := UNIT;
     TestCase.file_path := ["tests"; "test_m.py"];
     TestCase.line_start := 1;
     TestCase.line_end := 2;
     TestCase.tested_units := tested;
     TestCase.assertions := 1;
     TestCase.mocks := 0;
     TestCase.complexity := 1;
     TestCase.docstring := None;
     TestCase.source_code := source |}.

(** A test with the given counters and docstring. *)
Definition test_with (assertions mocks complexity : Z)
    (docstring : option string) : TestCase.t :=
  {| TestCase.name := "test_x";
     TestCase.type := UNIT;
     TestCase.file_path := ["tests"; "test_m.py"];
     TestCase.line_start := 1;
     TestCase.line_end := 2;
     TestCase.tested_units := ∅;
     TestCase.assertions := assertions;
     TestCase.mocks := mocks;
     TestCase.complexity := complexity;
     TestCase.docstring := docstring;
     TestCase.source_code := None |}.

(** A framework that knows the given units and tests and has written
    nothing yet. *)
Definition framework_of (units : list CodeUnit.t) (tests : list TestCase.t)
  : TestingFramework.t :=
  {| TestingFramework.code_units := units;
     TestingFramework.test_cases := tests;
     TestingFramework.generated_tests := [];
     TestingFramework.test_dir := ∅ |}.

End Stub.

(** ** More of the data model and of the configuration

    Mutation results and audit reports ([src/models.py]), the choice of a
    provider ([src/llm_config.py]). *)

(** [c.isdigit()] on one character: the ten digits and the three superscript
    digits below 256. *)
Definition isdigit_char (c : ascii) : bool :=
  let n := N_of_ascii c in
  (((48 <=? n) && (n <=? 57)) || (n =? 178) || (n =? 179) || (n =? 185))%N.

Fixpoint all_chars (p : ascii → bool) (s : string) : bool :=
  match s with
  | EmptyString => true
  | String c r => p c && all_chars p r
  end.

(** [s.isdigit()]: not empty and made of digits only. *)
Definition py_isdigit (s : string) : bool :=
  PyStr.truthy s && all_chars isdigit_char s.

Module MutationResults.
(** The counters and the score; the details and the time stamp are not
    used by the code embedded here. *)
Record t := mk {
  total_mutations : Z;
  killed_mutations : Z;
  survived_mutations : Z;
  timeout_mutations : Z;
  mutation_score : Q
}.

(** [MutationResults()] *)
Definition new : t := mk 0 0 0 0 0%Q.

(** The quotient is exact here; the float of the code is its rounding. *)
Definition calculate_score (r : t) : Q :=
  if total_mutations r =? 0 then 0%Q
  else (inject_Z (killed_mutations r) / inject_Z (total_mutations r) * 100)%Q.
End MutationResults.

Module AuditReport.
Record t := mk {
  project_name : string;
  before_metrics : option QualityMetrics.t;
  after_metrics : option QualityMetrics.t;
  before_mutation : option MutationResults.t;
  after_mutation : option MutationResults.t;
  improvements : list string;
  recommendations : list string;
  generated_tests : list TestCase.t;
  modified_tests : list TestCase.t
}.

(** The dictionary of deltas, in the order of its keys; empty when one of the
    two metrics is missing. *)
Definition get_improvement_summary (r : t) : list (string * Q) :=
  match before_metrics r, after_metrics r with
  | Some b, Some a =>
      [("coverage_delta",
        (QualityMetrics.coverage_percentage a
         - QualityMetrics.coverage_percentage b)%Q);
       ("mutation_score_delta",
        (QualityMetrics.mutation_score a - QualityMetrics.mutation_score b)%Q);
       ("assertion_density_delta",
        (QualityMetrics.assertion_density a
         - QualityMetrics.assertion_density b)%Q);
       ("test_clarity_delta",
        (QualityMetrics.test_clarity_score a
         - QualityMetrics.test_clarity_score b)%Q);
       ("complexity_score_delta",
        (QualityMetrics.complexity_score a
         - QualityMetrics.complexity_score b)%Q);
       ("mock_coverage_delta",
        (QualityMetrics.mock_coverage a - QualityMetrics.mock_coverage b)%Q);
       ("tests_added",
        inject_Z (QualityMetrics.total_tests a - QualityMetrics.total_tests b));
       ("assertions_added",
        inject_Z (QualityMetrics.total_assertions a
                  - QualityMetrics.total_assertions b))]
  | _, _ => []
  end.
End AuditReport.

(** How the external mutation run ended: with its two output texts, or with
    an exception. *)
Inductive ProcessOutcome :=
  | Completed (stdout stderr : string)
  | Failed.

(** The dictionary returned by [get_codebase_summary]; [test_types] keeps
    the order of the enumeration. *)
Module CodebaseSummary.
Record t := mk {
  total_code_units : Z;
  modules : Z;
  classes : Z;
  functions : Z;
  methods : Z;
  total_tests : Z;
  test_types : list (string * Z)
}.
End CodebaseSummary.

#[global] Instance CodeType_eq_dec : EqDecision CodeType.
Proof. solve_decision. Defined.

#[global] Instance TestType_eq_dec : EqDecision TestType.
Proof. solve_decision. Defined.

(** [test_type.value] *)
Definition test_type_value (ty : TestType) : string :=
  match ty with
  | UNIT => "unit"
  | INTEGRATION => "integration"
  | FUNCTIONAL => "functional"
  | MUTATION => "mutation"
  end.

Module LLMConfig.

Inductive Provider :=
  | OPENAI | AZURE_OPENAI | ANTHROPIC | GOOGLE | COHERE | CUSTOM.

(** The result of a call that may raise. *)
Inductive PyResult (A : Type) :=
  | Ok (a : A)
  | ValueError
  | KeyError.
Arguments Ok {A} a.
Arguments ValueError {A}.
Arguments KeyError {A}.

Record LiteLLMWrapper := mkLLM {
  model : string;
  provider : Provider;
  temperature : Q;
  max_tokens : option Z
}.

(** [bool(os.getenv(name))] in the environment [env]. *)
Definition has_key (env : gmap string string) (name : string) : bool :=
  opt_truthy (env !! name).

(** The dictionary of [get_available_providers]: it has no entry for
    [CUSTOM]. *)
Definition get_available_providers (env : gmap string string) (p : Provider)
  : option bool :=
  match p with
  | OPENAI => Some (has_key env "OPENAI_API_KEY")
  | AZURE_OPENAI => Some (has_key env "AZURE_API_KEY")
  | ANTHROPIC => Some (has_key env "ANTHROPIC_API_KEY")
  | GOOGLE => Some (has_key env "GOOGLE_API_KEY")
  | COHERE => Some (has_key env "COHERE_API_KEY")
  | CUSTOM => None
  end.

Definition priority : list Provider :=
  [AZURE_OPENAI; OPENAI; ANTHROPIC; GOOGLE; COHERE].

(** The loop [for provider in priority: if available[provider]: return]. *)
Fixpoint first_available (available : Provider → option bool)
    (candidates : list Provider) : PyResult Provider :=
  match candidates with
  | [] => ValueError
  | p :: rest =>
      match available p with
      | Some true => Ok p
      | Some false => first_available available rest
      | None => KeyError
      end
  end.

Definition get_default_provider (env : gmap string string)
  : PyResult Provider :=
  first_available (get_available_providers env) priority.

(** [defaults.get(provider, "gpt-4")] *)
Definition get_default_model (p : Provider) : string :=
  match p with
  | OPENAI => "gpt-4"
  | AZURE_OPENAI => "gpt-4"
  | ANTHROPIC => "claude-3-sonnet-20240229"
  | GOOGLE => "gemini-pro"
  | COHERE => "command"
  | CUSTOM => "gpt-4"
  end.

Definition create_llm (env : gmap string string) (provider : option Provider)
    (model : option string) (temperature : Q) : PyResult LiteLLMWrapper :=
  let chosen :=
    match provider with
    | Some p => Ok p
    | None => get_default_provider env
    end in
  match chosen with
  | Ok p =>
      let model := default (get_default_model p) model in
      match get_available_providers env p with
      | None => KeyError
      | Some false => ValueError
      | Some true =>
          Ok {| model := model; provider := p; temperature := temperature;
                max_tokens := None |}
      end
  | ValueError => ValueError
  | KeyError => KeyError
  end.

(** [os.environ[name] = os.getenv(name)] when the value is set and not
    empty. *)
Definition export (name : string) (env : gmap string string)
  : gmap string string :=
  match env !! name with
  | Some v => if PyStr.truthy v then <[ name := v ]> env else env
  | None => env
  end.

Definition _setup_environment (env : gmap string string)
  : gmap string string :=
  let env :=
    if has_key env "AZURE_API_KEY" then
      export "AZURE_API_VERSION"
        (export "AZURE_API_BASE" (export "AZURE_API_KEY" env))
    else env in
  let env := export "OPENAI_API_KEY" env in
  let env := export "ANTHROPIC_API_KEY" env in
  let env := export "GOOGLE_API_KEY" env in
  export "COHERE_API_KEY" env.

End LLMConfig.

(** More test doubles: a reader of unsigned decimal integers and two
    printers that are good enough to run the report code. *)
Module StubMore.

(** [int] on a text of ASCII digits. *)
Definition int (s : string) : option Z :=
  if PyStr.truthy s then Stub.digits s 0 else None.

Definition format_1f (q : Q) : string := "<float>".

Definition str_int (n : Z) : string := "<int>".

End StubMore.

(** ** The agents ([src/agents.py]) and the loop ([src/framework.py]) *)

Section Agents.

(** The state of the external service and its one operation. *)
Context {Oracle : Type}.
Variable invoke : Oracle → Prompt → Oracle * Reply.

(** The builtin [float(s)]: the number a text denotes, [None] where the
    builtin raises [ValueError]. *)
Variable py_float : string → option Q.

(** [list(s)] of a set: the order in which Python enumerates it. Nothing is
    assumed about this order. *)
Variable list_of_set : gset string → list string.

(** *** TestAssessorAgent *)

(** The loop [for test in test_cases:
    covered_units.update(test.tested_units)]. *)
Definition covered_units (test_cases : list TestCase.t) : gset string :=
  foldl (λ covered test, covered ∪ TestCase.tested_units test) ∅
        test_cases.

(** The comprehension [{unit.name for unit in code_units}]. *)
Definition unit_names (code_units : list CodeUnit.t) : gset string :=
  foldl (λ names unit, names ∪ {[ CodeUnit.name unit ]}) ∅ code_units.

(** One response of the clarity request turned into a score. *)
Definition clarity_of_reply (r : Reply) : Q :=
  match r with
  | Content text =>
      match py_float (PyStr.strip text) with
      | Some score => py_min (py_max score 0) 10
      | None => 5
      end
  | Raises => 5
  end.

(** The body of the loop over [test_cases[:10]]. *)
Fixpoint clarity_loop (o : Oracle) (tests : list TestCase.t) (total_score : Q)
  : Oracle * Q :=
  match tests with
  | [] => (o, total_score)
  | test :: rest =>
      if opt_truthy (TestCase.source_code test) then
        let prompt :=
          ClarityPrompt (TestCase.name test)
                        (default EmptyString (TestCase.source_code test)) in
        let '(o', r) := invoke o prompt in
        clarity_loop o' rest (total_score + clarity_of_reply r)%Q
      else clarity_loop o rest total_score
  end.

Definition _assess_test_clarity (o : Oracle) (test_cases : list TestCase.t)
  : Oracle * Q :=
  match test_cases with
  | [] => (o, 0%Q)
  | _ =>
      let '(o', total_score) := clarity_loop o (take 10 test_cases) 0%Q in
      (o', (total_score / inject_Z (Z.min (len test_cases) 10))%Q)
  end.

(** The [issues] list of one test, appended to in the order of the checks. *)
Definition issues_of (test : TestCase.t) : list string :=
  let issues := [] in
  let issues :=
    if TestCase.assertions test =? 0 then issues ++ ["no assertions"]
    else issues in
  let issues :=
    if 5 <? TestCase.complexity test then issues ++ ["high complexity"]
    else issues in
  let issues :=
    if negb (opt_truthy (TestCase.docstring test))
    then issues ++ ["no documentation"] else issues in
  let issues :=
    if (TestCase.mocks test =? 0) && (0 <? TestCase.assertions test)
    then issues ++ ["no mocking"] else issues in
  issues.

(** The entry [f"{test.name} ({', '.join(issues)})"]. *)
Definition diagnostic (test : TestCase.t) (issues : list string) : string :=
  TestCase.name test +:+ " (" +:+ PyStr.join ", " issues +:+ ")".

Definition _identify_low_quality_tests (test_cases : list TestCase.t)
  : list string :=
  foldl (λ low_quality test,
           match issues_of test with
           | [] => low_quality
           | issues => low_quality ++ [diagnostic test issues]
           end) [] test_cases.

Definition assess_quality (o : Oracle) (code_units : list CodeUnit.t)
    (test_cases : list TestCase.t) : Oracle * QualityMetrics.t :=
  let covered := covered_units test_cases in
  let uncovered := unit_names code_units ∖ covered in
  let coverage :=
    match code_units with
    | [] => 0%Q
    | _ => (inject_Z (Z.of_nat (size covered)) / inject_Z (len code_units)
            * 100)%Q
    end in
  let total_assertions := sum_of TestCase.assertions test_cases in
  let assertion_density :=
    match test_cases with
    | [] => 0%Q
    | _ => (inject_Z total_assertions / inject_Z (len test_cases))%Q
    end in
  let total_mocks := sum_of TestCase.mocks test_cases in
  let mock_coverage :=
    match test_cases with
    | [] => 0%Q
    | _ => (inject_Z total_mocks / inject_Z (len test_cases))%Q
    end in
  let total_complexity := sum_of TestCase.complexity test_cases in
  let complexity_score :=
    match test_cases with
    | [] => 0%Q
    | _ => (inject_Z total_complexity / inject_Z (len test_cases))%Q
    end in
  let '(o', clarity) := _assess_test_clarity o test_cases in
  (o', {| QualityMetrics.coverage_percentage := coverage;
          QualityMetrics.mutation_score := 0%Q;
          QualityMetrics.assertion_density := assertion_density;
          QualityMetrics.test_clarity_score := clarity;
          QualityMetrics.complexity_score := complexity_score;
          QualityMetrics.mock_coverage := mock_coverage;
          QualityMetrics.total_tests := len test_cases;
          QualityMetrics.total_assertions := total_assertions;
          QualityMetrics.total_mocks := total_mocks;
          QualityMetrics.uncovered_units := uncovered;
          QualityMetrics.low_quality_tests :=
            _identify_low_quality_tests test_cases |}).

(** *** TestGeneratorAgent *)

Definition _extract_test_code (response : string) : string :=
  if PyStr.contains "```python" response then
    let start := PyStr.find "```python" response 0 + 9 in
    let end_ := PyStr.find "```" response (Z.to_nat start) in
    PyStr.strip (PyStr.slice response start end_)
  else if PyStr.contains "```" response then
    let start := PyStr.find "```" response 0 + 3 in
    let end_ := PyStr.find "```" response (Z.to_nat start) in
    PyStr.strip (PyStr.slice response start end_)
  else PyStr.strip response.

Definition _count_assertions_in_code (code : string) : Z :=
  PyStr.count "assert " code + PyStr.count ".assert" code.

Definition _count_mocks_in_code (code : string) : Z :=
  PyStr.count "mock" code + PyStr.count "Mock" code + PyStr.count "patch" code.

(** The test case that [generate_tests] builds from the extracted code. *)
Definition generated_test (code_unit : CodeUnit.t) (generated_code : string)
  : TestCase.t :=
  {| TestCase.name := "test_" +:+ CodeUnit.name code_unit;
     TestCase.type := UNIT;
     TestCase.file_path :=
       PyStr.path_parts ("tests/test_" +:+ CodeUnit.name code_unit +:+ ".py");
     TestCase.line_start := 1;
     TestCase.line_end := len (PyStr.split "010" generated_code);
     TestCase.tested_units := {[ CodeUnit.name code_unit ]};
     TestCase.assertions := _count_assertions_in_code generated_code;
     TestCase.mocks := _count_mocks_in_code generated_code;
     TestCase.complexity := 0;
     TestCase.docstring := None;
     TestCase.source_code := Some generated_code |}.

Definition generate_tests (o : Oracle) (code_unit : CodeUnit.t)
    (existing_tests : list TestCase.t) : Oracle * list TestCase.t :=
  let prompt := GenerationPrompt code_unit (TestCase.name <$> existing_tests) in
  match invoke o prompt with
  | (o', Content text) =>
      let generated_code := _extract_test_code text in
      if PyStr.truthy generated_code
      then (o', [generated_test code_unit generated_code])
      else (o', [])
  | (o', Raises) => (o', [])
  end.

(** *** TestJudgeAgent *)

Definition criteria : list string :=
  ["coverage"; "variety"; "assertion"; "mocking"; "readability";
   "documentation"].

(** [any(criterion in line.lower() for criterion in [...])] *)
Definition mentions_criterion (line : string) : bool :=
  existsb (λ criterion, PyStr.contains criterion (PyStr.lower line)) criteria.

(** [scores[criterion] = score]: an existing key keeps its place and takes
    the new value, a new key goes to the end. *)
Fixpoint dict_set (scores : list (string * Q)) (criterion : string) (score : Q)
  : list (string * Q) :=
  match scores with
  | [] => [(criterion, score)]
  | (k, v) :: rest =>
      if String.eqb k criterion then (k, score) :: rest
      else (k, v) :: dict_set rest criterion score
  end.

(** The [try] block of a line that mentions a criterion. [None] stands for
    both ways of leaving it without an assignment: fewer than two parts, or an
    exception ([IndexError] of [split()[0]], [ValueError] of [float]). *)
Definition score_of_line (line : string) : option (string * Q) :=
  match PyStr.split ":" line with
  | part0 :: part1 :: _ =>
      let criterion := PyStr.strip part0 in
      let score_text := PyStr.strip part1 in
      match PyStr.split_ws score_text with
      | token :: _ =>
          match py_float token with
          | Some score => Some (criterion, score)
          | None => None
          end
      | [] => None
      end
  | _ => None
  end.

(** The body of [for line in lines]. *)
Definition parse_line (acc : list (string * Q) * list string) (line : string)
  : list (string * Q) * list string :=
  let '(scores, feedback) := acc in
  if mentions_criterion line then
    match score_of_line line with
    | Some (criterion, score) => (dict_set scores criterion score, feedback)
    | None => (scores, feedback)
    end
  else if PyStr.truthy (PyStr.strip line) && negb (PyStr.startswith "#" line)
  then (scores, feedback ++ [PyStr.strip line])
  else (scores, feedback).

(** [sum(scores.values())] *)
Definition sum_values (scores : list (string * Q)) : Q :=
  foldl (λ acc kv, (acc + kv.2)%Q) 0%Q scores.

Definition mean_or_neutral (scores : list (string * Q)) : Q :=
  match scores with
  | [] => 5%Q
  | _ => (sum_values scores / inject_Z (len scores))%Q
  end.

Definition _parse_judgment_response (response : string) : Judgment.t :=
  let lines := PyStr.split "010" response in
  let '(scores, feedback) := foldl parse_line ([], []) lines in
  {| Judgment.overall_score := Some (mean_or_neutral scores);
     Judgment.criterion_scores := Some scores;
     Judgment.feedback := Some feedback |}.

(** The dictionary returned from the [except] branch of [judge_test]. *)
Definition error_judgment : Judgment.t :=
  {| Judgment.overall_score := Some 5%Q;
     Judgment.criterion_scores := None;
     Judgment.feedback := Some ["Error in evaluation"] |}.

Definition judge_test (o : Oracle) (test_case : TestCase.t)
    (code_unit : CodeUnit.t) : Oracle * Judgment.t :=
  match invoke o (JudgmentPrompt test_case code_unit) with
  | (o', Content text) => (o', _parse_judgment_response text)
  | (o', Raises) => (o', error_judgment)
  end.

(** *** TestingFramework *)

Definition _identify_uncovered_units (s : TestingFramework.t) : gset string :=
  let covered :=
    foldl (λ covered test, covered ∪ TestCase.tested_units test) ∅
          (TestingFramework.test_cases s) in
  let all_units :=
    foldl (λ names unit, names ∪ {[ CodeUnit.name unit ]}) ∅
          (TestingFramework.code_units s) in
  all_units ∖ covered.

(** The dictionary [unit_tests]: for every name, the tests that list it. *)
Definition group_by_unit (test_cases : list TestCase.t)
  : gmap string (list TestCase.t) :=
  foldl (λ unit_tests test,
           set_fold
             (λ unit_name (m : gmap string (list TestCase.t)),
                <[ unit_name := default [] (m !! unit_name) ++ [test] ]> m)
             unit_tests (TestCase.tested_units test))
        ∅ test_cases.

Definition _identify_low_quality_units (s : TestingFramework.t) : gset string :=
  dom (filter (λ kv : string * list TestCase.t,
                 sum_of TestCase.assertions kv.2 < 3
                 ∨ sum_of TestCase.mocks kv.2 < 1)
              (group_by_unit (TestingFramework.test_cases s))).

Fixpoint _find_code_unit_in (code_units : list CodeUnit.t) (unit_name : string)
  : option CodeUnit.t :=
  match code_units with
  | [] => None
  | unit :: rest =>
      if String.eqb (CodeUnit.name unit) unit_name then Some unit
      else _find_code_unit_in rest unit_name
  end.

Definition _find_code_unit (s : TestingFramework.t) (unit_name : string)
  : option CodeUnit.t :=
  _find_code_unit_in (TestingFramework.code_units s) unit_name.

(** The text written to a test file. *)
Definition test_file_content (test_case : TestCase.t) : string :=
  "import pytest" +:+ PyStr.nl +:+
  "from pathlib import Path" +:+ PyStr.nl +:+
  "import sys" +:+ PyStr.nl +:+ PyStr.nl +:+
  "# Add src to path for imports" +:+ PyStr.nl +:+
  "sys.path.insert(0, str(Path(__file__).parent.parent / " +:+
  String "034" "src" +:+ String "034" "))" +:+ PyStr.nl +:+ PyStr.nl +:+
  default "None" (TestCase.source_code test_case) +:+ PyStr.nl.

(** [_save_test_case]: the file named after the last part of the test's path
    is created or overwritten. *)
Definition _save_test_case (s : TestingFramework.t) (test_case : TestCase.t)
  : TestingFramework.t :=
  {| TestingFramework.code_units := TestingFramework.code_units s;
     TestingFramework.test_cases := TestingFramework.test_cases s;
     TestingFramework.generated_tests := TestingFramework.generated_tests s;
     TestingFramework.test_dir :=
       <[ PyStr.path_name (TestCase.file_path test_case)
          := test_file_content test_case ]> (TestingFramework.test_dir s) |}.

(** The three statements after a judgment that passes the threshold. *)
Definition accept (s : TestingFramework.t) (test : TestCase.t)
  : TestingFramework.t :=
  let s1 := _save_test_case s test in
  {| TestingFramework.code_units := TestingFramework.code_units s1;
     TestingFramework.test_cases := TestingFramework.test_cases s1 ++ [test];
     TestingFramework.generated_tests :=
       TestingFramework.generated_tests s1 ++ [test];
     TestingFramework.test_dir := TestingFramework.test_dir s1 |}.

(** The state the inner loops thread: the service, the framework, and the
    flag [improvements_made]. *)
Definition LoopState : Type := Oracle * TestingFramework.t * bool.

(** The body of [for test in new_tests]. *)
Definition judge_candidate (unit : CodeUnit.t) (st : LoopState)
    (test : TestCase.t) : LoopState :=
  let '(o, s, improvements_made) := st in
  let '(o', judgment) := judge_test o test unit in
  if Qle_bool 7 (Judgment.get_overall_score judgment)
  then (o', accept s test, true)
  else (o', s, improvements_made).

(** The body of [for unit_name in target_units[:5]]. *)
Definition process_target (st : LoopState) (unit_name : string) : LoopState :=
  let '(o, s, improvements_made) := st in
  match _find_code_unit s unit_name with
  | None => st
  | Some unit =>
      let '(o', new_tests) :=
        generate_tests o unit (TestingFramework.test_cases s) in
      foldl (judge_candidate unit) (o', s, improvements_made) new_tests
  end.

Definition target_units (s : TestingFramework.t) : list string :=
  list_of_set (_identify_uncovered_units s)
  ++ list_of_set (_identify_low_quality_units s).

(** The loop [for iteration in range(max_iterations)], with [n] passes left.
    Besides the final state it returns what each pass that was entered
    printed, in order. *)
Fixpoint improve_loop (n : nat) (o : Oracle) (s : TestingFramework.t)
  : Oracle * TestingFramework.t * list Outcome :=
  match n with
  | O => (o, s, [])
  | S n' =>
      match target_units s with
      | [] => (o, s, [NoTargets])
      | targets =>
          let '(o', s', improvements_made) :=
            foldl process_target (o, s, false) (take 5 targets) in
          if improvements_made then
            let '(o'', s'', outcomes) := improve_loop n' o' s' in
            (o'', s'', Improved :: outcomes)
          else (o', s', [NoImprovement])
      end
  end.

Definition _improve_tests_iteratively (max_iterations : Z) (o : Oracle)
    (s : TestingFramework.t) : Oracle * TestingFramework.t * list Outcome :=
  improve_loop (Z.to_nat max_iterations) o s.

(** *** The rest of TestingFramework, and the command line *)

Section Audit.

(** The builtin [int(s)] on a text, [None] where it raises. *)
Variable py_int : string → option Z.

(** The formats [f"{x:.1f}"] of a float and [f"{n}"] of an integer. *)
Variable format_1f : Q → string.
Variable str_int : Z → string.

(** On a text of digits [int] yields no negative number. *)
Definition int_of_digits_nonneg : Prop :=
  ∀ (part : string) (n : Z),
    py_isdigit part = true → py_int part = Some n → 0 ≤ n.

(** [list(s)] enumerates the elements of [s] and nothing else. *)
Definition enumerates_elements : Prop :=
  ∀ (X : gset string) (x : string), x ∈ list_of_set X ↔ x ∈ X.

(** The first part of a line that [isdigit] accepts. *)
Fixpoint first_isdigit (parts : list string) : option string :=
  match parts with
  | [] => None
  | part :: rest =>
      if py_isdigit part then Some part else first_isdigit rest
  end.

(** The [try] block of a line of the mutation output: the counter takes the
    value of the first part made of digits; without such a part, or when
    [int] raises, it keeps its value. *)
Definition count_in_line (line : string) (current : Z) : Z :=
  match first_isdigit (PyStr.split_ws line) with
  | Some part =>
      match py_int part with
      | Some n => n
      | None => current
      end
  | None => current
  end.

Definition parse_mutmut_line (r : MutationResults.t) (line : string)
  : MutationResults.t :=
  if PyStr.contains "surviving" (PyStr.lower line) then
    {| MutationResults.total_mutations := MutationResults.total_mutations r;
       MutationResults.killed_mutations := MutationResults.killed_mutations r;
       MutationResults.survived_mutations :=
         count_in_line line (MutationResults.survived_mutations r);
       MutationResults.timeout_mutations :=
         MutationResults.timeout_mutations r;
       MutationResults.mutation_score := MutationResults.mutation_score r |}
  else if PyStr.contains "killed" (PyStr.lower line) then
    {| MutationResults.total_mutations := MutationResults.total_mutations r;
       MutationResults.killed_mutations :=
         count_in_line line (MutationResults.killed_mutations r);
       MutationResults.survived_mutations :=
         MutationResults.survived_mutations r;
       MutationResults.timeout_mutations :=
         MutationResults.timeout_mutations r;
       MutationResults.mutation_score := MutationResults.mutation_score r |}
  else r.

Definition _parse_mutmut_results (stdout stderr : string)
  : MutationResults.t :=
  let r := foldl parse_mutmut_line MutationResults.new
                 (PyStr.split "010" stdout) in
  let r :=
    {| MutationResults.total_mutations :=
         MutationResults.killed_mutations r
         + MutationResults.survived_mutations r;
       MutationResults.killed_mutations := MutationResults.killed_mutations r;
       MutationResults.survived_mutations :=
         MutationResults.survived_mutations r;
       MutationResults.timeout_mutations :=
         MutationResults.timeout_mutations r;
       MutationResults.mutation_score := MutationResults.mutation_score r |} in
  {| MutationResults.total_mutations := MutationResults.total_mutations r;
     MutationResults.killed_mutations := MutationResults.killed_mutations r;
     MutationResults.survived_mutations :=
       MutationResults.survived_mutations r;
     MutationResults.timeout_mutations := MutationResults.timeout_mutations r;
     MutationResults.mutation_score := MutationResults.calculate_score r |}.

(** The copy of the project and the run of the mutation tool are external;
    any exception gives the empty results. *)
Definition _run_mutation_testing (outcome : ProcessOutcome)
  : MutationResults.t :=
  match outcome with
  | Completed stdout stderr => _parse_mutmut_results stdout stderr
  | Failed => MutationResults.new
  end.

(** The [improvements] of [_generate_audit_report]. *)
Definition report_improvements (before after : option QualityMetrics.t)
  : list string :=
  match before, after with
  | Some b, Some a =>
      let coverage_delta :=
        (QualityMetrics.coverage_percentage a
         - QualityMetrics.coverage_percentage b)%Q in
      let improvements :=
        if Qltb 0 coverage_delta
        then ["Coverage improved by " +:+ format_1f coverage_delta +:+ "%"]
        else [] in
      let tests_added :=
        QualityMetrics.total_tests a - QualityMetrics.total_tests b in
      if 0 <? tests_added
      then improvements
           ++ ["Added " +:+ str_int tests_added +:+ " new test cases"]
      else improvements
  | _, _ => []
  end.

(** The [recommendations] of [_generate_audit_report]. *)
Definition report_recommendations (after : option QualityMetrics.t)
  : list string :=
  match after with
  | Some a =>
      let recommendations :=
        if Qltb (QualityMetrics.coverage_percentage a) 80
        then ["Increase test coverage to at least 80%"] else [] in
      let recommendations :=
        if Qltb (QualityMetrics.mutation_score a) 70
        then recommendations
             ++ ["Improve mutation score by adding more comprehensive "
                 +:+ "assertions"]
        else recommendations in
      if Qltb (QualityMetrics.assertion_density a) 2
      then recommendations
           ++ ["Increase assertion density for better test effectiveness"]
      else recommendations
  | None => []
  end.

Definition _generate_audit_report (project_name : string)
    (before_metrics after_metrics : option QualityMetrics.t)
    (before_mutation after_mutation : option MutationResults.t)
    (generated_tests modified_tests : list TestCase.t) : AuditReport.t :=
  {| AuditReport.project_name := project_name;
     AuditReport.before_metrics := before_metrics;
     AuditReport.after_metrics := after_metrics;
     AuditReport.before_mutation := before_mutation;
     AuditReport.after_mutation := after_mutation;
     AuditReport.improvements :=
       report_improvements before_metrics after_metrics;
     AuditReport.recommendations := report_recommendations after_metrics;
     AuditReport.generated_tests := generated_tests;
     AuditReport.modified_tests := modified_tests |}.

(** [run_full_audit] on a new framework, from the state [s] that the mapping
    and discovery stages leave, up to the report it returns. The two runs of
    the mutation tool are given by their outcomes. Writing the report to
    disk comes after the report is built and is not part of the model. *)
Definition run_full_audit (project_name : string) (s : TestingFramework.t)
    (mutation_before mutation_after : ProcessOutcome)
    (generate run_mutation_testing : bool) (max_iterations : Z) (o : Oracle)
  : Oracle * TestingFramework.t * AuditReport.t :=
  let '(o1, before_metrics) :=
    assess_quality o (TestingFramework.code_units s)
                   (TestingFramework.test_cases s) in
  let before_mutation :=
    if run_mutation_testing
    then Some (_run_mutation_testing mutation_before) else None in
  let '(o2, s2) :=
    if generate then
      let '(o', s', _) := _improve_tests_iteratively max_iterations o1 s in
      (o', s')
    else (o1, s) in
  let '(o3, after_metrics) :=
    assess_quality o2 (TestingFramework.code_units s2)
                   (TestingFramework.test_cases s2) in
  let after_mutation :=
    if run_mutation_testing
    then Some (_run_mutation_testing mutation_after) else None in
  (o3, s2,
   _generate_audit_report project_name (Some before_metrics)
     (Some after_metrics) before_mutation after_mutation
     (TestingFramework.generated_tests s2) []).

(** [len([u for u in self.code_units if u.type == ty])] *)
Definition count_units (ty : CodeType) (units : list CodeUnit.t) : Z :=
  len (filter (λ u, CodeUnit.type u = ty) units).

(** [len([t for t in self.test_cases if t.type == ty])] *)
Definition count_tests (ty : TestType) (tests : list TestCase.t) : Z :=
  len (filter (λ t, TestCase.type t = ty) tests).

Definition get_codebase_summary (s : TestingFramework.t)
  : CodebaseSummary.t :=
  {| CodebaseSummary.total_code_units := len (TestingFramework.code_units s);
     CodebaseSummary.modules :=
       count_units MODULE (TestingFramework.code_units s);
     CodebaseSummary.classes :=
       count_units CLASS (TestingFramework.code_units s);
     CodebaseSummary.functions :=
       count_units FUNCTION (TestingFramework.code_units s);
     CodebaseSummary.methods :=
       count_units METHOD (TestingFramework.code_units s);
     CodebaseSummary.total_tests := len (TestingFramework.test_cases s);
     CodebaseSummary.test_types :=
       (λ ty, (test_type_value ty,
               count_tests ty (TestingFramework.test_cases s)))
       <$> [UNIT; INTEGRATION; FUNCTIONAL; MUTATION] |}.

(** The state of the [generate] command: the service, the tests directory
    and [generated_count]. *)
Definition GenerateState : Type := Oracle * gmap string string * Z.

(** The body of [for test in new_tests] of the [generate] command. *)
Definition generate_judge (unit : CodeUnit.t) (st : GenerateState)
    (test : TestCase.t) : GenerateState :=
  let '(o, dir, generated_count) := st in
  let '(o', judgment) := judge_test o test unit in
  if Qle_bool 7 (Judgment.get_overall_score judgment)
  then (o',
        <[ PyStr.path_name (TestCase.file_path test)
           := test_file_content test ]> dir,
        generated_count + 1)
  else (o', dir, generated_count).

(** The [generate] command of [src/cli.py] after its two discovery calls,
    whose results [code_units] and [test_cases] it keeps in local variables:
    the framework it asks for uncovered units is the one its constructor
    built, with no units and no tests. *)
Definition cli_generate (o : Oracle) (test_dir : gmap string string)
    (code_units : list CodeUnit.t) (test_cases : list TestCase.t)
  : GenerateState :=
  let framework :=
    {| TestingFramework.code_units := [];
       TestingFramework.test_cases := [];
       TestingFramework.generated_tests := [];
       TestingFramework.test_dir := test_dir |} in
  let uncovered_units := _identify_uncovered_units framework in
  foldl (λ (st : GenerateState) unit_name,
           match _find_code_unit framework unit_name with
           | Some unit =>
               let '(o', new_tests) :=
                 generate_tests st.1.1 unit test_cases in
               foldl (generate_judge unit) (o', st.1.2, st.2) new_tests
           | None => st
           end)
        (o, test_dir, 0) (take 10 (list_of_set uncovered_units)).

End Audit.

(** *** More reference definitions *)

(** The clarity requests that a list of tests gives rise to. *)
Definition clarity_prompts (tests : list TestCase.t) : list Prompt :=
  omap (λ test,
          if opt_truthy (TestCase.source_code test)
          then Some (ClarityPrompt
                       (TestCase.name test)
                       (default EmptyString (TestCase.source_code test)))
          else None) tests.

(** The state of the service after a sequence of calls. *)
Definition after_calls (o : Oracle) (prompts : list Prompt) : Oracle :=
  foldl (λ o p, (invoke o p).1) o prompts.

(** The tests directory after the files of some tests were written, in
    order. *)
Definition write_files (dir : gmap string string) (tests : list TestCase.t)
  : gmap string string :=
  foldl (λ d test,
           <[ PyStr.path_name (TestCase.file_path test)
              := test_file_content test ]> d) dir tests.

(** The framework [s'] is [s] with the tests [extra] accepted in order. *)
Definition appends (s s' : TestingFramework.t) (extra : list TestCase.t)
  : Prop :=
  TestingFramework.code_units s' = TestingFramework.code_units s
  ∧ TestingFramework.test_cases s' = TestingFramework.test_cases s ++ extra
  ∧ TestingFramework.generated_tests s'
    = TestingFramework.generated_tests s ++ extra
  ∧ TestingFramework.test_dir s'
    = write_files (TestingFramework.test_dir s) extra.

(** A test that [generate_tests] built for one of the given units. *)
Definition generated_for (units : list CodeUnit.t) (test : TestCase.t)
  : Prop :=
  ∃ unit code,
    unit ∈ units ∧ code ≠ EmptyString ∧ test = generated_test unit code.

#[global] Instance Outcome_eq_dec : EqDecision Outcome.
Proof. solve_decision. Defined.

(** The number of passes that accepted a test. *)
Definition improved_passes (outcomes : list Outcome) : nat :=
  length (filter (λ x, x = Improved) outcomes).

(** The file that [_save_test_case] writes for a test. *)
Definition file_of (test : TestCase.t) : string :=
  PyStr.path_name (TestCase.file_path test).

(** What holds of the counters after any number of lines. *)
Definition counters_read_from (py_int : string → option Z)
    (lines : list string) (r : MutationResults.t) : Prop :=
  (MutationResults.killed_mutations r = 0
   ∨ ∃ line part,
       line ∈ lines
       ∧ PyStr.contains "surviving" (PyStr.lower line) = false
       ∧ PyStr.contains "killed" (PyStr.lower line) = true
       ∧ part ∈ PyStr.split_ws line
       ∧ py_isdigit part = true
       ∧ py_int part = Some (MutationResults.killed_mutations r))
  ∧ (MutationResults.survived_mutations r = 0
     ∨ ∃ line part,
         line ∈ lines
         ∧ PyStr.contains "surviving" (PyStr.lower line) = true
         ∧ part ∈ PyStr.split_ws line
         ∧ py_isdigit part = true
         ∧ py_int part = Some (MutationResults.survived_mutations r))
  ∧ MutationResults.timeout_mutations r = 0.

(** No reply of the service holds the text [nan], in any letter case: no
    text that [float] is given then denotes a NaN, the one float that passes
    a clamp unchanged and fails every comparison. *)
Definition never_replies_nan : Prop :=
  ∀ (o : Oracle) (p : Prompt) (o' : Oracle) (text : string),
    invoke o p = (o', Content text) →
    PyStr.contains "nan" (PyStr.lower text) = false.

(** The tests that list the name [u]. *)
Definition listing (u : string) (tests : list TestCase.t)
  : list TestCase.t :=
  filter (λ test, u ∈ TestCase.tested_units test) tests.

(** *** Reference definitions for the stated properties *)

(** The flagging rule in the words of the specification: zero assertions, or
    complexity above 5, or no docstring, or assertions without any mock. *)
Definition flagged_by_rule (test : TestCase.t) : Prop :=
  TestCase.assertions test = 0
  ∨ 5 < TestCase.complexity test
  ∨ opt_truthy (TestCase.docstring test) = false
  ∨ (0 < TestCase.assertions test ∧ TestCase.mocks test = 0).

#[global] Instance flagged_by_rule_dec (test : TestCase.t) :
  Decision (flagged_by_rule test).
Proof. unfold flagged_by_rule. apply _. Defined.

(** What the inner loops do to the framework: they only append accepted
    tests, and the flag records whether any was appended. *)
Definition extends_by (st st' : LoopState) (extra : list TestCase.t) : Prop :=
  TestingFramework.generated_tests st'.1.2
  = TestingFramework.generated_tests st.1.2 ++ extra
  ∧ TestingFramework.test_cases st'.1.2
    = TestingFramework.test_cases st.1.2 ++ extra
  ∧ TestingFramework.code_units st'.1.2 = TestingFramework.code_units st.1.2
  ∧ st'.2 = st.2 || bool_decide (extra ≠ []).

(** The assignments [scores[criterion] = score] that the lines of a response
    make, in the order of the lines. *)
Definition score_assignments (lines : list string) : list (string * Q) :=
  omap (λ line, if mentions_criterion line then score_of_line line else None)
       lines.

(** The dictionary that a sequence of assignments leaves. *)
Definition dict_of (assignments : list (string * Q)) : list (string * Q) :=
  foldl (λ scores kv, dict_set scores kv.1 kv.2) [] assignments.

(** [scores.get(criterion)] *)
Fixpoint dict_get (scores : list (string * Q)) (criterion : string)
  : option Q :=
  match scores with
  | [] => None
  | (k, v) :: rest =>
      if String.eqb k criterion then Some v else dict_get rest criterion
  end.

(** A line that ends up in [feedback]: it mentions no criterion, is not
    blank, and does not start with a hash sign. *)
Definition is_feedback_line (line : string) : Prop :=
  mentions_criterion line = false
  ∧ PyStr.truthy (PyStr.strip line) = true
  ∧ PyStr.startswith "#" line = false.

#[global] Instance is_feedback_line_dec (line : string) :
  Decision (is_feedback_line line).
Proof. unfold is_feedback_line. apply _. Defined.

(** A score line in the words of the specification: it contains a criterion
    keyword and a number can be read after its first colon. *)
Definition is_score_line (line : string) : Prop :=
  mentions_criterion line = true ∧ is_Some (score_of_line line).

#[global] Instance is_score_line_dec (line : string) :
  Decision (is_score_line line).
Proof. unfold is_score_line. apply _. Defined.

(** The feedback in the words of the specification: every line that is not a
    score line, not blank and not a comment. *)
Definition feedback_by_spec (lines : list string) : list string :=
  PyStr.strip
  <$> filter (λ line, ¬ is_score_line line
                      ∧ PyStr.truthy (PyStr.strip line) = true
                      ∧ PyStr.startswith "#" line = false) lines.

(** The overall score in the words of the specification: the mean of all
    parsed criterion scores, 5.0 when there is none. *)
Definition overall_score_by_spec (lines : list string) : Q :=
  match score_assignments lines with
  | [] => 5%Q
  | parsed => (sum_values parsed / inject_Z (len parsed))%Q
  end.

(** The fields of the metrics do not depend on what the clarity requests
    did: split the result of [_assess_test_clarity] and read the field. *)
Local Ltac read_metrics_field :=
  unfold assess_quality;
  match goal with
  | |- context [_assess_test_clarity ?o ?T] =>
      destruct (_assess_test_clarity o T) as [? ?]
  end;
  reflexivity.

(** ** Properties of the assessor *)

Lemma foldl_union_tested (acc : gset string) (tests : list TestCase.t) :
  foldl (λ covered test, covered ∪ TestCase.tested_units test) acc tests
  = acc ∪ ⋃ (TestCase.tested_units <$> tests).
Proof.
  revert acc. induction tests as [|t tests IH]; intros acc; simpl.
  - set_solver.
  - rewrite IH. set_solver.
Qed.

Lemma foldl_union_names (acc : gset string) (units : list CodeUnit.t) :
  foldl (λ names unit, names ∪ {[ CodeUnit.name unit ]}) acc units
  = acc ∪ list_to_set (CodeUnit.name <$> units).
Proof.
  revert acc. induction units as [|u units IH]; intros acc; simpl.
  - set_solver.
  - rewrite IH. set_solver.
Qed.

Lemma covered_units_union (tests : list TestCase.t) :
  covered_units tests = ⋃ (TestCase.tested_units <$> tests).
Proof. unfold covered_units. rewrite foldl_union_tested. set_solver. Qed.

Lemma unit_names_list_to_set (units : list CodeUnit.t) :
  unit_names units = list_to_set (CodeUnit.name <$> units).
Proof. unfold unit_names. rewrite foldl_union_names. set_solver. Qed.

Lemma assess_quality_uncovered (o : Oracle) (U : list CodeUnit.t)
    (T : list TestCase.t) :
  QualityMetrics.uncovered_units (assess_quality o U T).2
  = unit_names U ∖ covered_units T.
Proof. read_metrics_field. Qed.

Lemma assess_quality_coverage (o : Oracle) (U : list CodeUnit.t)
    (T : list TestCase.t) :
  QualityMetrics.coverage_percentage (assess_quality o U T).2
  = match U with
    | [] => 0%Q
    | _ => (inject_Z (Z.of_nat (size (covered_units T))) / inject_Z (len U)
            * 100)%Q
    end.
Proof. read_metrics_field. Qed.

Lemma assess_quality_total_tests (o : Oracle) (U : list CodeUnit.t)
    (T : list TestCase.t) :
  QualityMetrics.total_tests (assess_quality o U T).2 = len T.
Proof. read_metrics_field. Qed.

(** C2. The [uncovered_units] of an assessment are the names of the units
    minus the union of the [tested_units] of all tests; the loop's
    [_identify_uncovered_units] is the same difference on the framework's
    state, so the two agree. *)
Theorem uncovered_units_set_difference :
  (∀ (o : Oracle) (U : list CodeUnit.t) (T : list TestCase.t),
     QualityMetrics.uncovered_units (assess_quality o U T).2
     = list_to_set (CodeUnit.name <$> U) ∖ ⋃ (TestCase.tested_units <$> T))
  ∧ (∀ s : TestingFramework.t,
       _identify_uncovered_units s
       = list_to_set (CodeUnit.name <$> TestingFramework.code_units s)
         ∖ ⋃ (TestCase.tested_units <$> TestingFramework.test_cases s))
  ∧ (∀ (o : Oracle) (s : TestingFramework.t),
       _identify_uncovered_units s
       = QualityMetrics.uncovered_units
           (assess_quality o (TestingFramework.code_units s)
                           (TestingFramework.test_cases s)).2).
Proof.
  assert (Hloop : ∀ s : TestingFramework.t,
            _identify_uncovered_units s
            = list_to_set (CodeUnit.name <$> TestingFramework.code_units s)
              ∖ ⋃ (TestCase.tested_units
                   <$> TestingFramework.test_cases s)).
  { intros s. unfold _identify_uncovered_units.
    rewrite foldl_union_tested, foldl_union_names. set_solver. }
  assert (Hassess : ∀ (o : Oracle) U T,
            QualityMetrics.uncovered_units (assess_quality o U T).2
            = list_to_set (CodeUnit.name <$> U)
              ∖ ⋃ (TestCase.tested_units <$> T)).
  { intros o U T.
    by rewrite assess_quality_uncovered, unit_names_list_to_set,
               covered_units_union. }
  split; [exact Hassess|]. split; [exact Hloop|].
  intros o s. by rewrite Hloop, Hassess.
Qed.

(** A name is uncovered exactly when some unit bears it and no test lists
    it. *)
Lemma elem_of_uncovered_units (o : Oracle) (U : list CodeUnit.t)
    (T : list TestCase.t) (x : string) :
  x ∈ QualityMetrics.uncovered_units (assess_quality o U T).2
  ↔ (∃ u, u ∈ U ∧ CodeUnit.name u = x)
    ∧ ∀ t, t ∈ T → x ∉ TestCase.tested_units t.
Proof.
  rewrite assess_quality_uncovered, unit_names_list_to_set,
          covered_units_union.
  rewrite elem_of_difference, elem_of_list_to_set, list_elem_of_fmap,
          elem_of_union_list.
  split.
  - intros [(u & -> & Hu) Hn]. split; [eauto|].
    intros t Ht Hx. apply Hn. exists (TestCase.tested_units t).
    split; [|done]. apply list_elem_of_fmap. eauto.
  - intros [(u & Hu & <-) Hn]. split; [eauto|].
    intros (X & HX & Hx). apply list_elem_of_fmap in HX as (t & -> & Ht).
    by apply (Hn t).
Qed.

Lemma size_list_to_set_le (l : list string) :
  (size (list_to_set l : gset string) ≤ length l)%nat.
Proof.
  induction l as [|x l IH].
  - rewrite list_to_set_nil, size_empty. done.
  - rewrite list_to_set_cons, size_union_alt, size_singleton.
    assert (size (list_to_set l ∖ {[x]} : gset string)
            ≤ size (list_to_set l : gset string))%nat
      by (apply subseteq_size; set_solver).
    simpl. lia.
Qed.

(** The quotient of two lengths, as a percentage. *)
Lemma percentage_bounds (a b : nat) :
  (0 < b)%nat →
  (0 <= inject_Z (Z.of_nat a) / inject_Z (Z.of_nat b) * 100)%Q
  ∧ ((a ≤ b)%nat →
     (inject_Z (Z.of_nat a) / inject_Z (Z.of_nat b) * 100 <= 100)%Q)
  ∧ ((inject_Z (Z.of_nat a) / inject_Z (Z.of_nat b) * 100 == 0)%Q
     ↔ a = 0%nat).
Proof.
  intros Hb. destruct b as [|b]; [lia|].
  unfold Qle, Qeq, Qdiv, Qmult, Qinv, inject_Z. simpl.
  repeat split; try intros; try nia.
Qed.

(** The percentage is never negative. *)
Lemma coverage_nonneg (o : Oracle) (U : list CodeUnit.t)
    (T : list TestCase.t) :
  (0 <= QualityMetrics.coverage_percentage (assess_quality o U T).2)%Q.
Proof.
  rewrite assess_quality_coverage. destruct U as [|u U]; [done|].
  apply percentage_bounds. simpl. lia.
Qed.

(** When every name listed by a test is the name of a unit, the percentage
    is at most 100. *)
Lemma coverage_at_most_100 (o : Oracle) (U : list CodeUnit.t)
    (T : list TestCase.t) :
  covered_units T ⊆ unit_names U →
  (QualityMetrics.coverage_percentage (assess_quality o U T).2 <= 100)%Q.
Proof.
  intros Hsub. rewrite assess_quality_coverage.
  destruct U as [|u U]; [done|].
  apply percentage_bounds; [simpl; lia|].
  etrans; [apply subseteq_size, Hsub|].
  rewrite unit_names_list_to_set.
  etrans; [apply size_list_to_set_le|]. by rewrite length_fmap.
Qed.

(** The percentage is 0 exactly when there is no unit or no test lists any
    name at all. *)
Lemma coverage_zero_iff (o : Oracle) (U : list CodeUnit.t)
    (T : list TestCase.t) :
  (QualityMetrics.coverage_percentage (assess_quality o U T).2 == 0)%Q
  ↔ U = [] ∨ covered_units T = ∅.
Proof.
  rewrite assess_quality_coverage. destruct U as [|u U].
  - split; [by left|done].
  - pose proof (percentage_bounds (size (covered_units T))
                  (length (u :: U))) as (_ & _ & H); [simpl; lia|].
    unfold len. rewrite H. rewrite size_empty_iff.
    split; [intros ->%leibniz_equiv; by right|].
    intros [?| ->]; done.
Qed.

(** C1. One unit [a] and one test that lists the two names [x] and [y],
    neither of them a unit: no unit is covered and [a] is reported uncovered,
    yet the percentage is 200, neither 0 nor within [0, 100]. *)
Theorem coverage_counts_names_outside_units (o : Oracle) :
  let U := [Stub.unit_named "a"] in
  let T := [Stub.test_named "t" {[ "x"; "y" ]} None] in
  let m := (assess_quality o U T).2 in
  (QualityMetrics.coverage_percentage m == 200)%Q
  ∧ ¬ (QualityMetrics.coverage_percentage m <= 100)%Q
  ∧ ¬ (QualityMetrics.coverage_percentage m == 0)%Q
  ∧ QualityMetrics.uncovered_units m = {[ "a" ]}
  ∧ ∀ t u, t ∈ T → u ∈ U →
           CodeUnit.name u ∉ TestCase.tested_units t.
Proof.
  intros U T m. subst m. rewrite assess_quality_coverage.
  rewrite assess_quality_uncovered.
  split; [by vm_compute|]. split; [by vm_compute|]. split; [by vm_compute|].
  split; [by vm_compute|].
  intros t u Ht Hu. subst U T.
  apply list_elem_of_singleton in Ht as ->.
  apply list_elem_of_singleton in Hu as ->.
  by vm_compute.
Qed.

(** The issues of a test, one by one. *)
Lemma issues_of_spec (t : TestCase.t) :
  ("no assertions" ∈ issues_of t ↔ TestCase.assertions t = 0)
  ∧ ("high complexity" ∈ issues_of t ↔ 5 < TestCase.complexity t)
  ∧ ("no documentation" ∈ issues_of t
     ↔ opt_truthy (TestCase.docstring t) = false)
  ∧ ("no mocking" ∈ issues_of t
     ↔ 0 < TestCase.assertions t ∧ TestCase.mocks t = 0).
Proof.
  unfold issues_of.
  destruct (Z.eqb_spec (TestCase.assertions t) 0),
           (Z.ltb_spec 5 (TestCase.complexity t)),
           (opt_truthy (TestCase.docstring t)),
           (Z.eqb_spec (TestCase.mocks t) 0),
           (Z.ltb_spec 0 (TestCase.assertions t));
    simpl; rewrite ?elem_of_cons, ?elem_of_nil;
    repeat split; intros; try done; try lia; naive_solver lia.
Qed.

Lemma issues_of_nonempty (t : TestCase.t) :
  issues_of t ≠ [] ↔ flagged_by_rule t.
Proof.
  unfold issues_of, flagged_by_rule.
  destruct (Z.eqb_spec (TestCase.assertions t) 0),
           (Z.ltb_spec 5 (TestCase.complexity t)),
           (opt_truthy (TestCase.docstring t)),
           (Z.eqb_spec (TestCase.mocks t) 0),
           (Z.ltb_spec 0 (TestCase.assertions t));
    simpl; split; intros; try done; try lia; naive_solver lia.
Qed.

Lemma low_quality_loop (acc : list string) (tests : list TestCase.t) :
  foldl (λ low_quality test,
           match issues_of test with
           | [] => low_quality
           | issues => low_quality ++ [diagnostic test issues]
           end) acc tests
  = acc
    ++ ((λ t, diagnostic t (issues_of t)) <$> filter flagged_by_rule tests).
Proof.
  revert acc. induction tests as [|t tests IH]; intros acc; simpl.
  - by rewrite app_nil_r.
  - rewrite IH. pose proof (issues_of_nonempty t) as Hflag.
    rewrite filter_cons. destruct (decide (flagged_by_rule t)) as [Hf|Hf].
    + destruct (issues_of t) as [|i rest] eqn:Hi.
      * apply Hflag in Hf. done.
      * rewrite fmap_cons, Hi, <- app_assoc. done.
    + destruct (issues_of t) as [|i rest] eqn:Hi; [done|].
      exfalso. apply Hf, Hflag. done.
Qed.

(** C6. The list of low quality tests has one entry for every test that the
    rule flags, in the order of the tests, and none for the others. An entry
    is the test's name followed by all its reasons, joined by commas. Each
    reason is present exactly under its condition; so a test with no
    assertion carries "no assertions", a test with five assertions and no
    mock carries "no mocking", and a test with five assertions, one mock,
    complexity 2 and a docstring has no entry. *)
Theorem low_quality_tests_rule :
  (∀ tests : list TestCase.t,
     _identify_low_quality_tests tests
     = (λ t, TestCase.name t +:+ " ("
               +:+ PyStr.join ", " (issues_of t) +:+ ")")
       <$> filter flagged_by_rule tests)
  ∧ (∀ t : TestCase.t,
       (issues_of t ≠ [] ↔ flagged_by_rule t)
       ∧ ("no assertions" ∈ issues_of t ↔ TestCase.assertions t = 0)
       ∧ ("high complexity" ∈ issues_of t ↔ 5 < TestCase.complexity t)
       ∧ ("no documentation" ∈ issues_of t
          ↔ opt_truthy (TestCase.docstring t) = false)
       ∧ ("no mocking" ∈ issues_of t
          ↔ 0 < TestCase.assertions t ∧ TestCase.mocks t = 0))
  ∧ (∀ t : TestCase.t,
       TestCase.assertions t = 0 →
       flagged_by_rule t ∧ "no assertions" ∈ issues_of t)
  ∧ (∀ t : TestCase.t,
       TestCase.assertions t = 5 → TestCase.mocks t = 0 →
       flagged_by_rule t ∧ "no mocking" ∈ issues_of t)
  ∧ (∀ t : TestCase.t,
       TestCase.assertions t = 5 → TestCase.mocks t = 1 →
       TestCase.complexity t = 2 →
       opt_truthy (TestCase.docstring t) = true →
       ¬ flagged_by_rule t ∧ _identify_low_quality_tests [t] = []).
Proof.
  assert (Hlist : ∀ tests : list TestCase.t,
     _identify_low_quality_tests tests
     = (λ t, TestCase.name t +:+ " ("
               +:+ PyStr.join ", " (issues_of t) +:+ ")")
       <$> filter flagged_by_rule tests).
  { intros tests. unfold _identify_low_quality_tests.
    by rewrite low_quality_loop. }
  split; [exact Hlist|]. split.
  { intros t. split; [apply issues_of_nonempty|apply issues_of_spec]. }
  split.
  { intros t H0. split; [by left|]. by apply issues_of_spec. }
  split.
  { intros t H5 Hm. split.
    - right; right; right. lia.
    - apply issues_of_spec. lia. }
  intros t H5 Hm Hc Hd.
  assert (Hnot : ¬ flagged_by_rule t).
  { unfold flagged_by_rule. rewrite Hd.
    intros [?|[?|[?|[? ?]]]]; first [lia | done]. }
  split; [exact Hnot|].
  rewrite Hlist, filter_cons. destruct (decide (flagged_by_rule t)); done.
Qed.

(** ** Properties of the judge and of the acceptance gate *)

Lemma parse_judgment_overall (response : string) :
  ∃ q, Judgment.overall_score (_parse_judgment_response response) = Some q.
Proof.
  unfold _parse_judgment_response.
  destruct (foldl parse_line ([], []) (PyStr.split "010" response))
    as [scores feedback].
  eauto.
Qed.

Lemma judge_test_overall (o : Oracle) (test : TestCase.t) (unit : CodeUnit.t) :
  ∃ q, Judgment.overall_score (judge_test o test unit).2 = Some q.
Proof.
  unfold judge_test.
  destruct (invoke o (JudgmentPrompt test unit)) as [o' [text|]]; simpl.
  - apply parse_judgment_overall.
  - by exists 5%Q.
Qed.

Lemma accept_changes_tests (s : TestingFramework.t) (test : TestCase.t) :
  accept s test ≠ s.
Proof.
  intros H. apply (f_equal TestingFramework.test_cases) in H. simpl in H.
  apply (f_equal length) in H. rewrite length_app in H. simpl in H. lia.
Qed.

(** C3. A judged candidate is accepted exactly when the overall score of
    its judgment is at least 7.0: then its file is written and it is appended
    to the working tests and to the generated tests, and the pass counts as
    an improvement. Below 7.0 nothing changes. A score of exactly 7.0 is
    accepted. *)
Theorem accepted_iff_score_at_least_7 (o : Oracle) (s : TestingFramework.t)
    (improvements_made : bool) (unit : CodeUnit.t) (test : TestCase.t) :
  let o' := (judge_test o test unit).1 in
  let judgment := (judge_test o test unit).2 in
  let st' := judge_candidate unit (o, s, improvements_made) test in
  ∃ q : Q,
    Judgment.overall_score judgment = Some q
    ∧ ((7 <= q)%Q ↔ st' = (o', accept s test, true))
    ∧ ((q < 7)%Q ↔ st' = (o', s, improvements_made))
    ∧ ((q == 7)%Q → st' = (o', accept s test, true))
    ∧ TestingFramework.test_cases (accept s test)
      = TestingFramework.test_cases s ++ [test]
    ∧ TestingFramework.generated_tests (accept s test)
      = TestingFramework.generated_tests s ++ [test]
    ∧ TestingFramework.test_dir (accept s test)
        !! PyStr.path_name (TestCase.file_path test)
      = Some (test_file_content test)
    ∧ TestingFramework.code_units (accept s test)
      = TestingFramework.code_units s.
Proof.
  intros o' judgment st'. subst o' judgment st'.
  destruct (judge_test_overall o test unit) as [q Hq].
  exists q. unfold judge_candidate.
  destruct (judge_test o test unit) as [o' j] eqn:Hj. simpl in *.
  unfold Judgment.get_overall_score. rewrite Hq. simpl.
  destruct (Qle_bool 7 q) eqn:Hle.
  - apply Qle_bool_iff in Hle.
    repeat split; try done.
    + intros Hlt. exfalso. by apply (Qlt_not_le _ _ Hlt).
    + intros [= Hs _]. exfalso. by apply (accept_changes_tests s test).
    + by rewrite lookup_insert_eq.
  - assert (Hlt : (q < 7)%Q).
    { apply Qnot_le_lt. intros H. apply Qle_bool_iff in H. congruence. }
    repeat split; try done.
    + intros Hge. exfalso. by apply (Qlt_not_le _ _ Hlt).
    + intros [= Hs _]. exfalso. by apply (accept_changes_tests s test).
    + intros Heq. exfalso. apply (Qlt_not_le _ _ Hlt). rewrite Heq.
      apply Qle_refl.
    + by rewrite lookup_insert_eq.
Qed.

(** C7. A failure of the service does not leave the step in which it
    happens. When the call made for generation raises, [generate_tests]
    returns the empty list and the loop goes on with the remaining targets
    from an unchanged framework. When the call made for judgment raises,
    [judge_test] returns the neutral judgment with overall score 5.0 and
    feedback ["Error in evaluation"], the candidate is not accepted, and the
    loop goes on as well. *)
Theorem oracle_failure_is_contained (o o' : Oracle) (s : TestingFramework.t)
    (improvements_made : bool) (unit_name : string) (unit : CodeUnit.t)
    (rest : list string) :
  _find_code_unit s unit_name = Some unit →
  (invoke o (GenerationPrompt
               unit (TestCase.name <$> TestingFramework.test_cases s))
   = (o', Raises) →
   generate_tests o unit (TestingFramework.test_cases s) = (o', [])
   ∧ foldl process_target (o, s, improvements_made) (unit_name :: rest)
     = foldl process_target (o', s, improvements_made) rest)
  ∧ (∀ test : TestCase.t,
       invoke o (JudgmentPrompt test unit) = (o', Raises) →
       judge_test o test unit
       = (o', {| Judgment.overall_score := Some 5%Q;
                 Judgment.criterion_scores := None;
                 Judgment.feedback := Some ["Error in evaluation"] |})
       ∧ judge_candidate unit (o, s, improvements_made) test
         = (o', s, improvements_made)).
Proof.
  intros Hfind. split.
  - intros Hraise.
    assert (Hgen : generate_tests o unit (TestingFramework.test_cases s)
                   = (o', [])).
    { unfold generate_tests. by rewrite Hraise. }
    split; [exact Hgen|].
    simpl. rewrite Hfind, Hgen. done.
  - intros test Hraise.
    assert (Hjudge : judge_test o test unit = (o', error_judgment)).
    { unfold judge_test. by rewrite Hraise. }
    split; [exact Hjudge|].
    unfold judge_candidate. rewrite Hjudge. done.
Qed.

(** C9, as the code has it. The working tests are a list and an accepted
    test is appended to it. When the list already holds a test with the same
    name, path and first line, the set of these triples stays the same, but
    the list is one longer, the new test is its last element, and the next
    assessment counts one test more. *)
Theorem accept_appends_duplicate (s : TestingFramework.t)
    (test old : TestCase.t) :
  old ∈ TestingFramework.test_cases s →
  TestCase.key old = TestCase.key test →
  (list_to_set (TestCase.key <$> TestingFramework.test_cases (accept s test))
   : gset (string * list string * Z))
  = list_to_set (TestCase.key <$> TestingFramework.test_cases s)
  ∧ TestingFramework.test_cases (accept s test)
    = TestingFramework.test_cases s ++ [test]
  ∧ len (TestingFramework.test_cases (accept s test))
    = len (TestingFramework.test_cases s) + 1
  ∧ ∀ (o1 o2 : Oracle) (U : list CodeUnit.t),
      QualityMetrics.total_tests
        (assess_quality o2 U (TestingFramework.test_cases (accept s test))).2
      = QualityMetrics.total_tests
          (assess_quality o1 U (TestingFramework.test_cases s)).2 + 1.
Proof.
  intros Hold Hkey. simpl.
  split.
  { rewrite fmap_app, list_to_set_app_L. simpl.
    assert (TestCase.key test
            ∈ (list_to_set (TestCase.key <$> TestingFramework.test_cases s)
               : gset (string * list string * Z))).
    { apply elem_of_list_to_set, list_elem_of_fmap. exists old. done. }
    apply set_eq. intros k. rewrite !elem_of_union, elem_of_singleton.
    split; [intros [?|[->|[]%elem_of_empty]]; done|by left]. }
  split; [done|].
  assert (Hlen : len (TestingFramework.test_cases s ++ [test])
                 = len (TestingFramework.test_cases s) + 1).
  { unfold len. rewrite length_app. simpl. lia. }
  split; [exact Hlen|].
  intros o1 o2 U. by rewrite !assess_quality_total_tests.
Qed.

(** ** Properties of the improvement loop *)

Lemma extends_by_refl (st : LoopState) : extends_by st st [].
Proof.
  unfold extends_by. rewrite !app_nil_r. repeat split.
  by destruct (st.2).
Qed.

Lemma extends_by_trans (st1 st2 st3 : LoopState) (e1 e2 : list TestCase.t) :
  extends_by st1 st2 e1 → extends_by st2 st3 e2 →
  extends_by st1 st3 (e1 ++ e2).
Proof.
  intros (Hg1 & Ht1 & Hc1 & Hf1) (Hg2 & Ht2 & Hc2 & Hf2).
  unfold extends_by. rewrite Hg2, Hg1, Ht2, Ht1, Hc2, Hc1, Hf2, Hf1.
  rewrite !app_assoc. repeat split.
  destruct (st1.2), e1, e2; done.
Qed.

Lemma judge_candidate_extends (unit : CodeUnit.t) (st : LoopState)
    (test : TestCase.t) :
  ∃ extra, extends_by st (judge_candidate unit st test) extra.
Proof.
  destruct st as [[o s] imp]. unfold judge_candidate.
  destruct (judge_test o test unit) as [o' j].
  destruct (Qle_bool 7 (Judgment.get_overall_score j)).
  - exists [test]. unfold extends_by. simpl. repeat split.
    by destruct imp.
  - exists []. apply (extends_by_refl (o, s, imp)).
Qed.

Lemma judge_all_extends (unit : CodeUnit.t) (tests : list TestCase.t)
    (st : LoopState) :
  ∃ extra, extends_by st (foldl (judge_candidate unit) st tests) extra.
Proof.
  revert st. induction tests as [|t tests IH]; intros st; simpl.
  - exists []. apply extends_by_refl.
  - destruct (judge_candidate_extends unit st t) as [e1 H1].
    destruct (IH (judge_candidate unit st t)) as [e2 H2].
    exists (e1 ++ e2). by eapply extends_by_trans.
Qed.

Lemma process_target_extends (st : LoopState) (unit_name : string) :
  ∃ extra, extends_by st (process_target st unit_name) extra.
Proof.
  destruct st as [[o s] imp]. unfold process_target.
  destruct (_find_code_unit s unit_name) as [unit|].
  - destruct (generate_tests o unit (TestingFramework.test_cases s))
      as [o' new_tests].
    destruct (judge_all_extends unit new_tests (o', s, imp)) as [e He].
    exists e. exact He.
  - exists []. apply (extends_by_refl (o, s, imp)).
Qed.

Lemma process_targets_extends (targets : list string) (st : LoopState) :
  ∃ extra, extends_by st (foldl process_target st targets) extra.
Proof.
  revert st. induction targets as [|x targets IH]; intros st; simpl.
  - exists []. apply extends_by_refl.
  - destruct (process_target_extends st x) as [e1 H1].
    destruct (IH (process_target st x)) as [e2 H2].
    exists (e1 ++ e2). by eapply extends_by_trans.
Qed.

(** The flag of a pass is set exactly when the pass accepted a test. *)
Lemma pass_improves_iff_accepts (o : Oracle) (s : TestingFramework.t)
    (targets : list string) :
  let st' := foldl process_target (o, s, false) targets in
  st'.2 = true
  ↔ (length (TestingFramework.generated_tests s)
     < length (TestingFramework.generated_tests st'.1.2))%nat.
Proof.
  intros st'. subst st'.
  destruct (process_targets_extends targets (o, s, false))
    as (extra & Hg & _ & _ & Hf).
  simpl in *. rewrite Hf, Hg, length_app.
  destruct extra; simpl; split; intros; try done; lia.
Qed.



(** ** Properties of the judgment parser *)

Lemma dict_get_set (scores : list (string * Q)) (k k' : string) (v : Q) :
  dict_get (dict_set scores k v) k'
  = if decide (k = k') then Some v else dict_get scores k'.
Proof.
  induction scores as [|[k0 v0] scores IH]; simpl.
  - destruct (String.eqb_spec k k'); by case_decide.
  - destruct (String.eqb_spec k0 k) as [->|Hne]; simpl.
    + destruct (String.eqb_spec k k'); by case_decide.
    + rewrite IH. destruct (String.eqb_spec k0 k'); [|done].
      subst. by case_decide.
Qed.

Lemma dict_set_keys (scores : list (string * Q)) (k : string) (v : Q) :
  (dict_set scores k v).*1
  = if decide (k ∈ scores.*1) then scores.*1 else scores.*1 ++ [k].
Proof.
  induction scores as [|[k0 v0] scores IH].
  - simpl. destruct (decide (k ∈ [])) as [H|H]; [|done].
    by apply elem_of_nil in H.
  - cbn [dict_set]. rewrite fmap_cons. cbn [fst].
    destruct (String.eqb_spec k0 k) as [->|Hne].
    + rewrite decide_True by apply list_elem_of_here. done.
    + rewrite fmap_cons, IH. cbn [fst].
      destruct (decide (k ∈ scores.*1)) as [Hin|Hnin].
      * rewrite decide_True by (by apply list_elem_of_further). done.
      * rewrite decide_False; [done|].
        intros [?|?]%elem_of_cons; congruence.
Qed.

Lemma dict_set_NoDup (scores : list (string * Q)) (k : string) (v : Q) :
  NoDup scores.*1 → NoDup (dict_set scores k v).*1.
Proof.
  intros Hnd. rewrite dict_set_keys.
  destruct (decide (k ∈ scores.*1)) as [Hin|Hin]; [done|].
  apply NoDup_app. repeat split; [done| |apply NoDup_singleton].
  intros x Hx ->%list_elem_of_singleton. done.
Qed.

Lemma dict_fold_NoDup (assignments scores : list (string * Q)) :
  NoDup scores.*1 →
  NoDup (foldl (λ d kv, dict_set d kv.1 kv.2) scores assignments).*1.
Proof.
  revert scores. induction assignments as [|kv l IH]; intros scores H; simpl.
  - done.
  - apply IH. by apply dict_set_NoDup.
Qed.

Lemma dict_fold_get (assignments scores : list (string * Q)) (k : string) :
  dict_get (foldl (λ d kv, dict_set d kv.1 kv.2) scores assignments) k
  = match last (filter (λ kv, kv.1 = k) assignments) with
    | Some kv => Some kv.2
    | None => dict_get scores k
    end.
Proof.
  revert scores. induction assignments as [|[k0 v0] l IH]; intros scores.
  - done.
  - simpl foldl. rewrite IH, filter_cons. simpl.
    destruct (decide (k0 = k)) as [->|Hne].
    + rewrite last_cons.
      destruct (last (filter (λ kv, kv.1 = k) l)); [done|].
      rewrite dict_get_set. by rewrite decide_True.
    + destruct (last (filter (λ kv, kv.1 = k) l)); [done|].
      rewrite dict_get_set. by rewrite decide_False.
Qed.

(** One pass of the loop over the lines. *)
Lemma parse_line_spec (line : string) (scores : list (string * Q))
    (feedback : list string) :
  parse_line (scores, feedback) line
  = (match (if mentions_criterion line then score_of_line line else None) with
     | Some kv => dict_set scores kv.1 kv.2
     | None => scores
     end,
     if decide (is_feedback_line line) then feedback ++ [PyStr.strip line]
     else feedback).
Proof.
  unfold parse_line.
  destruct (decide (is_feedback_line line)) as [(Hm & Ht & Hs)|Hn].
  - by rewrite Hm, Ht, Hs.
  - destruct (mentions_criterion line) eqn:Hm.
    + by destruct (score_of_line line) as [[criterion score]|].
    + destruct (PyStr.truthy (PyStr.strip line)) eqn:Ht;
        destruct (PyStr.startswith "#" line) eqn:Hs; simpl; try done.
      exfalso. by apply Hn.
Qed.

(** The loop over the lines, in closed form. *)
Lemma parse_lines_spec (lines : list string) (scores : list (string * Q))
    (feedback : list string) :
  foldl parse_line (scores, feedback) lines
  = (foldl (λ d kv, dict_set d kv.1 kv.2) scores (score_assignments lines),
     feedback ++ (PyStr.strip <$> filter is_feedback_line lines)).
Proof.
  revert scores feedback.
  induction lines as [|line lines IH]; intros scores feedback.
  - simpl. by rewrite app_nil_r.
  - cbn [foldl]. rewrite parse_line_spec, IH.
    unfold score_assignments. rewrite filter_cons. cbn [omap list_omap].
    destruct (if mentions_criterion line then score_of_line line else None)
      as [kv|];
      destruct (decide (is_feedback_line line));
      simpl; rewrite <- ?app_assoc; done.
Qed.

Lemma score_of_line_Some (line criterion : string) (score : Q) :
  score_of_line line = Some (criterion, score)
  ↔ ∃ part0 part1 parts token tokens,
      PyStr.split ":" line = part0 :: part1 :: parts
      ∧ criterion = PyStr.strip part0
      ∧ PyStr.split_ws (PyStr.strip part1) = token :: tokens
      ∧ py_float token = Some score.
Proof.
  unfold score_of_line. split.
  - destruct (PyStr.split ":" line) as [|part0 [|part1 parts]]; try done.
    destruct (PyStr.split_ws (PyStr.strip part1)) as [|token tokens] eqn:Hw;
      try done.
    destruct (py_float token) as [q|] eqn:Hq; try done.
    intros [= <- <-]. by exists part0, part1, parts, token, tokens.
  - intros (part0 & part1 & parts & token & tokens & -> & -> & Hw & Hq).
    by rewrite Hw, Hq.
Qed.

(** C8, as the code has it. The scores are the dictionary left by the
    assignments of the lines that mention a criterion and carry a readable
    number after their first colon: one entry for every distinct label, holding
    the score that was read last for it. The feedback is made of the trimmed
    lines that mention no criterion, are not blank and do not start with a
    hash sign, in order; a line that mentions a criterion is never feedback.
    The overall score is the mean of the entries of the dictionary, and 5.0
    when it is empty. *)
Theorem judgment_parser_behaviour (response : string) :
  let lines := PyStr.split "010" response in
  let judgment := _parse_judgment_response response in
  let scores := dict_of (score_assignments lines) in
  Judgment.criterion_scores judgment = Some scores
  ∧ Judgment.feedback judgment
    = Some (PyStr.strip <$> filter is_feedback_line lines)
  ∧ Judgment.overall_score judgment
    = Some (match scores with
            | [] => 5%Q
            | _ => (sum_values scores / inject_Z (len scores))%Q
            end)
  ∧ NoDup scores.*1
  ∧ (∀ k : string,
       dict_get scores k
       = (λ kv, kv.2)
         <$> last (filter (λ kv, kv.1 = k) (score_assignments lines)))
  ∧ (∀ (k : string) (v : Q),
       (k, v) ∈ score_assignments lines
       ↔ ∃ line part0 part1 parts token tokens,
           line ∈ lines
           ∧ mentions_criterion line = true
           ∧ PyStr.split ":" line = part0 :: part1 :: parts
           ∧ k = PyStr.strip part0
           ∧ PyStr.split_ws (PyStr.strip part1) = token :: tokens
           ∧ py_float token = Some v)
  ∧ (∀ line : string,
       line ∈ lines → mentions_criterion line = true →
       ¬ is_feedback_line line).
Proof.
  intros lines judgment scores. subst judgment scores.
  unfold _parse_judgment_response. fold lines.
  rewrite parse_lines_spec. fold (dict_of (score_assignments lines)).
  simpl. repeat split.
  - apply dict_fold_NoDup. apply NoDup_nil_2.
  - intros k. unfold dict_of. rewrite dict_fold_get.
    by destruct (last _).
  - unfold score_assignments. rewrite list_elem_of_omap.
    intros (line & Hin & Hs).
    destruct (mentions_criterion line) eqn:Hm; [|done].
    apply score_of_line_Some in Hs
      as (part0 & part1 & parts & token & tokens & ? & ? & ? & ?).
    by exists line, part0, part1, parts, token, tokens.
  - intros (line & part0 & part1 & parts & token & tokens
            & Hin & Hm & Hsp & Hk & Hw & Hq).
    unfold score_assignments. apply list_elem_of_omap. exists line.
    split; [done|]. rewrite Hm. apply score_of_line_Some.
    by exists part0, part1, parts, token, tokens.
  - intros line _ Hm [Hm' _]. congruence.
Qed.

(** ** Properties of the code extraction *)

Lemma substring_zero_length (n : nat) (s : string) :
  String.substring n 0 s = EmptyString.
Proof. revert n. induction s as [|c s IH]; intros [|n]; simpl; auto. Qed.

(** The slice that ends at index -1 stops before the last character. *)
Lemma slice_to_minus_one (s : string) (start : nat) :
  PyStr.slice s (Z.of_nat start) (-1)
  = String.substring start (String.length s - 1 - start) s.
Proof.
  unfold PyStr.slice, PyStr.clamp_index.
  destruct (Z.ltb_spec (Z.of_nat start) 0) as [?|_]; [lia|].
  change (-1 <? 0) with true. cbv iota.
  destruct (decide (start ≤ String.length s)%nat) as [Hle|Hgt].
  - rewrite Z.min_l by lia. rewrite Nat2Z.id. f_equal. lia.
  - rewrite Z.min_r by lia. rewrite Nat2Z.id.
    replace (Z.to_nat _) with 0%nat by lia.
    replace (String.length s - 1 - start)%nat with 0%nat by lia.
    by rewrite !substring_zero_length.
Qed.

(** C10. When the response holds an opening fence, [```python] or else
    [```], and no further [```] after it, the failed search yields -1 and is
    used as the end of the slice: the code returned is the part of the
    response from just after the opening fence up to, and without, the last
    character of the response, trimmed like every result of the
    extraction. The response as a whole is not used. *)
Theorem extract_unclosed_fence (response : string) (start : nat) :
  (PyStr.contains "```python" response = true
   ∧ Z.of_nat start = PyStr.find "```python" response 0 + 9)
  ∨ (PyStr.contains "```python" response = false
     ∧ PyStr.contains "```" response = true
     ∧ Z.of_nat start = PyStr.find "```" response 0 + 3) →
  PyStr.find "```" response start = -1 →
  _extract_test_code response
  = PyStr.strip (PyStr.slice response (Z.of_nat start) (-1))
  ∧ PyStr.slice response (Z.of_nat start) (-1)
    = String.substring start (String.length response - 1 - start) response
  ∧ ∃ marker : string,
      (marker = "```python" ∨ marker = "```")
      ∧ (String.length marker ≤ start)%nat
      ∧ String.substring (start - String.length marker) (String.length marker)
                         response = marker.
Proof.
  intros Hopen Hclose. split; [|split; [apply slice_to_minus_one|]].
  - unfold _extract_test_code.
    destruct Hopen as [[Hpy Hstart]|(Hpy & Hplain & Hstart)].
    + rewrite Hpy, <- Hstart, Nat2Z.id, Hclose. done.
    + rewrite Hpy, Hplain, <- Hstart, Nat2Z.id, Hclose. done.
  - destruct Hopen as [[Hpy Hstart]|(Hpy & Hplain & Hstart)].
    + exists "```python". unfold PyStr.contains, PyStr.find in *.
      destruct (String.index 0 "```python" response) as [i|] eqn:Hi; [|done].
      apply String.index_correct1 in Hi.
      assert (start = (i + 9)%nat) as -> by lia.
      split; [by left|]. split; [simpl; lia|].
      replace (i + 9 - String.length "```python")%nat with i by (simpl; lia).
      exact Hi.
    + exists "```". unfold PyStr.contains, PyStr.find in *.
      destruct (String.index 0 "```" response) as [i|] eqn:Hi; [|done].
      apply String.index_correct1 in Hi.
      assert (start = (i + 3)%nat) as -> by lia.
      split; [by right|]. split; [simpl; lia|].
      replace (i + 3 - String.length "```")%nat with i by (simpl; lia).
      exact Hi.
Qed.

(** ** Properties of the clarity score *)

(** Every rating that enters the total lies between 0 and 10. *)
Lemma clarity_of_reply_range (r : Reply) :
  (0 <= clarity_of_reply r <= 10)%Q.
Proof.
  unfold clarity_of_reply.
  destruct r as [text|]; [|split; by vm_compute].
  destruct (py_float (PyStr.strip text)) as [score|]; [|split; by vm_compute].
  unfold py_min, py_max, Qltb.
  destruct (Qle_bool 0 score) eqn:H0; simpl.
  - apply Qle_bool_iff in H0.
    destruct (Qle_bool score 10) eqn:H10; simpl.
    + apply Qle_bool_iff in H10. done.
    + split; by vm_compute.
  - split; by vm_compute.
Qed.

(** A response that is not a number and a call that raises both count as
    5.0. *)
Lemma clarity_of_reply_default :
  clarity_of_reply Raises = 5%Q
  ∧ ∀ text, py_float (PyStr.strip text) = None →
            clarity_of_reply (Content text) = 5%Q.
Proof.
  split; [done|]. intros text H. unfold clarity_of_reply. by rewrite H.
Qed.

(** Without any test the score is 0.0 and the service is not called. *)
Lemma clarity_without_tests (o : Oracle) : _assess_test_clarity o [] = (o, 0%Q).
Proof. done. Qed.

(** Only the first ten tests are looked at; the divisor counts them all,
    whether or not they have a body. *)
Lemma clarity_divisor (o : Oracle) (tests : list TestCase.t) :
  tests ≠ [] →
  _assess_test_clarity o tests
  = ((clarity_loop o (take 10 tests) 0%Q).1,
     ((clarity_loop o (take 10 tests) 0%Q).2
      / inject_Z (Z.of_nat (length (take 10 tests))))%Q).
Proof.
  intros Hne. unfold _assess_test_clarity.
  destruct tests as [|t tests]; [done|].
  destruct (clarity_loop o (take 10 (t :: tests)) 0%Q) as [o' total].
  simpl fst. simpl snd. f_equal. f_equal. f_equal.
  unfold len. rewrite length_take. lia.
Qed.

(** ** More properties: the units that need better tests *)

(** One test added to the groups of the names it lists. *)
Lemma group_step_lookup (t : TestCase.t) (m : gmap string (list TestCase.t))
    (u : string) :
  set_fold (λ unit_name (m' : gmap string (list TestCase.t)),
              <[ unit_name := default [] (m' !! unit_name) ++ [t] ]> m')
           m (TestCase.tested_units t) !! u
  = if decide (u ∈ TestCase.tested_units t)
    then Some (default [] (m !! u) ++ [t]) else m !! u.
Proof.
  set (P := λ (r : gmap string (list TestCase.t)) (X : gset string),
              ∀ v, r !! v = if decide (v ∈ X)
                            then Some (default [] (m !! v) ++ [t])
                            else m !! v).
  cut (P (set_fold
            (λ unit_name (m' : gmap string (list TestCase.t)),
               <[ unit_name := default [] (m' !! unit_name) ++ [t] ]> m')
            m (TestCase.tested_units t))
         (TestCase.tested_units t)).
  { intros HP. apply HP. }
  apply (set_fold_ind_L P); unfold P.
  - intros v. rewrite decide_False; [done|]. apply not_elem_of_empty.
  - intros x X r Hx IH v.
    destruct (decide (x = v)) as [->|Hne].
    + rewrite lookup_insert_eq, (IH v), decide_False by done.
      rewrite decide_True; [done|]. apply elem_of_union_l.
      by apply elem_of_singleton.
    + rewrite lookup_insert_ne, (IH v) by done.
      destruct (decide (v ∈ X)) as [Hin|Hnin].
      * rewrite decide_True; [done|]. by apply elem_of_union_r.
      * rewrite decide_False; [done|].
        intros [Hu%elem_of_singleton|Hu]%elem_of_union; congruence.
Qed.

Lemma group_fold_lookup (tests : list TestCase.t)
    (m : gmap string (list TestCase.t)) (u : string) :
  foldl (λ unit_tests test,
           set_fold
             (λ unit_name (m' : gmap string (list TestCase.t)),
                <[ unit_name := default [] (m' !! unit_name) ++ [test] ]> m')
             unit_tests (TestCase.tested_units test))
        m tests !! u
  = match listing u tests with
    | [] => m !! u
    | found => Some (default [] (m !! u) ++ found)
    end.
Proof.
  revert m. induction tests as [|t tests IH]; intros m.
  - done.
  - cbn [foldl]. rewrite IH. unfold listing. rewrite filter_cons.
    rewrite !group_step_lookup.
    destruct (decide (u ∈ TestCase.tested_units t)) as [Hin|Hnin].
    + cbn [default].
      destruct (filter (λ test, u ∈ TestCase.tested_units test) tests);
        [done|].
      unfold id. by rewrite <- app_assoc.
    + done.
Qed.

(** The dictionary [unit_tests]: a name is a key exactly when some test
    lists it, and its value is the list of these tests, in order. *)
Lemma group_by_unit_lookup (tests : list TestCase.t) (u : string) :
  group_by_unit tests !! u
  = match listing u tests with
    | [] => None
    | found => Some found
    end.
Proof.
  unfold group_by_unit. rewrite group_fold_lookup, lookup_empty.
  by destruct (listing u tests).
Qed.

Lemma elem_of_low_quality_units (s : TestingFramework.t) (u : string) :
  u ∈ _identify_low_quality_units s
  ↔ listing u (TestingFramework.test_cases s) ≠ []
    ∧ (sum_of TestCase.assertions (listing u (TestingFramework.test_cases s))
       < 3
       ∨ sum_of TestCase.mocks (listing u (TestingFramework.test_cases s))
         < 1).
Proof.
  unfold _identify_low_quality_units.
  rewrite elem_of_dom. unfold is_Some.
  setoid_rewrite map_lookup_filter_Some.
  rewrite group_by_unit_lookup.
  destruct (listing u (TestingFramework.test_cases s)) as [|t found].
  - split; [intros (x & [=] & _)|intros [? _]; done].
  - split.
    + intros (x & [= <-] & H). split; done.
    + intros [_ H]. exists (t :: found). split; done.
Qed.

Lemma listing_nonempty (u : string) (tests : list TestCase.t) :
  listing u tests ≠ [] ↔ u ∈ ⋃ (TestCase.tested_units <$> tests).
Proof.
  rewrite elem_of_union_list. unfold listing. split.
  - intros Hne.
    destruct (filter (λ test, u ∈ TestCase.tested_units test) tests)
      as [|t found] eqn:Hf; [done|].
    assert (Ht : t ∈ filter (λ test, u ∈ TestCase.tested_units test) tests)
      by (rewrite Hf; apply list_elem_of_here).
    apply list_elem_of_filter in Ht as [Hu Ht].
    exists (TestCase.tested_units t). split; [|done].
    apply list_elem_of_fmap. eauto.
  - intros (X & HX & Hu). apply list_elem_of_fmap in HX as (t & -> & Ht).
    intros Hnil.
    assert (Hin : t ∈ filter (λ test, u ∈ TestCase.tested_units test)
                            tests)
      by (apply list_elem_of_filter; done).
    rewrite Hnil in Hin. by apply elem_of_nil in Hin.
Qed.

Lemma low_quality_units_disjoint (s : TestingFramework.t) (u : string) :
  u ∈ _identify_uncovered_units s →
  u ∈ _identify_low_quality_units s →
  False.
Proof.
  intros Hunc [Hne _]%elem_of_low_quality_units.
  apply listing_nonempty in Hne.
  unfold _identify_uncovered_units in Hunc.
  rewrite foldl_union_tested, foldl_union_names in Hunc.
  apply elem_of_difference in Hunc as [_ Hnot]. apply Hnot.
  apply elem_of_union. by right.
Qed.

(** X1. The low quality units. A name is one of them exactly when some test
    lists it and the tests that list it have together fewer than three
    assertions or no mock at all. Such a name is always covered, so the two
    parts of the target list have no name in common. *)
Theorem low_quality_units_characterised (s : TestingFramework.t) :
  (∀ u : string,
     u ∈ _identify_low_quality_units s
     ↔ listing u (TestingFramework.test_cases s) ≠ []
       ∧ (sum_of TestCase.assertions
                 (listing u (TestingFramework.test_cases s)) < 3
          ∨ sum_of TestCase.mocks
                   (listing u (TestingFramework.test_cases s)) < 1))
  ∧ _identify_low_quality_units s
    ⊆ ⋃ (TestCase.tested_units <$> TestingFramework.test_cases s)
  ∧ _identify_uncovered_units s ## _identify_low_quality_units s.
Proof.
  split; [apply elem_of_low_quality_units|].
  assert (Hcov : _identify_low_quality_units s
                 ⊆ ⋃ (TestCase.tested_units
                      <$> TestingFramework.test_cases s)).
  { intros u [Hne _]%elem_of_low_quality_units.
    by apply listing_nonempty. }
  split; [exact Hcov|].
  intros u Hunc Hlow. apply Hcov in Hlow.
  unfold _identify_uncovered_units in Hunc.
  rewrite foldl_union_tested, foldl_union_names in Hunc.
  apply elem_of_difference in Hunc as [_ Hnot]. apply Hnot.
  apply elem_of_union. by right.
Qed.

(** X2. Tests that list no unit, as all discovered tests do: nothing is
    covered, the percentage is 0, every unit name is uncovered and no unit is
    of low quality. *)
Theorem tests_without_associations (o : Oracle) (s : TestingFramework.t) :
  Forall (λ t, TestCase.tested_units t = ∅)
         (TestingFramework.test_cases s) →
  let m := (assess_quality o (TestingFramework.code_units s)
                           (TestingFramework.test_cases s)).2 in
  QualityMetrics.uncovered_units m
  = list_to_set (CodeUnit.name <$> TestingFramework.code_units s)
  ∧ (QualityMetrics.coverage_percentage m == 0)%Q
  ∧ _identify_uncovered_units s
    = list_to_set (CodeUnit.name <$> TestingFramework.code_units s)
  ∧ _identify_low_quality_units s = ∅.
Proof.
  intros Hall m. subst m.
  assert (Hcov : ⋃ (TestCase.tested_units <$> TestingFramework.test_cases s)
                 = (∅ : gset string)).
  { revert Hall. generalize (TestingFramework.test_cases s) as tests.
    intros tests Hall. induction Hall as [|t tests Ht _ IH]; [done|].
    rewrite fmap_cons, union_list_cons, Ht, IH.
    apply (left_id_L ∅ (∪)). }
  assert (Hdiff : ∀ X : gset string, X ∖ ∅ = X).
  { intros X. apply set_eq. intros x. rewrite elem_of_difference.
    split; [by intros [? _]|]. intros Hx. split; [done|].
    apply not_elem_of_empty. }
  split.
  { rewrite assess_quality_uncovered, unit_names_list_to_set,
            covered_units_union, Hcov. apply Hdiff. }
  split.
  { rewrite assess_quality_coverage, covered_units_union, Hcov.
    destruct (TestingFramework.code_units s) as [|u units]; [done|].
    rewrite size_empty. by vm_compute. }
  split.
  { unfold _identify_uncovered_units.
    rewrite foldl_union_tested, foldl_union_names, Hcov.
    rewrite !(left_id_L ∅ (∪)). apply Hdiff. }
  apply set_eq. intros u. split; [|by intros ?%not_elem_of_empty].
  intros [Hne _]%elem_of_low_quality_units.
  apply listing_nonempty in Hne. rewrite Hcov in Hne.
  by apply not_elem_of_empty in Hne.
Qed.

(** ** More properties: the assessor *)

Lemma inject_Z_len_cons {A} (x : A) (l : list A) :
  (inject_Z (len (x :: l)) == inject_Z (len l) + 1)%Q.
Proof.
  unfold len. cbn [length].
  rewrite Nat2Z.inj_succ, <- Z.add_1_r, inject_Z_plus. reflexivity.
Qed.

Lemma inject_Z_len_nonneg {A} (l : list A) : (0 <= inject_Z (len l))%Q.
Proof. unfold len, Qle. simpl. lia. Qed.

(** The total of the ratings grows by at most 10 for every test. *)
Lemma clarity_loop_total (tests : list TestCase.t) (o : Oracle) (total : Q) :
  (total <= (clarity_loop o tests total).2)%Q
  ∧ ((clarity_loop o tests total).2 <= total + 10 * inject_Z (len tests))%Q.
Proof.
  revert o total. induction tests as [|t tests IH]; intros o total.
  - cbn [clarity_loop snd]. unfold len. cbn [length].
    change (inject_Z (Z.of_nat 0)) with 0%Q. split; lra.
  - pose proof (inject_Z_len_cons t tests) as Hlen.
    pose proof (inject_Z_len_nonneg tests) as Hpos.
    cbn [clarity_loop].
    destruct (opt_truthy (TestCase.source_code t)).
    + destruct (invoke o _) as [o' r].
      pose proof (clarity_of_reply_range r) as [Hlo Hhi].
      destruct (IH o' (total + clarity_of_reply r)%Q) as [H1 H2].
      split; [lra|]. rewrite Hlen. lra.
    + destruct (IH o total) as [H1 H2]. split; [lra|]. rewrite Hlen. lra.
Qed.

(** X3. When no reply of the service holds the text [nan], the clarity
    score lies between 0 and 10, whether the service answers with a number,
    with another text or with an exception, and whether or not the tests
    have a body. A reply that [float] reads as NaN is not covered: NaN
    passes the clamp and becomes the score. *)
Theorem clarity_score_range (o : Oracle) (tests : list TestCase.t) :
  never_replies_nan →
  (0 <= (_assess_test_clarity o tests).2 <= 10)%Q.
Proof.
  intros _. destruct tests as [|t tests]; [split; by vm_compute|].
  rewrite clarity_divisor by done. cbn [snd].
  destruct (clarity_loop_total (take 10 (t :: tests)) o 0%Q) as [Hlo Hhi].
  fold (len (take 10 (t :: tests))).
  assert (Hk : (0 < inject_Z (len (take 10 (t :: tests))))%Q).
  { unfold len, Qlt. simpl. lia. }
  split.
  - apply Qle_shift_div_l; [exact Hk|]. lra.
  - apply Qle_shift_div_r; [exact Hk|]. lra.
Qed.

Lemma clarity_loop_calls (tests : list TestCase.t) (o : Oracle) (total : Q) :
  (clarity_loop o tests total).1 = after_calls o (clarity_prompts tests).
Proof.
  revert o total. induction tests as [|t tests IH]; intros o total.
  - done.
  - cbn [clarity_loop]. unfold clarity_prompts. cbn [omap list_omap].
    destruct (opt_truthy (TestCase.source_code t)).
    + unfold after_calls. cbn [foldl].
      destruct (invoke o _) as [o' r]. cbn [fst]. apply IH.
    + apply IH.
Qed.

Lemma clarity_prompts_length (tests : list TestCase.t) :
  (length (clarity_prompts tests) ≤ length tests)%nat.
Proof.
  induction tests as [|t tests IH]; [done|].
  unfold clarity_prompts. cbn [omap list_omap].
  destruct (opt_truthy (TestCase.source_code t)); simpl;
    fold (clarity_prompts tests); lia.
Qed.

(** X4. What an assessment asks of the service: one clarity request for
    each of the first ten tests that has a body, in the order of the tests,
    and nothing else; so never more than ten calls, and none for a test
    without a body or past the tenth. *)
Theorem assessment_calls (o : Oracle) (U : list CodeUnit.t)
    (T : list TestCase.t) :
  (assess_quality o U T).1 = after_calls o (clarity_prompts (take 10 T))
  ∧ (length (clarity_prompts (take 10 T)) ≤ 10)%nat
  ∧ ∀ p, p ∈ clarity_prompts (take 10 T)
         ↔ ∃ test source,
             test ∈ take 10 T
             ∧ TestCase.source_code test = Some source
             ∧ source ≠ EmptyString
             ∧ p = ClarityPrompt (TestCase.name test) source.
Proof.
  split.
  { unfold assess_quality.
    destruct (_assess_test_clarity o T) as [o' c] eqn:Hc. cbn [fst].
    replace o' with (_assess_test_clarity o T).1 by (by rewrite Hc).
    destruct T as [|t T]; [done|].
    rewrite clarity_divisor by done. cbn [fst]. apply clarity_loop_calls. }
  split.
  { etrans; [apply clarity_prompts_length|]. rewrite length_take. lia. }
  intros p. unfold clarity_prompts. rewrite list_elem_of_omap. split.
  - intros (test & Hin & Hp).
    destruct (TestCase.source_code test) as [source|] eqn:Hs; [|done].
    destruct source as [|c source]; [done|].
    simpl in Hp. injection Hp as <-.
    exists test, (String c source). by rewrite Hs.
  - intros (test & source & Hin & Hs & Hne & ->).
    exists test. split; [done|]. rewrite Hs.
    destruct source; done.
Qed.


(** X6. Coverage within its bounds. When every name that the tests list is
    the name of a unit, the coverage percentage lies between 0 and 100; it is
    0 exactly when there is no unit or the tests list no name at all. *)
Theorem coverage_within_bounds (o : Oracle) (U : list CodeUnit.t)
    (T : list TestCase.t) :
  covered_units T ⊆ unit_names U →
  let coverage :=
    QualityMetrics.coverage_percentage (assess_quality o U T).2 in
  (0 <= coverage <= 100)%Q
  ∧ ((coverage == 0)%Q ↔ U = [] ∨ covered_units T = ∅).
Proof.
  intros Hsub coverage. subst coverage.
  split; [split|].
  - apply coverage_nonneg.
  - by apply coverage_at_most_100.
  - apply coverage_zero_iff.
Qed.

(** ** More properties: looking up a unit *)

Lemma find_code_unit_in_Some (units : list CodeUnit.t) (n : string)
    (u : CodeUnit.t) :
  _find_code_unit_in units n = Some u
  ↔ ∃ l1 l2, units = l1 ++ u :: l2
             ∧ CodeUnit.name u = n
             ∧ ∀ v, v ∈ l1 → CodeUnit.name v ≠ n.
Proof.
  split.
  - induction units as [|v units IH]; [done|]. cbn [_find_code_unit_in].
    destruct (String.eqb_spec (CodeUnit.name v) n) as [Heq|Hne].
    + intros [= ->]. exists [], units. repeat split; [done|].
      intros w Hw. by apply elem_of_nil in Hw.
    + intros (l1 & l2 & -> & Hn & Hfirst)%IH.
      exists (v :: l1), l2. repeat split; [done|].
      intros w [->|Hw]%elem_of_cons; [done|by apply Hfirst].
  - intros (l1 & l2 & -> & Hn & Hfirst).
    induction l1 as [|v l1 IH]; cbn [app _find_code_unit_in].
    + destruct (String.eqb_spec (CodeUnit.name u) n); done.
    + destruct (String.eqb_spec (CodeUnit.name v) n) as [Heq|Hne].
      * exfalso. apply (Hfirst v); [apply list_elem_of_here|done].
      * apply IH. intros w Hw. apply Hfirst. by apply list_elem_of_further.
Qed.

Lemma find_code_unit_in_None (units : list CodeUnit.t) (n : string) :
  _find_code_unit_in units n = None ↔ n ∉ CodeUnit.name <$> units.
Proof.
  induction units as [|v units IH]; cbn [_find_code_unit_in].
  - split; [|done]. intros _ H. by apply elem_of_nil in H.
  - rewrite fmap_cons, not_elem_of_cons.
    destruct (String.eqb_spec (CodeUnit.name v) n) as [Heq|Hne].
    + split; [done|]. intros [Hn _]. by exfalso.
    + rewrite IH. split; [by intros ?|by intros [_ ?]].
Qed.

(** X7. [_find_code_unit] returns the first unit of the list that bears the
    name, and [None] exactly when no unit bears it. *)
Theorem find_code_unit_first_match (s : TestingFramework.t) (n : string) :
  (_find_code_unit s n = None
   ↔ n ∉ CodeUnit.name <$> TestingFramework.code_units s)
  ∧ ∀ u : CodeUnit.t,
      _find_code_unit s n = Some u
      ↔ ∃ l1 l2, TestingFramework.code_units s = l1 ++ u :: l2
                 ∧ CodeUnit.name u = n
                 ∧ ∀ v, v ∈ l1 → CodeUnit.name v ≠ n.
Proof.
  split; [apply find_code_unit_in_None|].
  intros u. apply find_code_unit_in_Some.
Qed.

(** X8. Every uncovered name is found again by [_find_code_unit]: the loop
    never skips an uncovered target. A low quality target is skipped exactly
    when its name, taken from the tests, is no unit's name. *)
Theorem uncovered_targets_are_found (s : TestingFramework.t) (n : string) :
  (n ∈ _identify_uncovered_units s →
   ∃ u, _find_code_unit s n = Some u
        ∧ CodeUnit.name u = n
        ∧ u ∈ TestingFramework.code_units s)
  ∧ (n ∈ _identify_low_quality_units s →
     (_find_code_unit s n = None
      ↔ n ∉ CodeUnit.name <$> TestingFramework.code_units s)).
Proof.
  split; [|intros _; apply find_code_unit_in_None].
  unfold _identify_uncovered_units.
  rewrite foldl_union_tested, foldl_union_names.
  intros [Hn _]%elem_of_difference.
  apply elem_of_union in Hn as [Hn|Hn]; [by apply not_elem_of_empty in Hn|].
  apply elem_of_list_to_set in Hn.
  destruct (_find_code_unit s n) as [u|] eqn:Hfind.
  - apply find_code_unit_in_Some in Hfind as (l1 & l2 & Hl & Hname & _).
    exists u. repeat split; [done|]. rewrite Hl.
    apply elem_of_app. right. apply list_elem_of_here.
  - apply find_code_unit_in_None in Hfind. done.
Qed.

(** ** More properties: generated tests *)

Lemma rstrip_idempotent (s : string) :
  PyStr.rstrip (PyStr.rstrip s) = PyStr.rstrip s.
Proof.
  induction s as [|c s IH]; [done|]. cbn [PyStr.rstrip].
  destruct (PyStr.rstrip s) as [|c' r'] eqn:Hr.
  - destruct (PyStr.isspace c) eqn:Hc; [done|].
    cbn [PyStr.rstrip]. by rewrite Hc.
  - cbn [PyStr.rstrip] in IH |- *. rewrite IH. done.
Qed.

Lemma rstrip_keeps_head (c : ascii) (s : string) :
  PyStr.isspace c = false →
  ∃ r, PyStr.rstrip (String c s) = String c r.
Proof.
  intros Hc. cbn [PyStr.rstrip].
  destruct (PyStr.rstrip s); [rewrite Hc|]; eauto.
Qed.

Lemma lstrip_head (s : string) :
  PyStr.lstrip s = EmptyString
  ∨ ∃ c r, PyStr.lstrip s = String c r ∧ PyStr.isspace c = false.
Proof.
  induction s as [|c s IH]; [by left|]. cbn [PyStr.lstrip].
  destruct (PyStr.isspace c) eqn:Hc; [exact IH|]. right. eauto.
Qed.

(** Trimming twice is trimming once. *)
Lemma strip_idempotent (s : string) :
  PyStr.strip (PyStr.strip s) = PyStr.strip s.
Proof.
  unfold PyStr.strip.
  destruct (lstrip_head s) as [->|(c & r & -> & Hc)]; [done|].
  destruct (rstrip_keeps_head c r Hc) as [r' Hr]. rewrite Hr.
  cbn [PyStr.lstrip]. rewrite Hc, <- Hr. apply rstrip_idempotent.
Qed.

Lemma count_from_nonneg (sub s : string) (skip : nat) :
  0 ≤ PyStr.count_from sub s skip.
Proof.
  revert skip. induction s as [|c s IH]; intros skip; cbn [PyStr.count_from].
  - done.
  - destruct skip as [|k]; [|apply IH].
    destruct (String.prefix sub (String c s)); [|apply IH].
    pose proof (IH (String.length sub - 1)%nat). lia.
Qed.

(** A text is counted zero times exactly when it does not occur. *)
Lemma count_zero_iff (sub s : string) :
  sub ≠ EmptyString →
  PyStr.count sub s = 0 ↔ PyStr.contains sub s = false.
Proof.
  intros Hsub. unfold PyStr.count, PyStr.contains.
  induction s as [|c s IH].
  - destruct sub; [done|]. done.
  - cbn [PyStr.count_from String.index].
    destruct (String.prefix sub (String c s)).
    + pose proof (count_from_nonneg sub s (String.length sub - 1)).
      split; [lia|done].
    + rewrite IH. by destruct (String.index 0 sub s).
Qed.

Lemma split_not_nil (sep : ascii) (s : string) : PyStr.split sep s ≠ [].
Proof.
  destruct s as [|c s]; cbn [PyStr.split]; [done|].
  destruct (Ascii.eqb c sep); [done|]. by destruct (PyStr.split sep s).
Qed.

Lemma extract_test_code_trimmed (response : string) :
  PyStr.strip (_extract_test_code response) = _extract_test_code response.
Proof.
  unfold _extract_test_code.
  repeat (match goal with |- context [if ?b then _ else _] => destruct b end);
    apply strip_idempotent.
Qed.

(** X9. [generate_tests] calls the service once and returns at most one
    test. A returned test is built from code that is not empty and has no
    white space at either end; it lists exactly the unit, starts at line 1,
    ends at a line of at least 1, and its two counters are not negative. *)
Theorem generate_tests_shape (o : Oracle) (unit : CodeUnit.t)
    (existing_tests : list TestCase.t) :
  let run := generate_tests o unit existing_tests in
  run.1
  = (invoke o (GenerationPrompt unit (TestCase.name <$> existing_tests))).1
  ∧ (length run.2 ≤ 1)%nat
  ∧ ∀ test, test ∈ run.2 →
      ∃ code,
        test = generated_test unit code
        ∧ code ≠ EmptyString
        ∧ PyStr.strip code = code
        ∧ TestCase.tested_units test = {[ CodeUnit.name unit ]}
        ∧ TestCase.source_code test = Some code
        ∧ TestCase.line_start test = 1
        ∧ 1 ≤ TestCase.line_end test
        ∧ 0 ≤ TestCase.assertions test
        ∧ 0 ≤ TestCase.mocks test.
Proof.
  intros run. subst run. unfold generate_tests.
  destruct (invoke o _) as [o' [text|]]; cbn [fst snd].
  2: { repeat split; [simpl; lia|]. intros t Ht. by apply elem_of_nil in Ht. }
  destruct (PyStr.truthy (_extract_test_code text)) eqn:Hcode; cbn [fst snd].
  2: { repeat split; [simpl; lia|]. intros t Ht. by apply elem_of_nil in Ht. }
  repeat split; [simpl; lia|].
  intros t ->%list_elem_of_singleton.
  exists (_extract_test_code text). repeat split.
  - intros Hnil. by rewrite Hnil in Hcode.
  - apply extract_test_code_trimmed.
  - cbn [generated_test TestCase.line_end]. unfold len.
    pose proof (split_not_nil "010" (_extract_test_code text)).
    destruct (PyStr.split "010" (_extract_test_code text)); [done|].
    simpl. lia.
  - cbn [generated_test TestCase.assertions].
    unfold _count_assertions_in_code, PyStr.count.
    pose proof (count_from_nonneg "assert " (_extract_test_code text) 0).
    pose proof (count_from_nonneg ".assert" (_extract_test_code text) 0).
    lia.
  - cbn [generated_test TestCase.mocks].
    unfold _count_mocks_in_code, PyStr.count.
    pose proof (count_from_nonneg "mock" (_extract_test_code text) 0).
    pose proof (count_from_nonneg "Mock" (_extract_test_code text) 0).
    pose proof (count_from_nonneg "patch" (_extract_test_code text) 0).
    lia.
Qed.

(** X10. All tests generated for one unit are equal for [==], whatever their
    code; tests generated for units of different names never are. *)
Theorem generated_tests_identity (u1 u2 : CodeUnit.t) (c1 c2 : string) :
  (CodeUnit.name u1 = CodeUnit.name u2 →
   TestCase.py_eq (generated_test u1 c1) (generated_test u2 c2) = true)
  ∧ (CodeUnit.name u1 ≠ CodeUnit.name u2 →
     TestCase.py_eq (generated_test u1 c1) (generated_test u2 c2) = false).
Proof.
  unfold TestCase.py_eq, TestCase.key. cbn [generated_test TestCase.name
    TestCase.file_path TestCase.line_start]. split.
  - intros ->. by apply bool_decide_eq_true.
  - intros Hne. apply bool_decide_eq_false. intros [= Hname _].
    apply Hne. exact Hname.
Qed.

(** X11. The mock counter of generated code is 0 exactly when the code holds
    none of the words [mock], [Mock] and [patch]; the assertion counter is 0
    exactly when it holds neither [assert ] nor [.assert]. *)
Theorem generated_counters_zero (code : string) :
  (_count_mocks_in_code code = 0
   ↔ PyStr.contains "mock" code = false
     ∧ PyStr.contains "Mock" code = false
     ∧ PyStr.contains "patch" code = false)
  ∧ (_count_assertions_in_code code = 0
     ↔ PyStr.contains "assert " code = false
       ∧ PyStr.contains ".assert" code = false).
Proof.
  unfold _count_mocks_in_code, _count_assertions_in_code.
  rewrite <- !count_zero_iff by done. unfold PyStr.count.
  pose proof (count_from_nonneg "mock" code 0).
  pose proof (count_from_nonneg "Mock" code 0).
  pose proof (count_from_nonneg "patch" code 0).
  pose proof (count_from_nonneg "assert " code 0).
  pose proof (count_from_nonneg ".assert" code 0).
  split; split; try lia; intros; repeat split; lia.
Qed.

(** ** More properties: fenced code *)

Lemma string_app_cons (c : ascii) (a b : string) :
  String c a +:+ b = String c (a +:+ b).
Proof. reflexivity. Qed.

Lemma string_app_nil_l (a : string) : EmptyString +:+ a = a.
Proof. reflexivity. Qed.

Lemma string_length_app (a b : string) :
  String.length (a +:+ b) = (String.length a + String.length b)%nat.
Proof.
  induction a as [|c a IH]; [done|].
  rewrite string_app_cons. cbn [String.length]. by rewrite IH.
Qed.

Lemma string_app_assoc (a b c : string) : (a +:+ b) +:+ c = a +:+ b +:+ c.
Proof.
  induction a as [|x a IH]; [done|]. by rewrite !string_app_cons, IH.
Qed.

Lemma prefix_nil (s : string) : String.prefix EmptyString s = true.
Proof. by destruct s. Qed.

Lemma prefix_app_l (a b s : string) :
  String.prefix (a +:+ b) s = true → String.prefix a s = true.
Proof.
  revert s. induction a as [|c a IH]; intros s.
  - intros _. apply prefix_nil.
  - rewrite string_app_cons. destruct s as [|d s]; cbn [String.prefix]; [done|].
    destruct (ascii_dec c d); [apply IH|done].
Qed.

Lemma index_0_cons (sub : string) (c : ascii) (s : string) :
  String.index 0 sub (String c s)
  = if String.prefix sub (String c s) then Some 0%nat
    else S <$> String.index 0 sub s.
Proof.
  cbn [String.index]. destruct (String.prefix sub (String c s)); [done|].
  by destruct (String.index 0 sub s).
Qed.

(** A text that holds a needle holds every beginning of the needle. *)
Lemma contains_needle_prefix (a b s : string) :
  PyStr.contains (a +:+ b) s = true → PyStr.contains a s = true.
Proof.
  unfold PyStr.contains. induction s as [|c s IH].
  - destruct a as [|x a]; [done|]. done.
  - rewrite !index_0_cons.
    destruct (String.prefix (a +:+ b) (String c s)) eqn:Hp.
    + by rewrite (prefix_app_l _ _ _ Hp).
    + destruct (String.prefix a (String c s)); [done|].
      destruct (String.index 0 (a +:+ b) s); [|done].
      intros _. specialize (IH eq_refl).
      by destruct (String.index 0 a s).
Qed.

(** X12. A response without any fence is returned trimmed; and whatever the
    response, the code returned has no white space at either end. *)
Theorem extract_without_fence (response : string) :
  (PyStr.contains "```" response = false →
   _extract_test_code response = PyStr.strip response)
  ∧ PyStr.strip (_extract_test_code response) = _extract_test_code response.
Proof.
  split.
  - intros Hno. unfold _extract_test_code. rewrite Hno.
    destruct (PyStr.contains "```python" response) eqn:Hpy; [|done].
    apply (contains_needle_prefix "```" "python") in Hpy. congruence.
  - unfold _extract_test_code.
    repeat (match goal with
            | |- context [if ?b then _ else _] => destruct b
            end);
      apply strip_idempotent.
Qed.

Lemma index_skip (p sub s : string) (n : nat) :
  String.index (String.length p + n) sub (p +:+ s)
  = (λ i, String.length p + i)%nat <$> String.index n sub s.
Proof.
  induction p as [|c p IH].
  - rewrite string_app_nil_l. cbn [String.length Nat.add].
    by destruct (String.index n sub s).
  - rewrite string_app_cons. cbn [String.length Nat.add String.index].
    rewrite IH. by destruct (String.index n sub s).
Qed.

(** A needle does not start inside a text that lacks its first character. *)
Lemma index_clean_prefix (b : ascii) (sub' pre s : string) :
  PyStr.contains (String b EmptyString) pre = false →
  String.index 0 (String b sub') (pre +:+ s)
  = (λ i, String.length pre + i)%nat <$> String.index 0 (String b sub') s.
Proof.
  unfold PyStr.contains. induction pre as [|c pre IH]; intros Hclean.
  - rewrite string_app_nil_l. cbn [String.length Nat.add].
    by destruct (String.index 0 (String b sub') s).
  - rewrite index_0_cons in Hclean.
    rewrite string_app_cons, index_0_cons.
    cbn [String.prefix] in Hclean |- *.
    destruct (ascii_dec b c) as [->|Hne].
    + by rewrite prefix_nil in Hclean.
    + rewrite IH.
      * cbn [String.length]. by destruct (String.index 0 (String b sub') s).
      * by destruct (String.index 0 (String b EmptyString) pre).
Qed.

Lemma fence_not_at_line_end (x rest : string) :
  String.prefix "```" x = false →
  String.prefix "```" (x +:+ String "010" rest) = false.
Proof.
  destruct x as [|a [|b [|c x]]];
    rewrite ?string_app_cons, ?string_app_nil_l; cbn [String.prefix];
    repeat (match goal with
            | |- context [ascii_dec ?p ?q] => destruct (ascii_dec p q)
            end; try done);
    rewrite ?prefix_nil; done.
Qed.

(** The first fence after code that holds none is past the end of its
    line. *)
Lemma index_fence_after_code (code rest : string) :
  PyStr.contains "```" code = false →
  String.index 0 "```" (code +:+ String "010" rest)
  = (λ i, String.length code + 1 + i)%nat <$> String.index 0 "```" rest.
Proof.
  unfold PyStr.contains. induction code as [|c code IH]; intros Hclean.
  - rewrite string_app_nil_l, index_0_cons. cbn [String.prefix].
    destruct (ascii_dec "`" "010"); [done|].
    by destruct (String.index 0 "```" rest).
  - rewrite index_0_cons in Hclean.
    destruct (String.prefix "```" (String c code)) eqn:Hp; [done|].
    pose proof (fence_not_at_line_end _ rest Hp) as Hp'.
    rewrite string_app_cons in Hp' |- *.
    rewrite index_0_cons, Hp', IH.
    + cbn [String.length]. by destruct (String.index 0 "```" rest).
    + by destruct (String.index 0 "```" code).
Qed.

Lemma index_fence_here (tail : string) :
  String.index 0 "```" ("```" +:+ tail) = Some 0%nat.
Proof.
  rewrite !string_app_cons, string_app_nil_l, index_0_cons.
  cbn [String.prefix].
  repeat (destruct (ascii_dec _ _); [|done]). by rewrite prefix_nil.
Qed.

Lemma index_python_fence_here (s : string) :
  String.index 0 "```python" ("```python" +:+ s) = Some 0%nat.
Proof.
  rewrite !string_app_cons, string_app_nil_l, index_0_cons.
  cbn [String.prefix].
  repeat (destruct (ascii_dec _ _); [|done]). by rewrite prefix_nil.
Qed.

Lemma substring_skip (p s : string) (n m : nat) :
  String.substring (String.length p + n) m (p +:+ s) = String.substring n m s.
Proof.
  induction p as [|c p IH]; [done|].
  rewrite string_app_cons. cbn [String.length Nat.add String.substring].
  exact IH.
Qed.

Lemma substring_prefix (a b : string) :
  String.substring 0 (String.length a) (a +:+ b) = a.
Proof.
  induction a as [|c a IH].
  - rewrite string_app_nil_l. by destruct b.
  - rewrite string_app_cons. cbn [String.length String.substring].
    by rewrite IH.
Qed.

(** A slice between two indices inside the text. *)
Lemma slice_inside (s : string) (a b : nat) :
  (a ≤ b)%nat → (b ≤ String.length s)%nat →
  PyStr.slice s (Z.of_nat a) (Z.of_nat b) = String.substring a (b - a) s.
Proof.
  intros Hab Hb. unfold PyStr.slice, PyStr.clamp_index.
  destruct (Z.ltb_spec (Z.of_nat a) 0); [lia|].
  destruct (Z.ltb_spec (Z.of_nat b) 0); [lia|].
  rewrite !Z.min_l by lia. rewrite Nat2Z.id. f_equal. lia.
Qed.

Lemma rstrip_app_space (y : string) (c : ascii) :
  PyStr.isspace c = true →
  PyStr.rstrip (y +:+ String c EmptyString) = PyStr.rstrip y.
Proof.
  intros Hc. induction y as [|d y IH].
  - rewrite string_app_nil_l. cbn [PyStr.rstrip]. by rewrite Hc.
  - rewrite string_app_cons. cbn [PyStr.rstrip]. by rewrite IH.
Qed.

Lemma strip_app_space (y : string) (c : ascii) :
  PyStr.isspace c = true →
  PyStr.strip (y +:+ String c EmptyString) = PyStr.strip y.
Proof.
  intros Hc. unfold PyStr.strip. induction y as [|d y IH].
  - rewrite string_app_nil_l. cbn [PyStr.lstrip PyStr.rstrip].
    by rewrite Hc.
  - rewrite string_app_cons. cbn [PyStr.lstrip].
    destruct (PyStr.isspace d); [exact IH|].
    rewrite <- string_app_cons. by apply rstrip_app_space.
Qed.

(** X13. Code in a closed fence is recovered. When the text before the fence
    holds no backquote and the code no fence, the response made of the text,
    the opening line [```python], the code, and the closing line [```]
    followed by anything, yields the code trimmed; so code without white
    space at its ends is returned as it is. *)
Theorem extract_fenced_code (pre code tail : string) :
  PyStr.contains "`" pre = false →
  PyStr.contains "```" code = false →
  _extract_test_code
    (pre +:+ "```python" +:+ PyStr.nl +:+ code +:+ PyStr.nl +:+ "```"
         +:+ tail)
  = PyStr.strip code.
Proof.
  intros Hpre Hcode.
  set (body := String "010" (code +:+ String "010" ("```" +:+ tail))).
  change (pre +:+ "```python" +:+ PyStr.nl +:+ code +:+ PyStr.nl
              +:+ "```" +:+ tail)
    with (pre +:+ "```python" +:+ body).
  assert (Hlen : String.length (pre +:+ "```python")
                 = (String.length pre + 9)%nat).
  { rewrite string_length_app. done. }
  assert (Hopen : String.index 0 "```python" (pre +:+ "```python" +:+ body)
                  = Some (String.length pre)).
  { rewrite (index_clean_prefix "`" "``python" pre _ Hpre).
    rewrite index_python_fence_here. cbn [fmap option_fmap option_map].
    f_equal. lia. }
  assert (Hclose :
            String.index (String.length pre + 9) "```"
                         (pre +:+ "```python" +:+ body)
            = Some (String.length pre + 9 + (String.length code + 2))%nat).
  { rewrite <- string_app_assoc.
    replace (String.length pre + 9)%nat
      with (String.length (pre +:+ "```python") + 0)%nat by lia.
    rewrite index_skip. unfold body. rewrite index_0_cons.
    cbn [String.prefix]. destruct (ascii_dec "`" "010"); [done|].
    rewrite (index_fence_after_code code _ Hcode), index_fence_here.
    cbn [fmap option_fmap option_map]. f_equal. lia. }
  unfold _extract_test_code, PyStr.contains, PyStr.find.
  rewrite Hopen.
  replace (Z.to_nat (Z.of_nat (String.length pre) + 9))
    with (String.length pre + 9)%nat by lia.
  rewrite Hclose.
  replace (Z.of_nat (String.length pre) + 9)
    with (Z.of_nat (String.length pre + 9)) by lia.
  assert (Hbody : body
                  = (String "010" code +:+ String "010" EmptyString)
                    +:+ "```" +:+ tail).
  { unfold body. by rewrite !string_app_cons, string_app_assoc. }
  assert (Hmid : String.length (String "010" code +:+ String "010" EmptyString)
                 = (String.length code + 2)%nat).
  { rewrite string_length_app. cbn [String.length]. lia. }
  rewrite slice_inside.
  - replace (String.length pre + 9 + (String.length code + 2)
             - (String.length pre + 9))%nat
      with (String.length (String "010" code +:+ String "010" EmptyString))
      by lia.
    rewrite <- string_app_assoc.
    replace (String.length pre + 9)%nat
      with (String.length (pre +:+ "```python") + 0)%nat by lia.
    rewrite substring_skip, Hbody, substring_prefix.
    rewrite (strip_app_space _ "010") by done.
    unfold PyStr.strip. cbn [PyStr.lstrip].
    change (PyStr.isspace "010") with true. done.
  - lia.
  - rewrite <- string_app_assoc, string_length_app, Hlen, Hbody.
    rewrite string_length_app, Hmid. lia.
Qed.

(** ** More properties: from scores to acceptance *)

Lemma dict_set_elem (scores : list (string * Q)) (k : string) (v : Q)
    (x : string * Q) :
  x ∈ dict_set scores k v → x ∈ scores ∨ x = (k, v).
Proof.
  induction scores as [|[k0 v0] scores IH]; cbn [dict_set].
  - intros ->%list_elem_of_singleton. by right.
  - destruct (String.eqb_spec k0 k) as [->|Hne].
    + intros [->|Hx]%elem_of_cons; [by right|].
      left. by apply list_elem_of_further.
    + intros [->|Hx]%elem_of_cons; [left; apply list_elem_of_here|].
      destruct (IH Hx) as [?|?]; [left|by right].
      by apply list_elem_of_further.
Qed.

Lemma dict_set_not_nil (scores : list (string * Q)) (k : string) (v : Q) :
  dict_set scores k v ≠ [].
Proof.
  destruct scores as [|[k0 v0] scores]; cbn [dict_set]; [done|].
  by destruct (String.eqb k0 k).
Qed.

Lemma dict_fold_elem (assignments scores : list (string * Q))
    (x : string * Q) :
  x ∈ foldl (λ d kv, dict_set d kv.1 kv.2) scores assignments →
  x ∈ scores ∨ x ∈ assignments.
Proof.
  revert scores. induction assignments as [|[k v] l IH]; intros scores.
  - by left.
  - cbn [foldl]. intros [Hx|Hx]%IH.
    + apply dict_set_elem in Hx as [?| ->]; [by left|].
      right. apply list_elem_of_here.
    + right. by apply list_elem_of_further.
Qed.

Lemma dict_fold_not_nil (assignments scores : list (string * Q)) :
  scores ≠ [] ∨ assignments ≠ [] →
  foldl (λ d kv, dict_set d kv.1 kv.2) scores assignments ≠ [].
Proof.
  revert scores. induction assignments as [|[k v] l IH]; intros scores.
  - intros [?|?]; done.
  - intros _. cbn [foldl]. apply IH. left. apply dict_set_not_nil.
Qed.

(** The scores kept in the dictionary are scores that were read. *)
Lemma dict_of_Forall (P : string * Q → Prop) (parsed : list (string * Q)) :
  Forall P parsed → Forall P (dict_of parsed).
Proof.
  intros HP. apply Forall_forall. intros x Hx.
  apply dict_fold_elem in Hx as [Hx|Hx]; [by apply elem_of_nil in Hx|].
  by apply (proj1 (Forall_forall _ _) HP).
Qed.

Lemma sum_fold_lower (scores : list (string * Q)) (acc lo : Q) :
  Forall (λ kv, (lo <= kv.2)%Q) scores →
  (acc + lo * inject_Z (len scores)
   <= foldl (λ a kv, (a + kv.2)%Q) acc scores)%Q.
Proof.
  intros Hall. revert acc.
  induction Hall as [|[k v] scores Hlo _ IH]; intros acc.
  - cbn [foldl]. unfold len. cbn [length].
    change (inject_Z (Z.of_nat 0)) with 0%Q. lra.
  - cbn [foldl]. pose proof (inject_Z_len_cons (k, v) scores) as Hlen.
    pose proof (IH (acc + v)%Q) as H1. cbn [snd] in *.
    rewrite Hlen. lra.
Qed.

Lemma inject_Z_len_cons_pos {A} (x : A) (l : list A) :
  (0 < inject_Z (len (x :: l)))%Q.
Proof. unfold len, Qlt. simpl. lia. Qed.

Lemma mean_lower (scores : list (string * Q)) (lo : Q) :
  scores ≠ [] → Forall (λ kv, (lo <= kv.2)%Q) scores →
  (lo <= mean_or_neutral scores)%Q.
Proof.
  intros Hne Hall. destruct scores as [|kv scores]; [done|].
  unfold mean_or_neutral, sum_values.
  pose proof (sum_fold_lower (kv :: scores) 0 lo Hall).
  apply Qle_shift_div_l; [apply inject_Z_len_cons_pos|]. lra.
Qed.

Lemma mean_singleton (k : string) (v : Q) :
  (mean_or_neutral [(k, v)] == v)%Q.
Proof.
  unfold mean_or_neutral, sum_values, len. cbn [foldl snd length].
  change (inject_Z (Z.of_nat 1)) with 1%Q. field.
Qed.

Lemma parse_judgment_scores (response : string) :
  Judgment.overall_score (_parse_judgment_response response)
  = Some (mean_or_neutral
            (dict_of (score_assignments (PyStr.split "010" response)))).
Proof.
  unfold _parse_judgment_response. rewrite parse_lines_spec. done.
Qed.

(** X14. From the scores of a reply to the decision, for a reply that does
    not hold the text [nan]. When no score could be read the overall score
    is 5.0 and the candidate is rejected. When at least one score was read
    and all are at least 7, the candidate is accepted. When all scores read
    carry one label, whose last score is below 7, the candidate is
    rejected. *)
Theorem acceptance_from_scores (o o' : Oracle) (s : TestingFramework.t)
    (improvements_made : bool) (unit : CodeUnit.t) (test : TestCase.t)
    (text : string) :
  invoke o (JudgmentPrompt test unit) = (o', Content text) →
  PyStr.contains "nan" (PyStr.lower text) = false →
  let parsed := score_assignments (PyStr.split "010" text) in
  let st' := judge_candidate unit (o, s, improvements_made) test in
  (parsed = [] →
   Judgment.overall_score (judge_test o test unit).2 = Some 5%Q
   ∧ st' = (o', s, improvements_made))
  ∧ (parsed ≠ [] → Forall (λ kv, (7 <= kv.2)%Q) parsed →
     st' = (o', accept s test, true))
  ∧ (∀ (label : string) (score : Q),
       dict_of parsed = [(label, score)] → (score < 7)%Q →
       st' = (o', s, improvements_made)).
Proof.
  intros Hcall _ parsed st'. subst st'.
  assert (Hjudge : judge_test o test unit
                   = (o', _parse_judgment_response text)).
  { unfold judge_test. by rewrite Hcall. }
  assert (Hscore : Judgment.get_overall_score (_parse_judgment_response text)
                   = mean_or_neutral (dict_of parsed)).
  { unfold Judgment.get_overall_score. by rewrite parse_judgment_scores. }
  assert (Hne : parsed ≠ [] → dict_of parsed ≠ []).
  { intros H. apply dict_fold_not_nil. by right. }
  unfold judge_candidate. rewrite Hjudge, Hscore. cbn [snd].
  rewrite parse_judgment_scores. fold parsed.
  split; [|split].
  - intros ->. done.
  - intros Hp Hall.
    assert (Hm : (7 <= mean_or_neutral (dict_of parsed))%Q).
    { apply mean_lower; [by apply Hne|]. by apply dict_of_Forall. }
    apply Qle_bool_iff in Hm. by rewrite Hm.
  - intros label score -> Hlow.
    destruct (Qle_bool 7 (mean_or_neutral [(label, score)])) eqn:Hb; [|done].
    apply Qle_bool_iff in Hb. rewrite mean_singleton in Hb.
    exfalso. by apply (Qlt_not_le _ _ Hlow).
Qed.

(** ** More properties: what the loop does to the framework *)

Lemma write_files_app (dir : gmap string string) (l1 l2 : list TestCase.t) :
  write_files (write_files dir l1) l2 = write_files dir (l1 ++ l2).
Proof. unfold write_files. by rewrite foldl_app. Qed.

Lemma appends_refl (s : TestingFramework.t) : appends s s [].
Proof. unfold appends. by rewrite !app_nil_r. Qed.

Lemma appends_trans (s1 s2 s3 : TestingFramework.t)
    (e1 e2 : list TestCase.t) :
  appends s1 s2 e1 → appends s2 s3 e2 → appends s1 s3 (e1 ++ e2).
Proof.
  intros (Hc1 & Ht1 & Hg1 & Hd1) (Hc2 & Ht2 & Hg2 & Hd2).
  unfold appends.
  rewrite Hc2, Hc1, Ht2, Ht1, Hg2, Hg1, Hd2, Hd1, write_files_app.
  by rewrite !app_assoc.
Qed.

Lemma accept_appends (s : TestingFramework.t) (test : TestCase.t) :
  appends s (accept s test) [test].
Proof. by unfold appends. Qed.

Lemma judge_candidate_appends (unit : CodeUnit.t) (st : LoopState)
    (test : TestCase.t) :
  ∃ extra,
    appends st.1.2 (judge_candidate unit st test).1.2 extra
    ∧ (extra = [] ∨ extra = [test]).
Proof.
  destruct st as [[o s] imp]. unfold judge_candidate.
  destruct (judge_test o test unit) as [o' j].
  destruct (Qle_bool 7 (Judgment.get_overall_score j)).
  - exists [test]. split; [apply accept_appends|by right].
  - exists []. split; [apply appends_refl|by left].
Qed.

Lemma judge_all_appends (unit : CodeUnit.t) (tests : list TestCase.t)
    (st : LoopState) :
  ∃ extra,
    appends st.1.2 (foldl (judge_candidate unit) st tests).1.2 extra
    ∧ (length extra ≤ length tests)%nat
    ∧ ∀ t, t ∈ extra → t ∈ tests.
Proof.
  revert st. induction tests as [|t tests IH]; intros st; cbn [foldl].
  - exists []. split; [apply appends_refl|]. by repeat split.
  - destruct (judge_candidate_appends unit st t) as (e1 & H1 & He1).
    destruct (IH (judge_candidate unit st t)) as (e2 & H2 & Hlen & Hin).
    exists (e1 ++ e2). split; [by eapply appends_trans|].
    split.
    + rewrite length_app. destruct He1 as [-> | ->]; simpl; lia.
    + intros x [Hx|Hx]%elem_of_app.
      * destruct He1 as [-> | ->]; [by apply elem_of_nil in Hx|].
        apply list_elem_of_singleton in Hx as ->. apply list_elem_of_here.
      * apply list_elem_of_further. by apply Hin.
Qed.

Lemma generate_tests_cases (o : Oracle) (unit : CodeUnit.t)
    (tests : list TestCase.t) :
  (generate_tests o unit tests).2 = []
  ∨ ∃ code, code ≠ EmptyString
            ∧ (generate_tests o unit tests).2 = [generated_test unit code].
Proof.
  unfold generate_tests.
  destruct (invoke o _) as [o' [text|]]; [|by left].
  destruct (PyStr.truthy (_extract_test_code text)) eqn:Hc; [|by left].
  right. exists (_extract_test_code text). split; [|done].
  intros Hnil. by rewrite Hnil in Hc.
Qed.

Lemma process_target_appends (st : LoopState) (unit_name : string) :
  ∃ extra,
    appends st.1.2 (process_target st unit_name).1.2 extra
    ∧ (length extra ≤ 1)%nat
    ∧ Forall (generated_for (TestingFramework.code_units st.1.2)) extra.
Proof.
  destruct st as [[o s] imp]. unfold process_target. cbn [fst snd].
  destruct (_find_code_unit s unit_name) as [unit|] eqn:Hfind.
  2: { exists []. split; [apply appends_refl|]. split; [simpl; lia|done]. }
  apply find_code_unit_in_Some in Hfind as (l1 & l2 & Hunits & _ & _).
  pose proof (generate_tests_cases o unit (TestingFramework.test_cases s))
    as Hgen.
  destruct (generate_tests o unit (TestingFramework.test_cases s))
    as [o' new_tests]. cbn [snd] in Hgen.
  destruct (judge_all_appends unit new_tests (o', s, imp))
    as (extra & Happ & Hlen & Hin).
  exists extra. split; [exact Happ|].
  destruct Hgen as [->|(code & Hcode & ->)].
  - destruct extra; [|simpl in Hlen; lia]. split; [simpl; lia|done].
  - split; [exact Hlen|]. apply Forall_forall. intros t Ht.
    apply Hin, list_elem_of_singleton in Ht as ->.
    exists unit, code. repeat split; [|done].
    rewrite Hunits. apply elem_of_app. right. apply list_elem_of_here.
Qed.

Lemma process_targets_appends (targets : list string) (st : LoopState) :
  ∃ extra,
    appends st.1.2 (foldl process_target st targets).1.2 extra
    ∧ (length extra ≤ length targets)%nat
    ∧ Forall (generated_for (TestingFramework.code_units st.1.2)) extra.
Proof.
  revert st. induction targets as [|x targets IH]; intros st; cbn [foldl].
  - exists []. split; [apply appends_refl|]. by repeat split.
  - destruct (process_target_appends st x) as (e1 & H1 & Hl1 & Hg1).
    destruct (IH (process_target st x)) as (e2 & H2 & Hl2 & Hg2).
    exists (e1 ++ e2). split; [by eapply appends_trans|].
    split; [rewrite length_app; simpl; lia|].
    apply Forall_app. split; [done|].
    destruct H1 as (Hc & _). by rewrite Hc in Hg2.
Qed.

Lemma improved_passes_cons (outcomes : list Outcome) :
  improved_passes (Improved :: outcomes) = S (improved_passes outcomes).
Proof. unfold improved_passes. by rewrite filter_cons_True. Qed.

(** What a whole run of the loop does: it appends generated tests, at least
    one and at most five for every pass that improved. *)
Lemma improve_loop_appends (n : nat) (o : Oracle) (s : TestingFramework.t) :
  ∃ extra,
    appends s (improve_loop n o s).1.2 extra
    ∧ Forall (generated_for (TestingFramework.code_units s)) extra
    ∧ (improved_passes (improve_loop n o s).2 ≤ length extra)%nat
    ∧ (length extra ≤ 5 * improved_passes (improve_loop n o s).2)%nat
    ∧ (improved_passes (improve_loop n o s).2 ≤ n)%nat.
Proof.
  revert o s. induction n as [|n IH]; intros o s; cbn [improve_loop].
  - exists []. split; [apply appends_refl|]. by repeat split.
  - destruct (target_units s) as [|x targets] eqn:Ht.
    { exists []. split; [apply appends_refl|]. repeat split; try done.
      cbn [snd]. unfold improved_passes.
      rewrite filter_cons_False by done. simpl. lia. }
    pose proof (pass_improves_iff_accepts o s (take 5 (x :: targets)))
      as Hflag.
    destruct (process_targets_appends (take 5 (x :: targets)) (o, s, false))
      as (e1 & H1 & Hl1 & Hg1).
    destruct (foldl process_target (o, s, false) (take 5 (x :: targets)))
      as [[o' s'] imp]. cbn [fst snd] in *.
    assert (Hl5 : (length e1 ≤ 5)%nat).
    { etrans; [exact Hl1|]. rewrite length_take. lia. }
    assert (Hgrow : imp = true ↔ (0 < length e1)%nat).
    { rewrite Hflag. destruct H1 as (_ & _ & -> & _).
      rewrite length_app. lia. }
    destruct imp.
    + destruct (IH o' s') as (e2 & H2 & Hg2 & Hlo & Hhi & Hn).
      destruct (improve_loop n o' s') as [[o'' s''] outcomes].
      cbn [fst snd] in *. exists (e1 ++ e2).
      split; [by eapply appends_trans|].
      split.
      { apply Forall_app. split; [done|].
        destruct H1 as (Hc & _). by rewrite Hc in Hg2. }
      rewrite improved_passes_cons, length_app.
      assert (0 < length e1)%nat by (by apply Hgrow). lia.
    + assert (length e1 = 0%nat) as Hnil.
      { destruct (length e1) eqn:He; [done|].
        assert (false = true) by (apply Hgrow; lia). done. }
      exists e1. split; [done|]. split; [done|]. rewrite Hnil. cbn [snd].
      unfold improved_passes. rewrite filter_cons_False by done.
      simpl. lia.
Qed.

(** X15. The loop only appends. It leaves the units as they are, keeps every
    test it found, in place and unchanged, and appends the same new tests to
    the working tests and to the generated tests; each of them was built by
    the generator from code that is not empty, for a unit of the framework. *)
Theorem loop_only_appends (max_iterations : Z) (o : Oracle)
    (s : TestingFramework.t) :
  let s' := (_improve_tests_iteratively max_iterations o s).1.2 in
  ∃ extra : list TestCase.t,
    TestingFramework.code_units s' = TestingFramework.code_units s
    ∧ TestingFramework.test_cases s' = TestingFramework.test_cases s ++ extra
    ∧ TestingFramework.generated_tests s'
      = TestingFramework.generated_tests s ++ extra
    ∧ ∀ test, test ∈ extra →
        ∃ unit code,
          unit ∈ TestingFramework.code_units s
          ∧ code ≠ EmptyString
          ∧ test = generated_test unit code.
Proof.
  intros s'. subst s'. unfold _improve_tests_iteratively.
  destruct (improve_loop_appends (Z.to_nat max_iterations) o s)
    as (extra & (Hc & Ht & Hg & _) & Hgen & _).
  exists extra. repeat split; [done..|].
  intros test Hin. by apply (proj1 (Forall_forall _ _) Hgen).
Qed.

(** X16. The budget of the loop. Every pass that improved added between one
    and five tests, and there are at most [max_iterations] such passes; so
    the loop adds at most five tests for each pass of its budget, and with a
    budget of zero or less it does nothing at all. *)
Theorem loop_budget (max_iterations : Z) (o : Oracle)
    (s : TestingFramework.t) :
  let run := _improve_tests_iteratively max_iterations o s in
  let added :=
    len (TestingFramework.generated_tests run.1.2)
    - len (TestingFramework.generated_tests s) in
  let improved := Z.of_nat (improved_passes run.2) in
  improved ≤ added ≤ 5 * improved
  ∧ improved ≤ Z.max 0 max_iterations
  ∧ added ≤ 5 * Z.max 0 max_iterations
  ∧ (max_iterations ≤ 0 → run = (o, s, [])).
Proof.
  intros run added improved. subst run added improved.
  unfold _improve_tests_iteratively.
  destruct (improve_loop_appends (Z.to_nat max_iterations) o s)
    as (extra & (_ & _ & Hg & _) & _ & Hlo & Hhi & Hn).
  rewrite Hg. unfold len. rewrite length_app.
  repeat split; try lia.
  intros Hmax. replace (Z.to_nat max_iterations) with 0%nat by lia. done.
Qed.

Lemma percentage_mono (a a' b : nat) :
  (a ≤ a')%nat →
  (inject_Z (Z.of_nat a) / inject_Z (Z.of_nat b) * 100
   <= inject_Z (Z.of_nat a') / inject_Z (Z.of_nat b) * 100)%Q.
Proof.
  intros Ha. destruct b as [|b];
    unfold Qle, Qdiv, Qmult, Qinv, inject_Z; simpl; nia.
Qed.

(** X17. The loop never lowers coverage. The uncovered units after a run are
    among those before it, the coverage percentage of an assessment is not
    lower after the run than before, and the number of tests grows by the
    number of tests the run generated. *)
Theorem loop_never_uncovers (max_iterations : Z) (o o1 o2 : Oracle)
    (s : TestingFramework.t) :
  let s' := (_improve_tests_iteratively max_iterations o s).1.2 in
  let before :=
    (assess_quality o1 (TestingFramework.code_units s)
                    (TestingFramework.test_cases s)).2 in
  let after :=
    (assess_quality o2 (TestingFramework.code_units s')
                    (TestingFramework.test_cases s')).2 in
  _identify_uncovered_units s' ⊆ _identify_uncovered_units s
  ∧ QualityMetrics.uncovered_units after
    ⊆ QualityMetrics.uncovered_units before
  ∧ (QualityMetrics.coverage_percentage before
     <= QualityMetrics.coverage_percentage after)%Q
  ∧ QualityMetrics.total_tests after
    = QualityMetrics.total_tests before
      + (len (TestingFramework.generated_tests s')
         - len (TestingFramework.generated_tests s)).
Proof.
  intros s' before after. subst s' before after.
  unfold _improve_tests_iteratively.
  destruct (improve_loop_appends (Z.to_nat max_iterations) o s)
    as (extra & (Hc & Ht & Hg & _) & _).
  rewrite !assess_quality_uncovered, !assess_quality_coverage,
          !assess_quality_total_tests, Hc, Ht, Hg.
  assert (Hcov : covered_units (TestingFramework.test_cases s)
                 ⊆ covered_units (TestingFramework.test_cases s ++ extra)).
  { rewrite !covered_units_union, fmap_app, union_list_app_L.
    apply union_subseteq_l. }
  split; [|split; [|split]].
  - unfold _identify_uncovered_units. rewrite Hc, Ht.
    fold (covered_units (TestingFramework.test_cases s ++ extra)).
    fold (covered_units (TestingFramework.test_cases s)).
    intros x [Hx Hn]%elem_of_difference. apply elem_of_difference.
    split; [done|]. intros Hin. by apply Hn, Hcov.
  - intros x [Hx Hn]%elem_of_difference. apply elem_of_difference.
    split; [done|]. intros Hin. by apply Hn, Hcov.
  - destruct (TestingFramework.code_units s) as [|u units];
      [apply Qle_refl|].
    apply percentage_mono. by apply subseteq_size.
  - unfold len. rewrite !length_app. lia.
Qed.

Lemma write_files_lookup (tests : list TestCase.t)
    (dir : gmap string string) (f : string) :
  write_files dir tests !! f
  = match last (filter (λ t, file_of t = f) tests) with
    | Some t => Some (test_file_content t)
    | None => dir !! f
    end.
Proof.
  revert dir. induction tests as [|t tests IH]; intros dir.
  - done.
  - unfold write_files. cbn [foldl]. fold (write_files
      (<[ PyStr.path_name (TestCase.file_path t) := test_file_content t ]>
         dir) tests).
    rewrite IH, filter_cons. fold (file_of t).
    destruct (decide (file_of t = f)) as [<-|Hne].
    + rewrite last_cons.
      destruct (last (filter (λ t0, file_of t0 = file_of t) tests));
        [done|].
      by rewrite lookup_insert_eq.
    + destruct (last (filter (λ t0, file_of t0 = f) tests)); [done|].
      by rewrite lookup_insert_ne.
Qed.

(** X18. The files of a run. A file of the tests directory is left as it was
    unless a test accepted in the run is named after it; then it holds, with
    the fixed header, the code of the last such test. Earlier tests written
    to the same file are overwritten, although they stay in the lists. *)
Theorem loop_files (max_iterations : Z) (o : Oracle)
    (s : TestingFramework.t) :
  let s' := (_improve_tests_iteratively max_iterations o s).1.2 in
  ∃ extra : list TestCase.t,
    TestingFramework.generated_tests s'
    = TestingFramework.generated_tests s ++ extra
    ∧ ∀ f : string,
        TestingFramework.test_dir s' !! f
        = match last (filter (λ t, file_of t = f) extra) with
          | Some t => Some (test_file_content t)
          | None => TestingFramework.test_dir s !! f
          end.
Proof.
  intros s'. subst s'. unfold _improve_tests_iteratively.
  destruct (improve_loop_appends (Z.to_nat max_iterations) o s)
    as (extra & (_ & _ & Hg & Hd) & _).
  exists extra. split; [done|]. intros f. rewrite Hd.
  apply write_files_lookup.
Qed.

Lemma sum_of_singleton {A} (f : A → Z) (x : A) : sum_of f [x] = f x.
Proof. unfold sum_of. simpl. lia. Qed.

(** X19. A first test is not enough. When an uncovered unit gets its only
    test from the generator and the code has fewer than three assertions or
    none of the mock words, the unit leaves the uncovered units and enters
    the low quality units: the target list of the next pass is not empty. *)
Theorem first_test_leaves_unit_low_quality (s : TestingFramework.t)
    (unit : CodeUnit.t) (code : string) :
  CodeUnit.name unit ∈ _identify_uncovered_units s →
  _count_assertions_in_code code < 3 ∨ _count_mocks_in_code code < 1 →
  let s' := accept s (generated_test unit code) in
  CodeUnit.name unit ∈ _identify_low_quality_units s'
  ∧ (CodeUnit.name unit ∉ _identify_uncovered_units s')
  ∧ (enumerates_elements → target_units s' ≠ []).
Proof.
  intros Hunc Hweak s'. subst s'.
  assert (Hnone : listing (CodeUnit.name unit) (TestingFramework.test_cases s)
                  = []).
  { destruct (listing (CodeUnit.name unit) (TestingFramework.test_cases s))
      as [|t found] eqn:Hl; [done|]. exfalso.
    assert (Hne : listing (CodeUnit.name unit)
                          (TestingFramework.test_cases s) ≠ [])
      by (by rewrite Hl).
    apply listing_nonempty in Hne.
    unfold _identify_uncovered_units in Hunc.
    rewrite foldl_union_tested, foldl_union_names in Hunc.
    apply elem_of_difference in Hunc as [_ Hn]. apply Hn.
    apply elem_of_union. by right. }
  assert (Hone : listing (CodeUnit.name unit)
                   (TestingFramework.test_cases
                      (accept s (generated_test unit code)))
                 = [generated_test unit code]).
  { cbn [accept _save_test_case TestingFramework.test_cases].
    unfold listing in *. rewrite filter_app, Hnone, filter_cons_True.
    - done.
    - cbn [generated_test TestCase.tested_units]. by apply elem_of_singleton. }
  assert (Hlow : CodeUnit.name unit
                 ∈ _identify_low_quality_units
                     (accept s (generated_test unit code))).
  { apply elem_of_low_quality_units. rewrite Hone.
    split; [done|]. by rewrite !sum_of_singleton. }
  split; [exact Hlow|]. split.
  - intros Hin.
    destruct (low_quality_units_disjoint
                (accept s (generated_test unit code))
                (CodeUnit.name unit)); done.
  - intros Henum Hnil. unfold target_units in Hnil.
    apply app_eq_nil in Hnil as [_ Hnil].
    apply (Henum _ (CodeUnit.name unit)) in Hlow.
    rewrite Hnil in Hlow. by apply elem_of_nil in Hlow.
Qed.

(** ** More properties: mutation results *)

Lemma first_isdigit_Some (parts : list string) (part : string) :
  first_isdigit parts = Some part → part ∈ parts ∧ py_isdigit part = true.
Proof.
  induction parts as [|x parts IH]; [done|]. cbn [first_isdigit].
  destruct (py_isdigit x) eqn:Hx.
  - intros [= <-]. split; [apply list_elem_of_here|done].
  - intros [Hin Hd]%IH. split; [by apply list_elem_of_further|done].
Qed.

Lemma count_in_line_cases (py_int : string → option Z) (line : string)
    (current : Z) :
  count_in_line py_int line current = current
  ∨ ∃ part, part ∈ PyStr.split_ws line
            ∧ py_isdigit part = true
            ∧ py_int part = Some (count_in_line py_int line current).
Proof.
  unfold count_in_line.
  destruct (first_isdigit (PyStr.split_ws line)) as [part|] eqn:Hp;
    [|by left].
  apply first_isdigit_Some in Hp as [Hin Hd].
  destruct (py_int part) as [n|] eqn:Hn; [|by left].
  right. by exists part.
Qed.

Lemma counters_read_from_mono (py_int : string → option Z)
    (lines lines' : list string) (r : MutationResults.t) :
  (∀ x, x ∈ lines → x ∈ lines') →
  counters_read_from py_int lines r → counters_read_from py_int lines' r.
Proof.
  intros Hsub (Hk & Hs & Ht). split; [|split; [|done]].
  - destruct Hk as [Hk|(line & part & Hin & Hrest)]; [by left|].
    right. exists line, part. split; [by apply Hsub|done].
  - destruct Hs as [Hs|(line & part & Hin & Hrest)]; [by left|].
    right. exists line, part. split; [by apply Hsub|done].
Qed.

Lemma parse_mutmut_lines_counters (py_int : string → option Z)
    (lines seen : list string) (r : MutationResults.t) :
  counters_read_from py_int seen r →
  counters_read_from py_int (seen ++ lines)
    (foldl (parse_mutmut_line py_int) r lines).
Proof.
  revert seen r. induction lines as [|line lines IH]; intros seen r Hr.
  - by rewrite app_nil_r.
  - cbn [foldl]. rewrite (cons_middle line seen lines), app_assoc.
    apply IH.
    assert (Hold : counters_read_from py_int (seen ++ [line]) r).
    { eapply counters_read_from_mono; [|exact Hr].
      intros x Hx. apply elem_of_app. by left. }
    assert (Hline : line ∈ seen ++ [line]).
    { apply elem_of_app. right. apply list_elem_of_here. }
    destruct Hold as (Hk & Hs & Ht). unfold parse_mutmut_line.
    destruct (PyStr.contains "surviving" (PyStr.lower line)) eqn:Hsurv.
    + split; [exact Hk|]. split; [|exact Ht].
      cbn [MutationResults.survived_mutations].
      destruct (count_in_line_cases py_int line
                  (MutationResults.survived_mutations r))
        as [->|(part & Hin & Hd & Hi)]; [done|].
      right. by exists line, part.
    + destruct (PyStr.contains "killed" (PyStr.lower line)) eqn:Hkill;
        [|done].
      split; [|split; [exact Hs|exact Ht]].
      cbn [MutationResults.killed_mutations].
      destruct (count_in_line_cases py_int line
                  (MutationResults.killed_mutations r))
        as [->|(part & Hin & Hd & Hi)]; [done|].
      right. by exists line, part.
Qed.

Lemma parse_mutmut_counters (py_int : string → option Z)
    (stdout stderr : string) :
  counters_read_from py_int (PyStr.split "010" stdout)
    (_parse_mutmut_results py_int stdout stderr).
Proof.
  pose proof (parse_mutmut_lines_counters py_int (PyStr.split "010" stdout)
                [] MutationResults.new) as H.
  rewrite app_nil_l in H. unfold _parse_mutmut_results.
  apply H. split; [by left|]. split; [by left|done].
Qed.

Lemma score_bounds (k t : Z) :
  0 ≤ k → k ≤ t → 0 < t →
  (0 <= inject_Z k / inject_Z t * 100 <= 100)%Q
  ∧ (k = 0 → (inject_Z k / inject_Z t * 100 == 0)%Q)
  ∧ (k = t → (inject_Z k / inject_Z t * 100 == 100)%Q).
Proof.
  intros Hk Hkt Ht. destruct t as [|t|t]; [lia| |lia].
  unfold Qle, Qeq, Qdiv, Qmult, Qinv, inject_Z. simpl.
  repeat split; try intros; try nia.
Qed.

(** X20. The results of a mutation run. When [int] gives no negative number
    on a text of digits, the two counters are not negative, the total is
    their sum, the timeouts stay at 0, and the score lies between 0 and 100:
    it is 0 when nothing was killed and 100 when something was killed and
    nothing survived. *)
Theorem mutation_results_invariants (py_int : string → option Z)
    (stdout stderr : string) :
  int_of_digits_nonneg py_int →
  let r := _parse_mutmut_results py_int stdout stderr in
  0 ≤ MutationResults.killed_mutations r
  ∧ 0 ≤ MutationResults.survived_mutations r
  ∧ MutationResults.total_mutations r
    = MutationResults.killed_mutations r
      + MutationResults.survived_mutations r
  ∧ MutationResults.timeout_mutations r = 0
  ∧ (0 <= MutationResults.mutation_score r <= 100)%Q
  ∧ (MutationResults.killed_mutations r = 0 →
     (MutationResults.mutation_score r == 0)%Q)
  ∧ (0 < MutationResults.killed_mutations r →
     MutationResults.survived_mutations r = 0 →
     (MutationResults.mutation_score r == 100)%Q).
Proof.
  intros Hint r.
  destruct (parse_mutmut_counters py_int stdout stderr) as (Hk & Hs & Ht).
  fold r in Hk, Hs, Ht.
  assert (Hk0 : 0 ≤ MutationResults.killed_mutations r).
  { destruct Hk as [->|(line & part & _ & _ & _ & _ & Hd & Hi)]; [done|].
    by eapply Hint. }
  assert (Hs0 : 0 ≤ MutationResults.survived_mutations r).
  { destruct Hs as [->|(line & part & _ & _ & _ & Hd & Hi)]; [done|].
    by eapply Hint. }
  split; [done|]. split; [done|]. split; [done|]. split; [done|].
  subst r. unfold _parse_mutmut_results in *.
  cbn [MutationResults.killed_mutations MutationResults.survived_mutations
       MutationResults.mutation_score] in *.
  unfold MutationResults.calculate_score.
  cbn [MutationResults.killed_mutations MutationResults.total_mutations].
  set (k := MutationResults.killed_mutations _) in *.
  set (v := MutationResults.survived_mutations _) in *.
  destruct (Z.eqb_spec (k + v) 0) as [Hz|Hnz].
  - split; [split; [apply Qle_refl|done]|].
    split; [reflexivity|lia].
  - destruct (score_bounds k (k + v)) as (Hb & H0 & H100); [lia..|].
    split; [exact Hb|]. split; [exact H0|].
    intros _ Hv. apply H100. lia.
Qed.

(** X21. Where the counters of a mutation run come from. A counter that is
    not 0 was read by [int] from a part, made of digits, of a line of the
    output: for the survivors a line that mentions [surviving], for the
    killed a line that mentions [killed] and does not mention [surviving].
    In particular an output without such lines, like a run that failed,
    gives the empty results. *)
Theorem mutation_counters_provenance (py_int : string → option Z)
    (stdout stderr : string) :
  let r := _parse_mutmut_results py_int stdout stderr in
  let lines := PyStr.split "010" stdout in
  (MutationResults.killed_mutations r = 0
   ∨ ∃ line part,
       line ∈ lines
       ∧ PyStr.contains "surviving" (PyStr.lower line) = false
       ∧ PyStr.contains "killed" (PyStr.lower line) = true
       ∧ part ∈ PyStr.split_ws line
       ∧ py_isdigit part = true
       ∧ py_int part = Some (MutationResults.killed_mutations r))
  ∧ (MutationResults.survived_mutations r = 0
     ∨ ∃ line part,
         line ∈ lines
         ∧ PyStr.contains "surviving" (PyStr.lower line) = true
         ∧ part ∈ PyStr.split_ws line
         ∧ py_isdigit part = true
         ∧ py_int part = Some (MutationResults.survived_mutations r))
  ∧ ((∀ line, line ∈ lines →
        PyStr.contains "surviving" (PyStr.lower line) = false
        ∧ PyStr.contains "killed" (PyStr.lower line) = false) →
     r = _run_mutation_testing py_int Failed).
Proof.
  intros r lines.
  destruct (parse_mutmut_counters py_int stdout stderr) as (Hk & Hs & Ht).
  split; [exact Hk|]. split; [exact Hs|].
  intros Hnone. subst r lines. unfold _parse_mutmut_results.
  assert (Hfold : ∀ r0, foldl (parse_mutmut_line py_int) r0
                          (PyStr.split "010" stdout) = r0).
  { revert Hnone. generalize (PyStr.split "010" stdout) as lines.
    induction lines as [|line lines IH]; intros Hnone r0; [done|].
    cbn [foldl]. unfold parse_mutmut_line at 2.
    destruct (Hnone line) as [-> ->]; [apply list_elem_of_here|].
    apply IH. intros x Hx. apply Hnone. by apply list_elem_of_further. }
  rewrite Hfold. reflexivity.
Qed.

(** ** More properties: the audit and its report *)

Lemma assess_quality_mutation_score (o : Oracle) (U : list CodeUnit.t)
    (T : list TestCase.t) :
  QualityMetrics.mutation_score (assess_quality o U T).2 = 0%Q.
Proof. read_metrics_field. Qed.

(** The report of an audit, from the assessments before and after and the
    tests that the loop accepted. *)
Lemma run_full_audit_report (py_int : string → option Z)
    (format_1f : Q → string) (str_int : Z → string) (project_name : string)
    (s : TestingFramework.t) (mutation_before mutation_after : ProcessOutcome)
    (generate run_mutation_testing : bool) (max_iterations : Z)
    (o : Oracle) :
  let run :=
    run_full_audit py_int format_1f str_int project_name s mutation_before
      mutation_after generate run_mutation_testing max_iterations o in
  ∃ (o2 : Oracle) (extra : list TestCase.t),
    appends s run.1.2 extra
    ∧ (generate = false → extra = [] ∧ run.1.2 = s)
    ∧ run.2
      = _generate_audit_report format_1f str_int project_name
          (Some (assess_quality o (TestingFramework.code_units s)
                   (TestingFramework.test_cases s)).2)
          (Some (assess_quality o2 (TestingFramework.code_units run.1.2)
                   (TestingFramework.test_cases run.1.2)).2)
          (if run_mutation_testing
           then Some (_run_mutation_testing py_int mutation_before)
           else None)
          (if run_mutation_testing
           then Some (_run_mutation_testing py_int mutation_after)
           else None)
          (TestingFramework.generated_tests run.1.2) [].
Proof.
  intros run. subst run. unfold run_full_audit.
  destruct (assess_quality o (TestingFramework.code_units s)
              (TestingFramework.test_cases s)) as [o1 bm].
  destruct generate.
  - pose proof (improve_loop_appends (Z.to_nat max_iterations) o1 s)
      as (extra & Happ & _).
    unfold _improve_tests_iteratively.
    destruct (improve_loop (Z.to_nat max_iterations) o1 s)
      as [[o' s'] outcomes]. cbn [fst snd] in Happ.
    exists o', extra.
    destruct (assess_quality o' (TestingFramework.code_units s')
                (TestingFramework.test_cases s')) as [o3 am] eqn:Ha.
    cbn [fst snd]. rewrite Ha.
    split; [exact Happ|]. split; [done|reflexivity].
  - exists o1, [].
    destruct (assess_quality o1 (TestingFramework.code_units s)
                (TestingFramework.test_cases s)) as [o3 am] eqn:Ha.
    cbn [fst snd]. rewrite Ha. split; [apply appends_refl|done].
Qed.

(** X22. The mutation score of the metrics is never set. Whatever the two
    mutation runs gave, the report of a full audit recommends to improve the
    mutation score and its summary shows a difference of 0 in mutation
    score; the results of the runs are in the report only when mutation
    testing was asked for. *)
Theorem audit_ignores_mutation_results (py_int : string → option Z)
    (format_1f : Q → string) (str_int : Z → string) (project_name : string)
    (s : TestingFramework.t) (mutation_before mutation_after : ProcessOutcome)
    (generate run_mutation_testing : bool) (max_iterations : Z)
    (o : Oracle) :
  let report :=
    (run_full_audit py_int format_1f str_int project_name s mutation_before
       mutation_after generate run_mutation_testing max_iterations o).2 in
  ("Improve mutation score by adding more comprehensive " +:+ "assertions")
    ∈ AuditReport.recommendations report
  ∧ dict_get (AuditReport.get_improvement_summary report)
             "mutation_score_delta" = Some 0%Q
  ∧ AuditReport.before_mutation report
    = (if run_mutation_testing
       then Some (_run_mutation_testing py_int mutation_before) else None)
  ∧ AuditReport.after_mutation report
    = (if run_mutation_testing
       then Some (_run_mutation_testing py_int mutation_after) else None).
Proof.
  intros report. subst report.
  destruct (run_full_audit_report py_int format_1f str_int project_name s
              mutation_before mutation_after generate run_mutation_testing
              max_iterations o) as (o2 & extra & _ & _ & ->).
  unfold _generate_audit_report, AuditReport.get_improvement_summary.
  cbn [AuditReport.recommendations AuditReport.before_metrics
       AuditReport.after_metrics AuditReport.before_mutation
       AuditReport.after_mutation].
  split; [|split; [|done]].
  - unfold report_recommendations.
    rewrite assess_quality_mutation_score.
    change (Qltb 0 70) with true. cbn match.
    repeat match goal with
           | |- context [if ?b then _ else _] => destruct b
           end;
      rewrite ?elem_of_app, ?list_elem_of_singleton; auto.
  - cbn [dict_get]. rewrite !assess_quality_mutation_score. reflexivity.
Qed.

(** X23. The report counts what the loop accepted. The tests of the report
    are the generated tests of the framework, none is listed as modified,
    the coverage did not go down, and the summary counts as added exactly
    the tests that the loop appended: with none the report lists no
    improvement, otherwise its last improvement is their number. Without
    generation the framework is left as it was. *)
Theorem audit_report_counts_accepted (py_int : string → option Z)
    (format_1f : Q → string) (str_int : Z → string) (project_name : string)
    (s : TestingFramework.t) (mutation_before mutation_after : ProcessOutcome)
    (generate run_mutation_testing : bool) (max_iterations : Z)
    (o : Oracle) :
  let run :=
    run_full_audit py_int format_1f str_int project_name s mutation_before
      mutation_after generate run_mutation_testing max_iterations o in
  let summary := AuditReport.get_improvement_summary run.2 in
  ∃ extra : list TestCase.t,
    TestingFramework.test_cases run.1.2
    = TestingFramework.test_cases s ++ extra
    ∧ AuditReport.generated_tests run.2
      = TestingFramework.generated_tests s ++ extra
    ∧ AuditReport.modified_tests run.2 = []
    ∧ dict_get summary "tests_added" = Some (inject_Z (len extra))
    ∧ (∃ delta, dict_get summary "coverage_delta" = Some delta
                ∧ (0 <= delta)%Q)
    ∧ (extra = [] → AuditReport.improvements run.2 = [])
    ∧ (extra ≠ [] →
       last (AuditReport.improvements run.2)
       = Some ("Added " +:+ str_int (len extra) +:+ " new test cases"))
    ∧ (generate = false → extra = [] ∧ run.1.2 = s).
Proof.
  intros run summary. subst summary.
  destruct (run_full_audit_report py_int format_1f str_int project_name s
              mutation_before mutation_after generate run_mutation_testing
              max_iterations o) as (o2 & extra & Happ & Hno & Hrep).
  fold run in Happ, Hno, Hrep. rewrite Hrep.
  destruct Happ as (Hc & Ht & Hg & _).
  exists extra. split; [done|]. split; [done|]. split; [done|].
  unfold _generate_audit_report, AuditReport.get_improvement_summary.
  cbn [AuditReport.improvements AuditReport.before_metrics
       AuditReport.after_metrics].
  unfold report_improvements.
  rewrite !assess_quality_total_tests, !assess_quality_coverage, Hc, Ht.
  assert (Hadded : len (TestingFramework.test_cases s ++ extra)
                   - len (TestingFramework.test_cases s) = len extra).
  { unfold len. rewrite length_app. lia. }
  rewrite Hadded.
  assert (Hcov : covered_units (TestingFramework.test_cases s)
                 ⊆ covered_units (TestingFramework.test_cases s ++ extra)).
  { rewrite !covered_units_union, fmap_app, union_list_app_L.
    apply union_subseteq_l. }
  set (b := match TestingFramework.code_units s with
            | [] => 0%Q
            | _ => (inject_Z (Z.of_nat (size (covered_units
                      (TestingFramework.test_cases s))))
                    / inject_Z (len (TestingFramework.code_units s))
                    * 100)%Q
            end).
  set (a := match TestingFramework.code_units s with
            | [] => 0%Q
            | _ => (inject_Z (Z.of_nat (size (covered_units
                      (TestingFramework.test_cases s ++ extra))))
                    / inject_Z (len (TestingFramework.code_units s))
                    * 100)%Q
            end).
  assert (Hba : (b <= a)%Q).
  { subst a b. destruct (TestingFramework.code_units s) as [|u units];
      [apply Qle_refl|].
    apply percentage_mono. by apply subseteq_size. }
  split; [done|]. split; [exists (a - b)%Q; split; [done|lra]|].
  split; [|split; [|exact Hno]].
  - intros ->. subst a b. rewrite app_nil_r.
    assert (Hz : Qltb 0 (match TestingFramework.code_units s with
                         | [] => 0%Q
                         | _ => (inject_Z (Z.of_nat (size (covered_units
                                   (TestingFramework.test_cases s))))
                                 / inject_Z
                                     (len (TestingFramework.code_units s))
                                 * 100)%Q
                         end
                         - match TestingFramework.code_units s with
                           | [] => 0%Q
                           | _ => (inject_Z (Z.of_nat (size (covered_units
                                     (TestingFramework.test_cases s))))
                                   / inject_Z
                                       (len (TestingFramework.code_units s))
                                   * 100)%Q
                           end) = false).
    { unfold Qltb. apply negb_false_iff, Qle_bool_iff. lra. }
    rewrite Hz. done.
  - intros Hne.
    assert (Hpos : (0 <? len extra) = true).
    { apply Z.ltb_lt. unfold len. destruct extra; [done|simpl; lia]. }
    rewrite Hpos. by rewrite last_snoc.
Qed.

(** ** More properties: the summary of the code base *)

Lemma count_units_cons (ty : CodeType) (u : CodeUnit.t)
    (units : list CodeUnit.t) :
  count_units ty (u :: units)
  = (if decide (CodeUnit.type u = ty) then 1 else 0) + count_units ty units.
Proof.
  unfold count_units, len. rewrite filter_cons.
  destruct (decide (CodeUnit.type u = ty)); simpl; lia.
Qed.

Lemma count_tests_cons (ty : TestType) (t : TestCase.t)
    (tests : list TestCase.t) :
  count_tests ty (t :: tests)
  = (if decide (TestCase.type t = ty) then 1 else 0) + count_tests ty tests.
Proof.
  unfold count_tests, len. rewrite filter_cons.
  destruct (decide (TestCase.type t = ty)); simpl; lia.
Qed.

(** X24. The counts of the summary add up. Every unit is counted under
    exactly one of the four kinds and every test under exactly one of the
    four types, which the summary lists in the order of the enumeration. *)
Theorem codebase_summary_adds_up (s : TestingFramework.t) :
  let summary := get_codebase_summary s in
  CodebaseSummary.modules summary + CodebaseSummary.classes summary
  + CodebaseSummary.functions summary + CodebaseSummary.methods summary
  = CodebaseSummary.total_code_units summary
  ∧ sum_of snd (CodebaseSummary.test_types summary)
    = CodebaseSummary.total_tests summary
  ∧ (CodebaseSummary.test_types summary).*1
    = ["unit"; "integration"; "functional"; "mutation"]
  ∧ 0 ≤ CodebaseSummary.modules summary
  ∧ 0 ≤ CodebaseSummary.classes summary
  ∧ 0 ≤ CodebaseSummary.functions summary
  ∧ 0 ≤ CodebaseSummary.methods summary.
Proof.
  intros summary. subst summary. unfold get_codebase_summary.
  cbn [CodebaseSummary.modules CodebaseSummary.classes
       CodebaseSummary.functions CodebaseSummary.methods
       CodebaseSummary.total_code_units CodebaseSummary.total_tests
       CodebaseSummary.test_types].
  split; [|split; [|split; [done|]]].
  - induction (TestingFramework.code_units s) as [|u units IH]; [done|].
    rewrite !count_units_cons.
    replace (len (u :: units)) with (1 + len units)
      by (unfold len; simpl; lia).
    destruct (CodeUnit.type u);
      repeat match goal with
             | |- context [decide ?P] => destruct (decide P); try done
             end; lia.
  - unfold sum_of. cbn [fmap list_fmap foldr snd].
    induction (TestingFramework.test_cases s) as [|t tests IH]; [done|].
    rewrite !count_tests_cons.
    replace (len (t :: tests)) with (1 + len tests)
      by (unfold len; simpl; lia).
    cbn [foldl snd] in IH |- *.
    destruct (TestCase.type t);
      repeat match goal with
             | |- context [decide ?P] => destruct (decide P); try done
             end; lia.
  - unfold count_units, len. lia.
Qed.

(** ** More properties: the generate command *)

(** X25. The [generate] command generates nothing. It asks a framework whose
    units were never set for its uncovered units, so whatever the mapping
    and the discovery found, it makes no request to the service, writes no
    file and reports 0 generated tests. *)
Theorem cli_generate_generates_nothing (o : Oracle)
    (test_dir : gmap string string) (code_units : list CodeUnit.t)
    (test_cases : list TestCase.t) :
  cli_generate o test_dir code_units test_cases = (o, test_dir, 0).
Proof.
  unfold cli_generate.
  generalize (take 10 (list_of_set (_identify_uncovered_units
    {| TestingFramework.code_units := [];
       TestingFramework.test_cases := [];
       TestingFramework.generated_tests := [];
       TestingFramework.test_dir := test_dir |}))) as names.
  induction names as [|x names IH]; [done|]. cbn [foldl]. exact IH.
Qed.

End Agents.

(** ** The agents on concrete inputs *)

Module PyStrExamples.
Import PyStr.

Example split_lines : split "010" ("a" +:+ nl +:+ "b") = ["a"; "b"].
Proof. reflexivity. Qed.

Example split_colon : split ":" "Coverage: 8: x" = ["Coverage"; " 8"; " x"].
Proof. reflexivity. Qed.

Example split_colon_none : split ":" "no colon" = ["no colon"].
Proof. reflexivity. Qed.

Example split_ws_tokens : split_ws "  8.5/10   ok " = ["8.5/10"; "ok"].
Proof. reflexivity. Qed.

Example strip_both : strip "  a b  " = "a b".
Proof. reflexivity. Qed.

Example lower_mixed : lower "Coverage OK" = "coverage ok".
Proof. reflexivity. Qed.

Example count_disjoint : count "aa" "aaaaa" = 2.
Proof. reflexivity. Qed.

Example find_missing : find "```" "abc" 0 = -1.
Proof. reflexivity. Qed.

Example find_after : find "```" "```a```" 3 = 4.
Proof. reflexivity. Qed.

Example slice_to_last : slice "abcdef" 2 (-1) = "cde".
Proof. reflexivity. Qed.

Example slice_empty : slice "abc" 3 (-1) = EmptyString.
Proof. reflexivity. Qed.

Example join_two : join ", " ["a"; "b"] = "a, b".
Proof. reflexivity. Qed.

Example path_of_test :
  path_name (path_parts "tests/test_f.py") = "test_f.py".
Proof. reflexivity. Qed.
End PyStrExamples.

(** C5. Two tests, the first with a body that the service rates 8, the
    second without a body. One rating is obtained, so the average over the
    sampled tests is 8; the code divides the total by the number of tests and
    returns 4. *)
Theorem clarity_divides_by_tests_without_source :
  let with_source := Stub.test_named "test_a" ∅ (Some "assert f() == 1") in
  let without_source := Stub.test_named "test_b" ∅ None in
  let run :=
    _assess_test_clarity Stub.scripted Stub.decimal
      [Content "8"; Content "0"] [with_source; without_source] in
  run.1 = [Content "0"] ∧ (run.2 == 4)%Q ∧ ¬ (run.2 == 8)%Q.
Proof. vm_compute. repeat split; intros; discriminate. Qed.

(** A line that mentions a criterion and carries no score is lost, not kept
    as feedback; and when a label is scored twice, its first score does not
    enter the mean. *)
Lemma judgment_parser_counterexample :
  let r1 := "Good coverage overall" in
  let r2 := "coverage: 10" +:+ PyStr.nl +:+ "coverage: 4" +:+ PyStr.nl
            +:+ "variety: 4" in
  (Judgment.feedback (_parse_judgment_response Stub.decimal r1) = Some []
   ∧ feedback_by_spec Stub.decimal (PyStr.split "010" r1)
     = ["Good coverage overall"])
  ∧ (∃ q, Judgment.overall_score (_parse_judgment_response Stub.decimal r2)
          = Some q
          ∧ (q == 4)%Q
          ∧ (overall_score_by_spec Stub.decimal (PyStr.split "010" r2)
             == 6)%Q).
Proof.
  split.
  - split; by vm_compute.
  - eexists. split; [by vm_compute|]. split; by vm_compute.
Qed.

(** The test generated for [f] is accepted while the same test is already
    among the working tests: the next assessment counts two tests, not one. *)
Lemma duplicate_add_counterexample :
  let unit := Stub.unit_named "f" in
  let test := generated_test unit "assert f() == 1" in
  let s := Stub.framework_of [unit] [test] in
  let script := [Content "8"; Content "8"] in
  TestCase.py_eq test test = true
  ∧ QualityMetrics.total_tests
      (assess_quality Stub.scripted Stub.decimal script [unit]
         (TestingFramework.test_cases s)).2 = 1
  ∧ QualityMetrics.total_tests
      (assess_quality Stub.scripted Stub.decimal script [unit]
         (TestingFramework.test_cases (accept s test))).2 = 2.
Proof. repeat split; by vm_compute. Qed.

(** The three cases of the rule on concrete tests. *)
Example low_quality_examples :
  _identify_low_quality_tests
    [Stub.test_with 0 0 1 (Some "x"); Stub.test_with 5 0 1 (Some "x");
     Stub.test_with 5 1 2 (Some "x"); Stub.test_with 0 0 6 None]
  = ["test_x (no assertions)"; "test_x (no mocking)";
     "test_x (no assertions, high complexity, no documentation)"].
Proof. reflexivity. Qed.

(** The duplicate at work: the set of identities is as before, the list has
    two entries. *)
Lemma accept_appends_duplicate_witness :
  let unit := Stub.unit_named "f" in
  let test := generated_test unit "assert f() == 1" in
  let s := Stub.framework_of [unit] [test] in
  len (TestingFramework.test_cases (accept s test)) = 2
  ∧ (list_to_set
       (TestCase.key <$> TestingFramework.test_cases (accept s test))
     : gset (string * list string * Z))
    = list_to_set (TestCase.key <$> TestingFramework.test_cases s).
Proof.
  intros unit test s.
  destruct (accept_appends_duplicate Stub.scripted Stub.decimal s test test)
    as (Hset & _ & Hlen & _).
  - apply list_elem_of_here.
  - reflexivity.
  - split; [exact Hlen|exact Hset].
Defined.

(** The loop itself reaches this state: the unit [f] stays a target because
    its test has no mock, and each pass adds the same test again. *)
Example loop_adds_the_same_test_twice :
  let unit := Stub.unit_named "f" in
  let test := generated_test unit "assert f() == 1" in
  let script :=
    [Content "assert f() == 1"; Content "coverage: 8";
     Content "assert f() == 1"; Content "coverage: 8"] in
  let run :=
    _improve_tests_iteratively Stub.scripted Stub.decimal elements 2 script
      (Stub.framework_of [unit] []) in
  TestingFramework.test_cases run.1.2 = [test; test]
  ∧ run.2 = [Improved; Improved].
Proof. split; by vm_compute. Qed.


(** A service that always raises: nothing is generated for [f], the loop
    goes on to [g], and no candidate is accepted. *)
Lemma oracle_failure_is_contained_witness :
  let unit := Stub.unit_named "f" in
  let s := Stub.framework_of [unit; Stub.unit_named "g"] [] in
  generate_tests Stub.scripted [] unit [] = ([], [])
  ∧ foldl (process_target Stub.scripted Stub.decimal) ([], s, false)
          ["f"; "g"]
    = foldl (process_target Stub.scripted Stub.decimal) ([], s, false) ["g"]
  ∧ ∀ test,
      judge_candidate Stub.scripted Stub.decimal unit ([], s, false) test
      = ([], s, false).
Proof.
  intros unit s.
  destruct (oracle_failure_is_contained Stub.scripted Stub.decimal
              [] [] s false "f" unit ["g"]) as [Hgen Hjudge].
  - reflexivity.
  - destruct Hgen as [H1 H2]; [reflexivity|].
    split; [exact H1|]. split; [exact H2|].
    intros test. destruct (Hjudge test) as [_ H3]; [reflexivity|exact H3].
Defined.

(** An opening fence that is never closed: the last character of the
    response, here the [1], is lost, and the fence line is not part of the
    result. *)
Lemma extract_unclosed_fence_witness :
  let response := "```python" +:+ PyStr.nl +:+ "assert f() == 1" in
  _extract_test_code response = PyStr.strip (PyStr.slice response 9 (-1))
  ∧ _extract_test_code response = "assert f() =="
  ∧ PyStr.strip response = response.
Proof.
  intros response.
  destruct (extract_unclosed_fence response 9) as (H & _ & _).
  - left. split; by vm_compute.
  - by vm_compute.
  - split; [exact H|]. split; by vm_compute.
Defined.

(** ** The choice of a provider ([src/llm_config.py]) *)

Lemma first_available_Ok (available : LLMConfig.Provider → option bool)
    (candidates : list LLMConfig.Provider) (p : LLMConfig.Provider) :
  LLMConfig.first_available available candidates = LLMConfig.Ok p
  ↔ ∃ l1 l2, candidates = l1 ++ p :: l2
             ∧ available p = Some true
             ∧ Forall (λ q, available q = Some false) l1.
Proof.
  induction candidates as [|c candidates IH]; cbn [LLMConfig.first_available].
  - split; [done|]. intros (l1 & l2 & Hnil & _). by destruct l1.
  - destruct (available c) as [[|]|] eqn:Hc.
    + split.
      * intros [= <-]. exists [], candidates. by repeat split.
      * intros ([|q l1] & l2 & Heq & Hp & Hall).
        -- by injection Heq as <- _.
        -- injection Heq as <- _. apply Forall_inv in Hall. congruence.
    + rewrite IH. split.
      * intros (l1 & l2 & -> & Hp & Hall). exists (c :: l1), l2.
        repeat split; [done|by constructor].
      * intros ([|q l1] & l2 & Heq & Hp & Hall).
        -- injection Heq as <- _. congruence.
        -- injection Heq as <- ->. exists l1, l2.
           repeat split; [done|by apply Forall_inv_tail in Hall].
    + split; [done|].
      intros ([|q l1] & l2 & Heq & Hp & Hall).
      * injection Heq as <- _. congruence.
      * injection Heq as <- _. apply Forall_inv in Hall. congruence.
Qed.

Lemma first_available_ValueError
    (available : LLMConfig.Provider → option bool)
    (candidates : list LLMConfig.Provider) :
  LLMConfig.first_available available candidates = LLMConfig.ValueError
  ↔ Forall (λ q, available q = Some false) candidates.
Proof.
  induction candidates as [|c candidates IH]; cbn [LLMConfig.first_available].
  - split; [by constructor|done].
  - destruct (available c) as [[|]|] eqn:Hc.
    + split; [done|]. intros Hall. apply Forall_inv in Hall. congruence.
    + rewrite IH. split.
      * intros Hall. by constructor.
      * intros Hall. by apply Forall_inv_tail in Hall.
    + split; [done|]. intros Hall. apply Forall_inv in Hall. congruence.
Qed.

Lemma first_available_no_KeyError
    (available : LLMConfig.Provider → option bool)
    (candidates : list LLMConfig.Provider) :
  Forall (λ q, is_Some (available q)) candidates →
  LLMConfig.first_available available candidates ≠ LLMConfig.KeyError.
Proof.
  induction candidates as [|c candidates IH]; cbn [LLMConfig.first_available];
    [done|].
  intros Hall. pose proof (Forall_inv Hall) as [b Hb]. rewrite Hb.
  destruct b; [done|]. apply IH. by apply Forall_inv_tail in Hall.
Qed.

Lemma priority_available (env : gmap string string) :
  Forall (λ q, is_Some (LLMConfig.get_available_providers env q))
         LLMConfig.priority.
Proof. unfold LLMConfig.priority. repeat constructor; by eexists. Qed.

Lemma available_in_priority (env : gmap string string)
    (p : LLMConfig.Provider) (b : bool) :
  LLMConfig.get_available_providers env p = Some b →
  p ∈ LLMConfig.priority.
Proof.
  unfold LLMConfig.priority. destruct p; cbn; intros H; try done;
    rewrite !elem_of_cons; auto 10.
Qed.

Lemma default_provider_cases (env : gmap string string) :
  (∃ p, LLMConfig.get_default_provider env = LLMConfig.Ok p
        ∧ LLMConfig.get_available_providers env p = Some true)
  ∨ (LLMConfig.get_default_provider env = LLMConfig.ValueError
     ∧ ∀ p, LLMConfig.get_available_providers env p ≠ Some true).
Proof.
  destruct (LLMConfig.get_default_provider env) as [p| |] eqn:Hd.
  - left. exists p. split; [done|].
    apply first_available_Ok in Hd as (_ & _ & _ & Hp & _). exact Hp.
  - right. split; [done|].
    apply first_available_ValueError in Hd.
    intros p Hp. pose proof (available_in_priority env p true Hp) as Hin.
    apply (proj1 (Forall_forall _ _) Hd) in Hin. congruence.
  - exfalso. revert Hd.
    apply first_available_no_KeyError, priority_available.
Qed.

(** X26. The default provider. It is the first provider of the priority list
    whose key is set to a text that is not empty; the call raises
    [ValueError] exactly when no provider has such a key, and the lookup in
    the table of providers never fails. *)
Theorem default_provider_by_priority (env : gmap string string) :
  (∀ p, LLMConfig.get_default_provider env = LLMConfig.Ok p
        ↔ ∃ l1 l2,
            LLMConfig.priority = l1 ++ p :: l2
            ∧ LLMConfig.get_available_providers env p = Some true
            ∧ Forall (λ q, LLMConfig.get_available_providers env q
                           = Some false) l1)
  ∧ (LLMConfig.get_default_provider env = LLMConfig.ValueError
     ↔ ∀ p, LLMConfig.get_available_providers env p ≠ Some true)
  ∧ LLMConfig.get_default_provider env ≠ LLMConfig.KeyError.
Proof.
  unfold LLMConfig.get_default_provider. split; [|split].
  - intros p. apply first_available_Ok.
  - rewrite first_available_ValueError. split.
    + intros Hall p Hp.
      pose proof (available_in_priority env p true Hp) as Hin.
      apply (proj1 (Forall_forall _ _) Hall) in Hin. congruence.
    + intros Hnone. apply Forall_forall. intros q Hq.
      pose proof (proj1 (Forall_forall _ _) (priority_available env) q Hq)
        as [b Hb].
      destruct b; [by apply Hnone in Hb|done].
  - apply first_available_no_KeyError, priority_available.
Qed.

(** X27. Creating a model. With the provider [CUSTOM] the availability check
    fails with [KeyError], whatever keys are set; with any other provider
    the call succeeds exactly when the key of that provider is set and
    raises [ValueError] otherwise. Without a provider the call takes the
    default provider, succeeds whenever that one exists, with the model
    asked for or else the default model of the provider, and raises
    [ValueError] exactly when no key is set. *)
Theorem create_llm_outcome (env : gmap string string) (model : option string)
    (temperature : Q) :
  LLMConfig.create_llm env (Some LLMConfig.CUSTOM) model temperature
  = LLMConfig.KeyError
  ∧ (∀ p, p ≠ LLMConfig.CUSTOM →
       LLMConfig.create_llm env (Some p) model temperature
       = if default false (LLMConfig.get_available_providers env p)
         then LLMConfig.Ok
                {| LLMConfig.model :=
                     default (LLMConfig.get_default_model p) model;
                   LLMConfig.provider := p;
                   LLMConfig.temperature := temperature;
                   LLMConfig.max_tokens := None |}
         else LLMConfig.ValueError)
  ∧ LLMConfig.create_llm env None model temperature
    = match LLMConfig.get_default_provider env with
      | LLMConfig.Ok p =>
          LLMConfig.Ok
            {| LLMConfig.model :=
                 default (LLMConfig.get_default_model p) model;
               LLMConfig.provider := p;
               LLMConfig.temperature := temperature;
               LLMConfig.max_tokens := None |}
      | _ => LLMConfig.ValueError
      end
  ∧ (LLMConfig.create_llm env None model temperature = LLMConfig.ValueError
     ↔ ∀ p, LLMConfig.get_available_providers env p ≠ Some true).
Proof.
  destruct (default_provider_cases env) as [(p & Hp & Hav)|[Hv Hnone]].
  - split; [done|]. split.
    { intros q Hq. unfold LLMConfig.create_llm.
      destruct q; try done; cbn;
        match goal with |- context [LLMConfig.has_key ?e ?k] =>
          destruct (LLMConfig.has_key e k) end; done. }
    unfold LLMConfig.create_llm. rewrite Hp, Hav.
    split; [done|]. split; [done|]. intros Hnone. by apply Hnone in Hav.
  - split; [done|]. split.
    { intros q Hq. unfold LLMConfig.create_llm.
      destruct q; try done; cbn;
        match goal with |- context [LLMConfig.has_key ?e ?k] =>
          destruct (LLMConfig.has_key e k) end; done. }
    unfold LLMConfig.create_llm. rewrite Hv. done.
Qed.

Lemma export_id (name : string) (env : gmap string string) :
  LLMConfig.export name env = env.
Proof.
  unfold LLMConfig.export. destruct (env !! name) as [v|] eqn:Hv; [|done].
  destruct (PyStr.truthy v); [|done]. by apply insert_id.
Qed.

(** X28. Setting up the environment changes nothing: every variable the code
    writes gets the value it was read with. *)
Theorem setup_environment_identity (env : gmap string string) :
  LLMConfig._setup_environment env = env.
Proof.
  unfold LLMConfig._setup_environment.
  destruct (LLMConfig.has_key env "AZURE_API_KEY"); by rewrite !export_id.
Qed.

(** ** More runs on concrete inputs *)

(** A discovered test names no unit: the unit [f] is uncovered although a
    test exists, and no unit is of low quality. *)
Lemma tests_without_associations_witness :
  let s :=
    Stub.framework_of [Stub.unit_named "f"]
                      [Stub.test_named "test_f" ∅ None] in
  _identify_uncovered_units s = {[ "f" ]}
  ∧ _identify_low_quality_units s = ∅.
Proof.
  intros s.
  destruct (tests_without_associations Stub.scripted Stub.decimal elements
              [] s) as (_ & _ & Hu & Hl).
  - repeat constructor.
  - split; [|exact Hl]. rewrite Hu. by vm_compute.
Defined.

(** A reply with a sentence before and after the fence. *)
Lemma extract_fenced_code_witness :
  _extract_test_code
    ("Here is the test:" +:+ PyStr.nl +:+ "```python" +:+ PyStr.nl
     +:+ "assert f() == 1" +:+ PyStr.nl +:+ "```" +:+ PyStr.nl +:+ "Done.")
  = "assert f() == 1".
Proof.
  exact (extract_fenced_code ("Here is the test:" +:+ PyStr.nl)
           "assert f() == 1" (PyStr.nl +:+ "Done.") eq_refl eq_refl).
Defined.

(** One score of 8: the candidate is accepted. *)
Lemma acceptance_from_scores_witness :
  let unit := Stub.unit_named "f" in
  let test := generated_test unit "assert f() == 1" in
  let s := Stub.framework_of [unit] [] in
  judge_candidate Stub.scripted Stub.decimal unit
    ([Content "coverage: 8"], s, false) test
  = ([], accept s test, true).
Proof.
  intros unit test s.
  destruct (acceptance_from_scores Stub.scripted Stub.decimal
              [Content "coverage: 8"] [] s false unit test "coverage: 8"
              eq_refl eq_refl) as (_ & Hacc & _).
  apply Hacc.
  - by vm_compute.
  - vm_compute. repeat constructor. discriminate.
Defined.

(** A first test with one assertion and no mock. *)
Lemma first_test_leaves_unit_low_quality_witness :
  let unit := Stub.unit_named "f" in
  let s := Stub.framework_of [unit] [] in
  let s' := accept s (generated_test unit "assert f() == 1") in
  "f" ∈ _identify_low_quality_units s' ∧ target_units elements s' ≠ [].
Proof.
  intros unit s s'.
  destruct (first_test_leaves_unit_low_quality Stub.decimal elements s unit
              "assert f() == 1") as (Hlow & _ & Htargets).
  - by vm_compute.
  - left. by vm_compute.
  - split; [exact Hlow|]. apply Htargets.
    intros X x. apply elem_of_elements.
Defined.

Lemma stub_digits_nonneg (s : string) (acc n : Z) :
  0 ≤ acc → Stub.digits s acc = Some n → 0 ≤ n.
Proof.
  revert acc. induction s as [|c s IH]; intros acc Hacc; cbn [Stub.digits].
  - intros [= <-]. exact Hacc.
  - unfold Stub.digit.
    destruct ((48 <=? N_of_ascii c) && (N_of_ascii c <=? 57))%N; [|done].
    apply IH. lia.
Qed.

Lemma stub_int_nonneg : int_of_digits_nonneg StubMore.int.
Proof.
  intros part n _. unfold StubMore.int.
  destruct (PyStr.truthy part); [|done]. by apply stub_digits_nonneg.
Qed.

(** Five killed and two survivors. *)
Lemma mutation_results_invariants_witness :
  let r :=
    _parse_mutmut_results StubMore.int
      ("5 killed" +:+ PyStr.nl +:+ "2 surviving") EmptyString in
  MutationResults.total_mutations r = 7
  ∧ (0 <= MutationResults.mutation_score r <= 100)%Q.
Proof.
  intros r.
  destruct (mutation_results_invariants StubMore.int
              ("5 killed" +:+ PyStr.nl +:+ "2 surviving") EmptyString
              stub_int_nonneg) as (_ & _ & Htotal & _ & Hscore & _).
  fold r in Htotal, Hscore. split; [|exact Hscore].
  rewrite Htotal. by vm_compute.
Defined.

(** Two units, one of them listed by the only test: half is covered. *)
Lemma coverage_within_bounds_witness :
  let units := [Stub.unit_named "f"; Stub.unit_named "g"] in
  let tests := [Stub.test_named "test_f" {[ "f" ]} None] in
  (0 <= QualityMetrics.coverage_percentage
          (assess_quality Stub.scripted Stub.decimal [] units tests).2
   <= 100)%Q.
Proof.
  intros units tests.
  apply (coverage_within_bounds Stub.scripted Stub.decimal elements []
           units tests).
  cbv [covered_units unit_names foldl tests units Stub.test_named
       Stub.unit_named TestCase.tested_units CodeUnit.name].
  set_solver.
Defined.

(** A service that rates every test 8. *)
Lemma clarity_score_range_witness :
  let rate_8 := λ (o : ()) (_ : Prompt), (o, Content "8") in
  let tests :=
    [Stub.test_named "test_a" ∅ (Some "assert f() == 1");
     Stub.test_named "test_b" ∅ None] in
  (0 <= (_assess_test_clarity rate_8 Stub.decimal () tests).2 <= 10)%Q.
Proof.
  intros rate_8 tests.
  apply (clarity_score_range rate_8 Stub.decimal () tests).
  intros o p o' text [= _ <-]. reflexivity.
Defined.

(** C10. The result is trimmed. After an unclosed fence the part of the
    response from the fence to the last character starts with a line break
    and ends with a space here; the code returned has neither. *)
Lemma extract_unclosed_fence_counterexample :
  let response := "```python" +:+ PyStr.nl +:+ "assert f() == 1" in
  PyStr.contains "```python" response = true
  ∧ PyStr.find "```" response 9 = -1
  ∧ PyStr.slice response 9 (-1) = PyStr.nl +:+ "assert f() == "
  ∧ _extract_test_code response = "assert f() =="
  ∧ _extract_test_code response ≠ PyStr.slice response 9 (-1).
Proof.
  intros response.
  split; [by vm_compute|]. split; [by vm_compute|].
  split; [by vm_compute|]. split; [by vm_compute|].
  intros Heq. vm_compute in Heq. discriminate Heq.
Qed.
